(** * Analytics and forecasting engine of the Shopify MCP server

    A shallow embedding of the four analytics tool handlers registered by
    [registerAnalyticsTools] (src/tools/discounts.ts, lines 640-1344):
    [shopify_store_analytics], [shopify_forecast],
    [shopify_conversion_analysis] and [shopify_product_performance],
    together with the code around them: the helpers of the API client
    (src/services/shopify-client.ts, module [Client]), the length check
    and the mutation input of the discount tools (src/tools/discounts.ts,
    lines 64-393, module [Discounts]) and the parts of the markdown
    reports that depend on the computed figures.

    Modelling conventions.
    - A JavaScript number is a value of [number]: a finite value carried as
      an exact rational, or one of [PInf], [NInf], [NaN].  Arithmetic on the
      special values follows IEEE 754 as JavaScript exposes it; arithmetic on
      finite values is exact (binary64 rounding, overflow and the sign of
      zero are not modelled).
    - Records fetched from the Admin API are the inputs of the handlers:
      the model starts after [executeGraphQL] has returned.
    - [Date] values are epoch milliseconds in [Z]; calendar fields are read
      in UTC (the handlers read them in the local zone of the server).
    - A handler that can throw returns a [completion]. *)

From Stdlib Require Import ZArith QArith Qround Qabs Qpower.
From Stdlib Require Import String Ascii List Bool Lia Lqa Psatz.
From Stdlib Require Import Sorted Permutation.
Import ListNotations.

Local Open Scope string_scope.

(* ================================================================== *)
(** ** JavaScript values and built-ins used by the handlers *)

Module JS.

(** *** Numbers *)

Inductive number : Type :=
| Fin (q : Q)
| PInf
| NInf
| NaN.

Definition Qlt_bool (a b : Q) : bool := negb (Qle_bool b a).

Definition of_Z (z : Z) : number := Fin (inject_Z z).
Definition of_nat (n : nat) : number := of_Z (Z.of_nat n).

Definition neg (x : number) : number :=
  match x with
  | Fin a => Fin (- a)
  | PInf => NInf
  | NInf => PInf
  | NaN => NaN
  end.

Definition add (x y : number) : number :=
  match x, y with
  | NaN, _ | _, NaN => NaN
  | Fin a, Fin b => Fin (a + b)
  | PInf, NInf | NInf, PInf => NaN
  | PInf, _ | _, PInf => PInf
  | NInf, _ | _, NInf => NInf
  end.

Definition sub (x y : number) : number := add x (neg y).

(** Sign of an infinity times a finite factor: zero gives [NaN]. *)
Definition scale_inf (positive : bool) (a : Q) : number :=
  if Qeq_bool a 0 then NaN
  else if xorb positive (Qlt_bool a 0) then PInf else NInf.

Definition mul (x y : number) : number :=
  match x, y with
  | NaN, _ | _, NaN => NaN
  | Fin a, Fin b => Fin (a * b)
  | PInf, Fin a | Fin a, PInf => scale_inf true a
  | NInf, Fin a | Fin a, NInf => scale_inf false a
  | PInf, PInf | NInf, NInf => PInf
  | PInf, NInf | NInf, PInf => NInf
  end.

(** Division.  A zero divisor gives [NaN] for a zero dividend and an
    infinity otherwise (the divisor is taken as positive zero). *)
Definition div (x y : number) : number :=
  match x, y with
  | NaN, _ | _, NaN => NaN
  | Fin a, Fin b =>
      if Qeq_bool b 0 then
        if Qeq_bool a 0 then NaN
        else if Qlt_bool a 0 then NInf else PInf
      else Fin (a / b)
  | Fin _, (PInf | NInf) => Fin 0
  | (PInf | NInf), (PInf | NInf) => NaN
  | PInf, Fin b => if Qlt_bool b 0 then NInf else PInf
  | NInf, Fin b => if Qlt_bool b 0 then PInf else NInf
  end.

(** [x < y]; false as soon as one side is [NaN]. *)
Definition lt (x y : number) : bool :=
  match x, y with
  | NaN, _ | _, NaN => false
  | Fin a, Fin b => Qlt_bool a b
  | NInf, NInf => false
  | NInf, _ => true
  | _, NInf => false
  | PInf, _ => false
  | Fin _, PInf => true
  end.

Definition gt (x y : number) : bool := lt y x.

(** [x <= y]. *)
Definition le (x y : number) : bool :=
  match x, y with
  | NaN, _ | _, NaN => false
  | Fin a, Fin b => Qle_bool a b
  | NInf, _ => true
  | _, PInf => true
  | _, NInf => false
  | PInf, _ => false
  end.

(** [x === y] on numbers. *)
Definition strict_eq (x y : number) : bool :=
  match x, y with
  | Fin a, Fin b => Qeq_bool a b
  | PInf, PInf | NInf, NInf => true
  | _, _ => false
  end.

(** Truthiness of a number: [0] and [NaN] are falsy. *)
Definition truthy (x : number) : bool :=
  match x with
  | Fin a => negb (Qeq_bool a 0)
  | NaN => false
  | _ => true
  end.

Definition isFinite (x : number) : bool :=
  match x with Fin _ => true | _ => false end.

(** Equality of numbers up to the representation of the rational. *)
Definition num_eq (x y : number) : Prop :=
  match x, y with
  | Fin a, Fin b => a == b
  | PInf, PInf | NInf, NInf | NaN, NaN => True
  | _, _ => False
  end.

(** [Math.max(x, y)]. *)
Definition Math_max (x y : number) : number :=
  match x, y with
  | NaN, _ | _, NaN => NaN
  | _, _ => if lt x y then y else x
  end.

(** [Math.round(x)]: the nearest integer, ties towards +Infinity. *)
Definition Math_round (x : number) : number :=
  match x with
  | Fin a => of_Z (Qfloor (a + (1 # 2)))
  | _ => x
  end.

(** [Math.sqrt(x)].  The root of a finite non-negative value is carried
    with [sqrt_bits] fractional bits, truncated; the properties used
    below are that it is non-negative and monotone. *)
Definition sqrt_bits : Z := 64.

Definition sqrtQ (a : Q) : Q :=
  inject_Z (Z.sqrt (Qfloor (a * inject_Z (4 ^ sqrt_bits))))
  / inject_Z (2 ^ sqrt_bits).

Definition Math_sqrt (x : number) : number :=
  match x with
  | Fin a => if Qlt_bool a 0 then NaN else Fin (sqrtQ a)
  | PInf => PInf
  | NInf | NaN => NaN
  end.

(** *** Strings *)

Definition is_digit (c : ascii) : bool :=
  let n := N_of_ascii c in ((48 <=? n) && (n <=? 57))%N.

Definition digit_val (c : ascii) : N := (N_of_ascii c - 48)%N.

Definition digit_char (d : N) : ascii := ascii_of_N (48 + d).

(** Value of a run of decimal digits, most significant first. *)
Definition digits_val (ds : list ascii) : N :=
  fold_left (fun acc c => (10 * acc + digit_val c)%N) ds 0%N.

Fixpoint digits_aux (fuel : nat) (n : N) (acc : list ascii) : list ascii :=
  match fuel with
  | O => acc
  | S k =>
      let acc' := digit_char (n mod 10) :: acc in
      if (n / 10 =? 0)%N then acc' else digits_aux k (n / 10) acc'
  end.

(** Decimal digits of [n], no leading zero, ["0"] for zero. *)
Definition digits (n : N) : list ascii :=
  digits_aux (S (N.to_nat (N.log2 n))) n [].

Definition str (l : list ascii) : string := string_of_list_ascii l.
Definition chars (s : string) : list ascii := list_ascii_of_string s.

(** [String(z)] for an integer. *)
Definition Z_toString (z : Z) : string :=
  if (z <? 0)%Z then "-" ++ str (digits (Z.abs_N z)) else str (digits (Z.abs_N z)).

(** [s.padStart(2, "0")]. *)
Definition padStart2 (s : string) : string :=
  match String.length s with
  | O => "00"
  | S O => "0" ++ s
  | _ => s
  end.

(** [s.includes(sub)]. *)
Fixpoint includes (s sub : string) : bool :=
  String.prefix sub s
  || match s with
     | EmptyString => false
     | String _ rest => includes rest sub
     end.

Definition lower_char (c : ascii) : ascii :=
  let n := N_of_ascii c in
  if ((65 <=? n) && (n <=? 90))%N then ascii_of_N (n + 32) else c.

(** [s.toLowerCase()] on the ASCII range. *)
Fixpoint toLowerCase (s : string) : string :=
  match s with
  | EmptyString => EmptyString
  | String c rest => String (lower_char c) (toLowerCase rest)
  end.

(** [s.endsWith(suffix)]. *)
Definition endsWith (s suffix : string) : bool :=
  let n := String.length s in
  let m := String.length suffix in
  (m <=? n)%nat && String.eqb (String.substring (n - m) m s) suffix.

(** Truthiness of an optional string ([undefined], [null] and [""] are
    falsy) and the [a || b] idiom over it. *)
Definition truthy_str (s : option string) : bool :=
  match s with
  | Some (String _ _) => true
  | _ => false
  end.

Definition or_else (a : option string) (b : string) : string :=
  match a with
  | Some (String c r) => String c r
  | _ => b
  end.

(** *** [Number.prototype.toFixed] *)

(** The integer [n] closest to [a * 10^f] for [a >= 0], the larger one on
    a tie. *)
Definition scaled_round (f : nat) (a : Q) : Z :=
  Qfloor (a * inject_Z (10 ^ Z.of_nat f) + (1 # 2)).

(** The digits of [n] padded on the left to at least [f + 1] digits, with
    a decimal point before the last [f] digits when [f <> 0]. *)
Definition fixed_body (f : nat) (n : N) : list ascii :=
  let ds := digits n in
  let padded := (repeat "0"%char (S f - List.length ds) ++ ds)%list in
  let k := (List.length padded - f)%nat in
  match f with
  | O => padded
  | _ => (firstn k padded ++ "."%char :: skipn k padded)%list
  end.

(** [x.toFixed(f)].  Values of 1e21 and above, which JavaScript prints in
    exponent notation, are outside the model. *)
Definition toFixed (f : nat) (x : number) : string :=
  match x with
  | NaN => "NaN"
  | PInf => "Infinity"
  | NInf => "-Infinity"
  | Fin a =>
      let body := str (fixed_body f (Z.to_N (scaled_round f (Qabs a)))) in
      if Qlt_bool a 0 then "-" ++ body else body
  end.

(** The number a [toFixed] string denotes. *)
Definition toFixed_value (f : nat) (a : Q) : Q :=
  let v := inject_Z (scaled_round f (Qabs a)) / inject_Z (10 ^ Z.of_nat f) in
  if Qlt_bool a 0 then - v else v.

(** *** [parseFloat] *)

Definition is_space (c : ascii) : bool :=
  let n := N_of_ascii c in
  ((n =? 32) || ((9 <=? n) && (n <=? 13)))%N.

Fixpoint skip_spaces (s : list ascii) : list ascii :=
  match s with
  | c :: rest => if is_space c then skip_spaces rest else s
  | [] => []
  end.

(** The longest prefix of digits and the rest. *)
Fixpoint span_digits (s : list ascii) : list ascii * list ascii :=
  match s with
  | c :: rest =>
      if is_digit c then
        let (ds, r) := span_digits rest in (c :: ds, r)
      else ([], s)
  | [] => ([], [])
  end.

Fixpoint starts_with (p s : list ascii) : bool :=
  match p, s with
  | [], _ => true
  | a :: p', b :: s' => Ascii.eqb a b && starts_with p' s'
  | _ :: _, [] => false
  end.

Definition read_sign (s : list ascii) : bool * list ascii :=
  match s with
  | "-"%char :: r => (true, r)
  | "+"%char :: r => (false, r)
  | _ => (false, s)
  end.

(** The exponent part [e[+-]digits], zero when it is absent or has no
    digit. *)
Definition read_exponent (s : list ascii) : Z :=
  match s with
  | c :: r =>
      if Ascii.eqb c "e" || Ascii.eqb c "E" then
        let (eneg, r1) := read_sign r in
        let (ed, _) := span_digits r1 in
        match ed with
        | [] => 0%Z
        | _ => if eneg then (- Z.of_N (digits_val ed))%Z else Z.of_N (digits_val ed)
        end
      else 0%Z
  | [] => 0%Z
  end.

(** [parseFloat(s)]: leading white space is skipped, the longest prefix
    that is a decimal literal is read, [NaN] when there is none. *)
Definition parseFloat (s : string) : number :=
  let s1 := skip_spaces (chars s) in
  let (negative, s2) := read_sign s1 in
  if starts_with (chars "Infinity") s2 then (if negative then NInf else PInf)
  else
    let (ip, s3) := span_digits s2 in
    let (fp, s4) :=
      match s3 with
      | "."%char :: r => span_digits r
      | _ => ([], s3)
      end in
    match (ip ++ fp)%list with
    | [] => NaN
    | ds =>
        let e := (read_exponent s4 - Z.of_nat (List.length fp))%Z in
        let v := inject_Z (Z.of_N (digits_val ds)) * (inject_Z 10) ^ e in
        Fin (if negative then - v else v)
    end.

(** *** Completions *)

Inductive completion (A : Type) : Type :=
| Returned (a : A)
| Thrown (error : string).

Arguments Returned {A} a.
Arguments Thrown {A} error.

Definition bind {A B} (c : completion A) (k : A -> completion B) : completion B :=
  match c with
  | Returned a => k a
  | Thrown e => Thrown e
  end.

End JS.

Import JS.

Declare Scope js_scope.
Delimit Scope js_scope with js.
Infix "+" := JS.add : js_scope.
Infix "-" := JS.sub : js_scope.
Infix "*" := JS.mul : js_scope.
Infix "/" := JS.div : js_scope.
Infix "==" := JS.num_eq (at level 70, no associativity) : js_scope.
Notation "x <- c ;; k" := (JS.bind c (fun x => k))
  (at level 61, c at next level, right associativity) : js_scope.

(* ================================================================== *)
(** ** [Date]: calendar fields of an epoch time *)

Module DateModel.

Definition msPerDay : Z := 86400000.

(** Largest time value of a valid [Date] (8.64e15 ms either side of the
    epoch); [new Date(t)] beyond it is an Invalid Date. *)
Definition maxTime : Z := 8640000000000000.

Definition valid (t : Z) : bool := (Z.abs t <=? maxTime)%Z.

(** Proleptic Gregorian date (year, month 1..12, day 1..31) of a day
    number counted from 1970-01-01. *)
Definition civil_from_days (days : Z) : Z * Z * Z :=
  let z := (days + 719468)%Z in
  let era := (z / 146097)%Z in
  let doe := (z mod 146097)%Z in
  let yoe := ((doe - doe / 1460 + doe / 36524 - doe / 146096) / 365)%Z in
  let y := (yoe + era * 400)%Z in
  let doy := (doe - (365 * yoe + yoe / 4 - yoe / 100))%Z in
  let mp := ((5 * doy + 2) / 153)%Z in
  let d := (doy - (153 * mp + 2) / 5 + 1)%Z in
  let m := (if mp <? 10 then mp + 3 else mp - 9)%Z in
  ((if m <=? 2 then y + 1 else y)%Z, m, d).

Definition day_of (t : Z) : Z := (t / msPerDay)%Z.

(** [date.getFullYear()]. *)
Definition getFullYear (t : Z) : Z := fst (fst (civil_from_days (day_of t))).

(** [date.getMonth()], 0 for January. *)
Definition getMonth (t : Z) : Z := (snd (fst (civil_from_days (day_of t))) - 1)%Z.

(** [date.getDate()]. *)
Definition getDate (t : Z) : Z := snd (civil_from_days (day_of t)).

(** [date.toISOString().split('T')[0]]; [toISOString] throws a
    [RangeError] on an Invalid Date.  Years are taken in 0..9999. *)
Definition pad4 (s : string) : string :=
  match String.length s with
  | 0%nat => "0000"
  | 1%nat => "000" ++ s
  | 2%nat => "00" ++ s
  | 3%nat => "0" ++ s
  | _ => s
  end.

Definition isoDate (t : Z) : JS.completion string :=
  if valid t then
    JS.Returned (pad4 (JS.Z_toString (getFullYear t)) ++ "-"
                 ++ JS.padStart2 (JS.Z_toString (getMonth t + 1)) ++ "-"
                 ++ JS.padStart2 (JS.Z_toString (getDate t)))
  else JS.Thrown "RangeError: Invalid time value".

(** The time value of [new Date(x)] for a finite number [x]: the
    fraction is dropped. *)
Definition timeClip (x : Q) : Z :=
  if JS.Qlt_bool x 0 then Qceiling x else Qfloor x.

End DateModel.

(* ================================================================== *)
(** ** [URL]: the hostname of an absolute URL

    [hostname url] stands for [new URL(url).hostname], [None] when the
    constructor throws.  It follows the WHATWG parser for the shapes a
    referrer takes: [scheme:] followed, for the special schemes, by any
    number of slashes, an optional [userinfo@], the host and an optional
    [:port].  Percent-decoding, IDNA and IPv4 normalisation of the host
    are left out. *)

Module URL.

Definition is_alpha (c : ascii) : bool :=
  let n := N_of_ascii c in
  (((65 <=? n) && (n <=? 90)) || ((97 <=? n) && (n <=? 122)))%N.

Definition is_scheme_char (c : ascii) : bool :=
  is_alpha c || JS.is_digit c
  || Ascii.eqb c "+" || Ascii.eqb c "-" || Ascii.eqb c ".".

(** Leading and trailing C0 controls and spaces are stripped; tabs and
    newlines are removed everywhere. *)
Definition is_c0_or_space (c : ascii) : bool := (N_of_ascii c <=? 32)%N.

Definition is_tab_or_newline (c : ascii) : bool :=
  let n := N_of_ascii c in ((n =? 9) || (n =? 10) || (n =? 13))%N.

Fixpoint drop_while (p : ascii -> bool) (s : list ascii) : list ascii :=
  match s with
  | c :: r => if p c then drop_while p r else s
  | [] => []
  end.

Definition clean (s : list ascii) : list ascii :=
  let s1 := drop_while is_c0_or_space s in
  let s2 := rev (drop_while is_c0_or_space (rev s1)) in
  filter (fun c => negb (is_tab_or_newline c)) s2.

(** Splits before the first character satisfying [p]. *)
Fixpoint break (p : ascii -> bool) (s : list ascii) : list ascii * list ascii :=
  match s with
  | c :: r => if p c then ([], s) else let (a, b) := break p r in (c :: a, b)
  | [] => ([], [])
  end.

(** The scheme, lower-cased, and what follows the colon. *)
Definition read_scheme (s : list ascii) : option (list ascii * list ascii) :=
  match s with
  | c :: _ =>
      if is_alpha c then
        let (sch, rest) := break (fun c => negb (is_scheme_char c)) s in
        match rest with
        | ":"%char :: r => Some (map JS.lower_char sch, r)
        | _ => None
        end
      else None
  | [] => None
  end.

Definition is_special (scheme : list ascii) : bool :=
  existsb (fun k => String.eqb (JS.str scheme) k)
          ["http"; "https"; "ws"; "wss"; "ftp"; "file"].

Definition is_slash (c : ascii) : bool := Ascii.eqb c "/" || Ascii.eqb c "\".

(** What follows the last ["@"], the whole when there is none. *)
Fixpoint after_last_at (s : list ascii) : list ascii :=
  match s with
  | c :: r =>
      if existsb (Ascii.eqb "@") r then after_last_at r
      else if Ascii.eqb c "@" then r else s
  | [] => []
  end.

Definition forbidden_host_char (c : ascii) : bool :=
  let n := N_of_ascii c in
  ((n <=? 32) || (n =? 127) || (128 <=? n))%N
  || existsb (Ascii.eqb c)
       ["#"; "/"; ":"; "<"; ">"; "?"; "@"; "["; "\"; "]"; "^"; "|"; "%"]%char.

(** Host and port of an authority without user information. *)
Definition split_port (s : list ascii) : option (list ascii) :=
  let (host, rest) := break (Ascii.eqb ":") s in
  match rest with
  | [] => Some host
  | _ :: port =>
      if forallb JS.is_digit port && (JS.digits_val port <=? 65535)%N
      then Some host else None
  end.

Definition hostname (url : string) : option string :=
  match read_scheme (clean (JS.chars url)) with
  | None => None
  | Some (scheme, rest) =>
      if is_special scheme then
        let after :=
          if String.eqb (JS.str scheme) "file" then
            match rest with
            | a :: b :: r => if is_slash a && is_slash b then Some r else None
            | _ => None
            end
          else Some (drop_while is_slash rest) in
        match after with
        | None => Some ""
        | Some r =>
            let (authority, _) :=
              break (fun c => is_slash c || Ascii.eqb c "?" || Ascii.eqb c "#") r in
            match split_port (after_last_at authority) with
            | None => None
            | Some host =>
                if existsb forbidden_host_char host then None
                else
                  match host with
                  | [] => if String.eqb (JS.str scheme) "file" then Some "" else None
                  | _ => Some (JS.str (map JS.lower_char host))
                  end
            end
        end
      else
        match rest with
        | "/"%char :: "/"%char :: r =>
            let (authority, _) :=
              break (fun c => Ascii.eqb c "/" || Ascii.eqb c "?" || Ascii.eqb c "#") r in
            match split_port (after_last_at authority) with
            | None => None
            | Some host => Some (JS.str host)
            end
        | _ => Some ""
        end
  end.

End URL.

(* ================================================================== *)
(** ** Helpers of the API client (src/services/shopify-client.ts) *)

Module Client.

Definition SHOPIFY_API_VERSION : string := "2024-10".

(** [s] without its prefix [p], when it starts with [p]. *)
Fixpoint strip_prefix (p s : string) : option string :=
  match p, s with
  | EmptyString, _ => Some s
  | String a p', String b s' => if Ascii.eqb a b then strip_prefix p' s' else None
  | String _ _, EmptyString => None
  end.

(** [s.replace(/^https?:\/\//, "")]. *)
Definition strip_scheme (s : string) : string :=
  match strip_prefix "https://" s with
  | Some rest => rest
  | None =>
      match strip_prefix "http://" s with
      | Some rest => rest
      | None => s
      end
  end.

(** [s.replace(/\/$/, "")]. *)
Fixpoint strip_trailing_slash (s : string) : string :=
  match s with
  | EmptyString => EmptyString
  | String c rest =>
      match rest with
      | EmptyString => if Ascii.eqb c "/" then EmptyString else s
      | String _ _ => String c (strip_trailing_slash rest)
      end
  end.

(** [getConfig]; the arguments are [process.env.SHOPIFY_SHOP_DOMAIN] and
    [process.env.SHOPIFY_ACCESS_TOKEN]. *)
Definition getConfig (shopDomain accessToken : option string)
  : completion (string * string) :=
  if negb (truthy_str shopDomain) then
    Thrown ("Error: SHOPIFY_SHOP_DOMAIN environment variable is required. "
            ++ "Set it to your shop's myshopify.com domain (e.g., 'your-store.myshopify.com')")
  else if negb (truthy_str accessToken) then
    Thrown ("Error: SHOPIFY_ACCESS_TOKEN environment variable is required. "
            ++ "Generate an access token from your Shopify admin under Apps > Develop apps")
  else Returned (or_else shopDomain "", or_else accessToken "").

Definition normalizedDomain (shopDomain : string) : string :=
  strip_trailing_slash (strip_scheme shopDomain).

(** [createClient]: the [baseURL] of the axios instance it creates. *)
Definition createClient (shopDomain accessToken : option string) : completion string :=
  bind (getConfig shopDomain accessToken) (fun cfg =>
    Returned ("https://" ++ normalizedDomain (fst cfg) ++ "/admin/api/"
              ++ SHOPIFY_API_VERSION ++ "/graphql.json")).

(** [gid.match(/\/(\d+)$/)]: the first slash that is followed by one or
    more digits up to the end of the string; the result is the group of
    digits. *)
Fixpoint match_numeric_tail (s : string) : option string :=
  match s with
  | EmptyString => None
  | String c rest =>
      if Ascii.eqb c "/" && negb (String.eqb rest "") && forallb is_digit (chars rest)
      then Some rest
      else match_numeric_tail rest
  end.

Definition extractNumericId (gid : string) : string :=
  match match_numeric_tail gid with
  | Some digits => digits
  | None => gid
  end.

Definition toGid (resourceType id : string) : string :=
  if String.prefix "gid://" id then id
  else "gid://shopify/" ++ resourceType ++ "/" ++ id.

(** [array.join(sep)] on strings. *)
Definition join (sep : string) (items : list string) : string :=
  String.concat sep items.

(** The member [errors] of a response body as [handleApiError] uses it: a
    falsy value, an array (its elements as [join] converts them), or any
    other truthy value, given by its [String(...)] and its
    [JSON.stringify(...)]. *)
Inductive Errors : Type :=
| errors_falsy
| errors_array (items : list string)
| errors_value (text json : string).

(** [error.response.data]: [null], an object, or a value that is not an
    object. *)
Inductive Data : Type :=
| data_null
| data_object (errors : Errors)
| data_other.

Record Response : Type := {
  status : Z;
  data : Data
}.

(** What a [catch] clause receives: an [AxiosError] (an [Error] with an
    optional response and an optional code), another [Error], or a value
    that is not an [Error], given by its [String(...)]. *)
Inductive Failure : Type :=
| AxiosError (response : option Response) (code : option string) (message : string)
| Error (message : string)
| not_an_Error (text : string).

(** The outcome of [client.post]: a rejection, or a body with its
    [errors] (their messages) and its [data]. *)
Inductive Posted (T : Type) : Type :=
| rejected (failure : Failure)
| answered (errors : list string) (payload : T).

Arguments rejected {T} failure.
Arguments answered {T} errors payload.

(** [executeGraphQL]: what it returns, or what it throws. *)
Definition executeGraphQL {T} (response : Posted T) : T + Failure :=
  match response with
  | rejected failure => inr failure
  | answered [] payload => inl payload
  | answered errors _ => inr (Error ("GraphQL Error: " ++ join "; " errors))
  end.

(** The branch [error instanceof Error] of [handleApiError]. *)
Definition error_message (message : string) : string :=
  if includes message "GraphQL Error" then message else "Error: " ++ message.

(** [`${data?.errors || ""}`]. *)
Definition errors_text (d : Data) : string :=
  match d with
  | data_object (errors_array items) => join "," items
  | data_object (errors_value text _) => text
  | _ => ""
  end.

(** [error.code === name]. *)
Definition code_is (code : option string) (name : string) : bool :=
  match code with
  | Some c => String.eqb c name
  | None => false
  end.

Definition handleApiError (error : Failure) : completion string :=
  match error with
  | AxiosError (Some r) _ _ =>
      if (status r =? 401)%Z then
        Returned "Error: Authentication failed. Please check your SHOPIFY_ACCESS_TOKEN is valid and has the required scopes."
      else if (status r =? 402)%Z then
        Returned "Error: Payment required. Your Shopify store may need to upgrade its plan for this feature."
      else if (status r =? 403)%Z then
        Returned "Error: Access forbidden. Your access token may not have the required permissions for this operation."
      else if (status r =? 404)%Z then
        Returned "Error: Resource not found. Please check the ID is correct."
      else if (status r =? 422)%Z then
        match data r with
        | data_null =>
            Thrown "TypeError: Cannot read properties of null (reading 'errors')"
        | data_object (errors_array items) =>
            Returned ("Error: Validation failed - " ++ join "; " items)
        | data_object (errors_value _ json) =>
            Returned ("Error: Validation failed - " ++ json)
        | data_object errors_falsy | data_other =>
            Returned "Error: The request could not be processed. Please check your input values."
        end
      else if (status r =? 429)%Z then
        Returned "Error: Rate limit exceeded. Please wait a moment before making more requests. Shopify allows approximately 2 requests per second."
      else if (status r =? 500)%Z || (status r =? 502)%Z
              || (status r =? 503)%Z || (status r =? 504)%Z then
        Returned ("Error: Shopify server error (" ++ Z_toString (status r)
                  ++ "). Please try again in a few moments.")
      else
        Returned ("Error: API request failed with status " ++ Z_toString (status r)
                  ++ ". " ++ errors_text (data r))
  | AxiosError None code message =>
      if code_is code "ECONNABORTED" then
        Returned "Error: Request timed out. The operation took too long to complete. Please try again."
      else if code_is code "ENOTFOUND" then
        Returned "Error: Could not connect to Shopify. Please check your SHOPIFY_SHOP_DOMAIN is correct."
      else Returned (error_message message)
  | Error message => Returned (error_message message)
  | not_an_Error text =>
      Returned ("Error: An unexpected error occurred: " ++ text)
  end.

End Client.

(* ================================================================== *)
(** ** Records returned by the Admin API *)

Module Shopify.

(** [customer { id ordersCount }] of an order. *)
Record Customer : Type := {
  id : option string;
  ordersCount : option Z
}.

Record LineItem : Type := {
  quantity : Z
}.

(** A node of [ORDERS_ANALYTICS_QUERY].  [createdAt] is the time value of
    [new Date(order.createdAt)]; [amount] is
    [totalPriceSet?.shopMoney?.amount], [None] when any link is missing. *)
Record Order : Type := {
  createdAt : Z;
  amount : option string;
  lineItems : list LineItem;
  customer : option Customer;
  referrerUrl : option string;
  landingPageUrl : option string
}.

(** A node of the abandoned-checkouts query. *)
Record Checkout : Type := {
  checkout_amount : option string
}.

(** [variant { product { id title totalInventory } }] of a line item. *)
Record Product : Type := {
  product_id : string;
  product_title : string;
  totalInventory : option Z
}.

(** A line item of the product-performance query; [item_amount] is
    [originalTotalSet?.shopMoney?.amount]. *)
Record ProductLineItem : Type := {
  title : string;
  item_quantity : Z;
  product : option Product;
  item_amount : option string
}.

(** An order of the product-performance query: [order.lineItems?.nodes]. *)
Record ProductOrder : Type := {
  nodes : option (list ProductLineItem)
}.

End Shopify.

Import Shopify.

(* ================================================================== *)
(** ** The analytics handlers *)

Module Analytics.

Local Open Scope js_scope.

(** [parseFloat(x?.amount || "0")], the amount of a record. *)
Definition amount_of (a : option string) : number :=
  parseFloat (or_else a "0").

(** *** Record aggregation (store analytics, lines 684-698) *)

Definition totalRevenue (orders : list Order) : number :=
  fold_left (fun sum o => sum + amount_of (amount o)) orders (Fin 0).

Definition totalOrders (orders : list Order) : nat := List.length orders.

Definition totalItems (orders : list Order) : Z :=
  fold_left
    (fun sum o => (sum + fold_left (fun s li => s + quantity li) (lineItems o) 0)%Z)
    orders 0%Z.

Definition avgOrderValue (orders : list Order) : number :=
  if (0 <? totalOrders orders)%nat
  then totalRevenue orders / of_nat (totalOrders orders)
  else Fin 0.

(** [o.customer?.id], kept when truthy. *)
Definition customer_id (o : Order) : option string :=
  match customer o with
  | Some c => if truthy_str (id c) then id c else None
  | None => None
  end.

Fixpoint cat_options {A} (l : list (option A)) : list A :=
  match l with
  | Some a :: r => a :: cat_options r
  | None :: r => cat_options r
  | [] => []
  end.

(** [new Set(orders.filter(o => o.customer?.id).map(o => o.customer.id)).size]. *)
Definition uniqueCustomers (orders : list Order) : nat :=
  List.length (nodup string_dec (cat_options (map customer_id orders))).

(** [o.customer?.ordersCount > 1]. *)
Definition is_returning (o : Order) : bool :=
  match customer o with
  | Some c => match ordersCount c with
              | Some n => (1 <? n)%Z
              | None => false
              end
  | None => false
  end.

(** [o.customer?.ordersCount === 1]. *)
Definition is_first_order (o : Order) : bool :=
  match customer o with
  | Some c => match ordersCount c with
              | Some n => (n =? 1)%Z
              | None => false
              end
  | None => false
  end.

Definition returningCustomers (orders : list Order) : nat :=
  List.length (filter is_returning orders).

(** Store analytics: [totalOrders - returningCustomers]. *)
Definition newCustomerOrders (orders : list Order) : nat :=
  (totalOrders orders - returningCustomers orders)%nat.

(** *** Traffic attribution (lines 700-742) *)

Inductive TrafficSource : Type :=
| direct | google | facebook | instagram | twitter
| tiktok | email | pinterest | referral.

Definition source_eqb (a b : TrafficSource) : bool :=
  match a, b with
  | direct, direct | google, google | facebook, facebook
  | instagram, instagram | twitter, twitter | tiktok, tiktok
  | email, email | pinterest, pinterest | referral, referral => true
  | _, _ => false
  end.

Definition getReferrerHost (url : string) : option string :=
  match url with
  | EmptyString => None
  | _ => option_map toLowerCase (URL.hostname url)
  end.

Definition matchesHost (ref targetHost : string) : bool :=
  let host := getReferrerHost ref in
  let normalizedTarget := toLowerCase targetHost in
  if truthy_str host then
    let h := toLowerCase (or_else host "") in
    String.eqb h normalizedTarget || endsWith h ("." ++ normalizedTarget)
  else
    (* Fallback to substring check if the referrer is not a valid URL *)
    includes (toLowerCase ref) normalizedTarget.

(** [order.referrerUrl || order.landingPageUrl || ""]. *)
Definition referrer_of (o : Order) : string :=
  or_else (referrerUrl o) (or_else (landingPageUrl o) "").

(** The chain of tests of the traffic loop on one referrer;
    [shopDomain] is [process.env.SHOPIFY_SHOP_DOMAIN]. *)
Definition source_of_referrer (shopDomain : option string) (referrer : string)
  : TrafficSource :=
  if includes referrer "google" then google
  else if includes referrer "facebook" || includes referrer "fb." then facebook
  else if includes referrer "instagram" then instagram
  else if matchesHost referrer "twitter.com"
          || matchesHost referrer "t.co"
          || matchesHost referrer "x.com" then twitter
  else if includes referrer "tiktok" then tiktok
  else if includes referrer "email" || includes referrer "klaviyo"
          || includes referrer "mailchimp" then email
  else if includes referrer "pinterest" then pinterest
  else if truthy_str (Some referrer)
          && negb (includes referrer (or_else shopDomain "")) then referral
  else direct.

Definition source_of (shopDomain : option string) (o : Order) : TrafficSource :=
  source_of_referrer shopDomain (referrer_of o).

(** [trafficSources[source] = (trafficSources[source] || 0) + 1]. *)
Fixpoint bump (s : TrafficSource) (counts : list (TrafficSource * nat))
  : list (TrafficSource * nat) :=
  match counts with
  | [] => [(s, 1%nat)]
  | (k, n) :: rest =>
      if source_eqb k s then (k, S n) :: rest else (k, n) :: bump s rest
  end.

Definition trafficSources (shopDomain : option string) (orders : list Order)
  : list (TrafficSource * nat) :=
  fold_left (fun counts o => bump (source_of shopDomain o) counts) orders [].

(** *** Period comparison (lines 744-758) *)

Record Comparison : Type := {
  revenue_change : string;
  orders_change : string;
  prev_revenue : number;
  prev_orders : nat
}.

Definition change_pct (current previous : number) : string :=
  if gt previous (Fin 0)
  then toFixed 1 ((current - previous) / previous * Fin 100)
  else "N/A".

Definition compare_periods (orders prevOrders : list Order) : Comparison :=
  let prevRevenue := totalRevenue prevOrders in
  let prevOrderCount := totalOrders prevOrders in
  {| revenue_change := change_pct (totalRevenue orders) prevRevenue;
     orders_change := change_pct (of_nat (totalOrders orders)) (of_nat prevOrderCount);
     prev_revenue := prevRevenue;
     prev_orders := prevOrderCount |}.

(** *** [shopify_store_analytics] (lines 655-846) *)

Record StoreAnalyticsInput : Type := {
  sa_period_days : option Q;
  sa_compare_previous : option bool
}.

(** [StoreAnalyticsInputSchema]: [period_days] is [z.number().optional()],
    so every number passes. *)
Definition StoreAnalyticsInputSchema (input : StoreAnalyticsInput)
  : completion StoreAnalyticsInput :=
  Returned input.

Record StoreAnalytics : Type := {
  period_days : number;
  period_start : string;
  period_end : string;
  orders_total : nat;
  orders_daily_average : string;
  items_sold : Z;
  revenue_total : string;
  revenue_daily_average : string;
  average_order_value : string;
  unique_customers : nat;
  new_customer_orders : nat;
  returning_customer_orders : nat;
  new_customers_acquired : nat;
  estimated_sessions : number;
  estimated_daily_sessions : number;
  sources : list (TrafficSource * nat);
  comparison : option Comparison
}.

Definition option_default {A} (o : option A) (d : A) : A :=
  match o with Some a => a | None => d end.

(** Time value of [new Date(t - days * 24 * 60 * 60 * 1000)]. *)
Definition days_before (t : Z) (days : Q) : Z :=
  DateModel.timeClip (inject_Z t - days * inject_Z DateModel.msPerDay).

(** The handler.  [now] is [new Date().getTime()];  [currentOrders],
    [previousOrders] and [newCustomers] are the nodes the three queries
    returned ([previousOrders] is fetched only under [compare_previous]). *)
Definition shopify_store_analytics
    (shopDomain : option string) (now : Z) (params : StoreAnalyticsInput)
    (currentOrders previousOrders : list Order) (newCustomers : nat)
  : completion StoreAnalytics :=
  let period := option_default (sa_period_days params) 30%Q in
  let compare_previous := option_default (sa_compare_previous params) true in
  let periodStart := days_before now period in
  let previousPeriodStart := days_before periodStart period in
  start <- DateModel.isoDate periodStart ;;
  _ <- (if compare_previous
        then (_ <- DateModel.isoDate previousPeriodStart ;; DateModel.isoDate periodStart)
        else Returned "") ;;
  let orders := currentOrders in
  let dailyOrders := of_nat (totalOrders orders) / Fin period in
  let dailyRevenue := totalRevenue orders / Fin period in
  let estimatedSessions :=
    Math_round (of_nat (totalOrders orders) / Fin (25 # 1000)) in
  let estimatedDailySessions := Math_round (estimatedSessions / Fin period) in
  stop <- DateModel.isoDate now ;;
  Returned
    {| period_days := Fin period;
       period_start := start;
       period_end := stop;
       orders_total := totalOrders orders;
       orders_daily_average := toFixed 1 dailyOrders;
       items_sold := totalItems orders;
       revenue_total := toFixed 2 (totalRevenue orders);
       revenue_daily_average := toFixed 2 dailyRevenue;
       average_order_value := toFixed 2 (avgOrderValue orders);
       unique_customers := uniqueCustomers orders;
       new_customer_orders := newCustomerOrders orders;
       returning_customer_orders := returningCustomers orders;
       new_customers_acquired := newCustomers;
       estimated_sessions := estimatedSessions;
       estimated_daily_sessions := estimatedDailySessions;
       sources := trafficSources shopDomain orders;
       comparison :=
         if compare_previous then Some (compare_periods orders previousOrders)
         else None |}.

(** The tool call: schema validation, then the handler. *)
Definition call_store_analytics
    (shopDomain : option string) (now : Z) (input : StoreAnalyticsInput)
    (currentOrders previousOrders : list Order) (newCustomers : nat)
  : completion StoreAnalytics :=
  params <- StoreAnalyticsInputSchema input ;;
  shopify_store_analytics shopDomain now params currentOrders previousOrders newCustomers.

(** *** [shopify_forecast] (lines 863-1023) *)

Inductive Scenario : Type := conservative | moderate | aggressive.

Record ForecastInput : Type := {
  forecast_months : option (list Q);
  growth_scenario : option Scenario;
  include_seasonality : option bool
}.

Record MonthBucket : Type := {
  orders : Z;
  revenue : number
}.

(** The key [`${date.getFullYear()}-${String(date.getMonth() + 1).padStart(2, '0')}`]. *)
Definition monthKey (t : Z) : string :=
  Z_toString (DateModel.getFullYear t) ++ "-"
  ++ padStart2 (Z_toString (DateModel.getMonth t + 1)).

(** One turn of the bucketing loop: the bucket of [key] is created when
    absent, then counts the order and its amount. *)
Fixpoint add_to_bucket (key : string) (amt : number)
    (data : list (string * MonthBucket)) : list (string * MonthBucket) :=
  match data with
  | [] => [(key, {| orders := 0 + 1; revenue := Fin 0 + amt |})]
  | (k, b) :: rest =>
      if String.eqb k key
      then (k, {| orders := orders b + 1; revenue := revenue b + amt |}) :: rest
      else (k, b) :: add_to_bucket key amt rest
  end.

(** [monthlyData], in insertion order of its keys. *)
Definition monthlyData (orders : list Order) : list (string * MonthBucket) :=
  fold_left
    (fun data o => add_to_bucket (monthKey (createdAt o)) (amount_of (amount o)) data)
    orders [].

Definition sum_orders (months : list MonthBucket) : number :=
  fold_left (fun s m => s + of_Z (orders m)) months (Fin 0).

Definition sum_revenue (months : list MonthBucket) : number :=
  fold_left (fun s m => s + revenue m) months (Fin 0).

(** [Math.max(months.length, 1)]. *)
Definition month_count (months : list MonthBucket) : number :=
  Math_max (of_nat (List.length months)) (Fin 1).

Definition avgMonthlyOrders (orders : list Order) : number :=
  let months := map snd (monthlyData orders) in
  sum_orders months / month_count months.

Definition avgMonthlyRevenue (orders : list Order) : number :=
  let months := map snd (monthlyData orders) in
  sum_revenue months / month_count months.

(** [entries.sort((a, b) => a[0].localeCompare(b[0]))]: keys compared as
    strings. *)
Fixpoint insert_by_key {V} (e : string * V) (l : list (string * V))
  : list (string * V) :=
  match l with
  | [] => [e]
  | x :: rest =>
      if String.leb (fst e) (fst x) then e :: l else x :: insert_by_key e rest
  end.

Definition sort_by_key {V} (l : list (string * V)) : list (string * V) :=
  fold_right insert_by_key [] l.

(** Month-over-month growth of the two most recent buckets. *)
Definition momGrowth (orders : list Order) : number :=
  let sortedMonths := sort_by_key (monthlyData orders) in
  match rev sortedMonths with
  | (_, lastMonth) :: (_, prevMonth) :: _ =>
      if gt (revenue prevMonth) (Fin 0)
      then (revenue lastMonth - revenue prevMonth) / revenue prevMonth
      else Fin 0
  | _ => Fin 0
  end.

Definition growthMultipliers (s : Scenario) : number :=
  match s with
  | conservative => Fin (2 # 100)
  | moderate => Fin (5 # 100)
  | aggressive => Fin (10 # 100)
  end.

(** Use actual growth if available, otherwise use scenario. *)
Definition baseGrowthRate (orders : list Order) (s : Scenario) : number :=
  if gt (momGrowth orders) (Fin 0) then momGrowth orders else growthMultipliers s.

(** [seasonalFactors[month]]; a key outside the table reads [undefined],
    which the multiplication turns into [NaN]. *)
Definition seasonalFactors (month : Z) : number :=
  match month with
  | 1 => Fin (85 # 100)
  | 2 => Fin (90 # 100)
  | 3 => Fin (95 # 100)
  | 4 => Fin (100 # 100)
  | 5 => Fin (100 # 100)
  | 6 => Fin (95 # 100)
  | 7 => Fin (90 # 100)
  | 8 => Fin (95 # 100)
  | 9 => Fin (100 # 100)
  | 10 => Fin (105 # 100)
  | 11 => Fin (120 # 100)
  | 12 => Fin (135 # 100)
  | _ => NaN
  end%Z.

(** Time value of [now + i * 30 days]. *)
Definition days30 (now i : Z) : Z := (now + i * 30 * DateModel.msPerDay)%Z.

(** [seasonalFactors[futureMonth]] for the [i]-th month ahead;
    [getMonth()] of an Invalid Date is [NaN]. *)
Definition seasonal_at (now i : Z) : number :=
  if DateModel.valid (days30 now i)
  then seasonalFactors (DateModel.getMonth (days30 now i) + 1)
  else NaN.

(** What one turn of the loop [for (let i = 1; i <= monthsAhead; i++)]
    does to each of its two variables: apply growth, then seasonality if
    enabled. *)
Definition grow (rate : number) (seasonality : bool) (now : Z)
    (projected : number) (i : Z) : number :=
  let grown := projected * (Fin 1 + rate) in
  if seasonality then grown * seasonal_at now i else grown.

(** Body of the loop on the pair (projectedOrders, projectedRevenue). *)
Definition project_step (rate : number) (seasonality : bool) (now : Z)
    (p : number * number) (i : Z) : number * number :=
  (grow rate seasonality now (fst p) i, grow rate seasonality now (snd p) i).

(** The values [1, 2, ...] the loop counter takes up to [monthsAhead]. *)
Definition loop_range (monthsAhead : Q) : list Z :=
  map Z.of_nat (seq 1 (Z.to_nat (Qfloor monthsAhead))).

Definition project (rate : number) (seasonality : bool) (now : Z)
    (avgOrders avgRevenue : number) (monthsAhead : Q) : number * number :=
  fold_left (project_step rate seasonality now) (loop_range monthsAhead)
            (avgOrders, avgRevenue).

Record ForecastPoint : Type := {
  months_ahead : Q;
  date : string;
  projected_monthly_orders : number;
  projected_monthly_revenue : string;
  projected_monthly_sessions : number;
  growth_from_current : string
}.

Record ConfidenceInterval : Type := {
  ci_months_ahead : Q;
  revenue_low : string;
  revenue_high : string
}.

Record Baseline : Type := {
  avg_monthly_orders : number;
  avg_monthly_revenue : string;
  observed_mom_growth : string;
  applied_growth_rate : string
}.

Record Forecast : Type := {
  baseline : Baseline;
  scenario : Scenario;
  seasonality_applied : bool;
  forecasts : list ForecastPoint;
  confidence_intervals : list ConfidenceInterval
}.

(** The callback of [forecast_months.map]. *)
Definition forecast_point (rate : number) (seasonality : bool) (now : Z)
    (avgOrders avgRevenue : number) (monthsAhead : Q) : completion ForecastPoint :=
  let p := project rate seasonality now avgOrders avgRevenue monthsAhead in
  let projectedOrders := fst p in
  let projectedRevenue := snd p in
  let projectedSessions := Math_round (projectedOrders / Fin (25 # 1000)) in
  let forecastDate :=
    DateModel.timeClip
      (inject_Z now + monthsAhead * 30 * inject_Z DateModel.msPerDay) in
  d <- DateModel.isoDate forecastDate ;;
  Returned
    {| months_ahead := monthsAhead;
       date := d;
       projected_monthly_orders := Math_round projectedOrders;
       projected_monthly_revenue := toFixed 2 projectedRevenue;
       projected_monthly_sessions := projectedSessions;
       growth_from_current :=
         toFixed 1 ((projectedRevenue / avgRevenue - Fin 1) * Fin 100) |}.

Definition volatility : number := Fin (15 # 100).

(** The callback of [forecasts.map] computing the confidence interval. *)
Definition confidence_interval (f : ForecastPoint) : ConfidenceInterval :=
  let spread := volatility * Math_sqrt (Fin (months_ahead f)) in
  {| ci_months_ahead := months_ahead f;
     revenue_low :=
       toFixed 2 (parseFloat (projected_monthly_revenue f) * (Fin 1 - spread));
     revenue_high :=
       toFixed 2 (parseFloat (projected_monthly_revenue f) * (Fin 1 + spread)) |}.

(** [array.map(f)] with a callback that can throw. *)
Fixpoint map_completion {A B} (f : A -> completion B) (l : list A)
  : completion (list B) :=
  match l with
  | [] => Returned []
  | a :: rest =>
      b <- f a ;;
      bs <- map_completion f rest ;;
      Returned (b :: bs)
  end.

Definition default_forecast_months : list Q := [1; 3; 6; 12]%Q.

Definition shopify_forecast (now : Z) (params : ForecastInput) (orders : list Order)
  : completion Forecast :=
  let months := option_default (forecast_months params) default_forecast_months in
  let growth := option_default (growth_scenario params) moderate in
  let seasonality := option_default (include_seasonality params) true in
  _ <- DateModel.isoDate (now - 90 * DateModel.msPerDay) ;;
  let avgOrders := avgMonthlyOrders orders in
  let avgRevenue := avgMonthlyRevenue orders in
  let rate := baseGrowthRate orders growth in
  points <- map_completion
              (forecast_point rate seasonality now avgOrders avgRevenue) months ;;
  Returned
    {| baseline :=
         {| avg_monthly_orders := Math_round avgOrders;
            avg_monthly_revenue := toFixed 2 avgRevenue;
            observed_mom_growth := toFixed 1 (momGrowth orders * Fin 100) ++ "%";
            applied_growth_rate := toFixed 1 (rate * Fin 100) ++ "%" |};
       scenario := growth;
       seasonality_applied := seasonality;
       forecasts := points;
       confidence_intervals := map confidence_interval points |}.

(** The divisions the forecast of one horizon evaluates, as pairs
    (dividend, divisor): sessions (line 950) and growth from current
    (line 960). *)
Definition point_divisions (rate : number) (seasonality : bool) (now : Z)
    (avgOrders avgRevenue : number) (monthsAhead : Q) : list (number * number) :=
  let p := project rate seasonality now avgOrders avgRevenue monthsAhead in
  [(fst p, Fin (25 # 1000)); (snd p, avgRevenue)].

(** All the divisions of a run of the handler, in program order: the two
    averages (lines 893-894), the observed growth when it is computed
    (line 902), then those of each horizon. *)
Definition forecast_divisions (now : Z) (params : ForecastInput) (orders : list Order)
  : list (number * number) :=
  let months := map snd (monthlyData orders) in
  let growth := option_default (growth_scenario params) moderate in
  let seasonality := option_default (include_seasonality params) true in
  [(sum_orders months, month_count months); (sum_revenue months, month_count months)]
  ++ match rev (sort_by_key (monthlyData orders)) with
     | (_, lastMonth) :: (_, prevMonth) :: _ =>
         if gt (revenue prevMonth) (Fin 0)
         then [(revenue lastMonth - revenue prevMonth, revenue prevMonth)]
         else []
     | _ => []
     end
  ++ flat_map
       (point_divisions (baseGrowthRate orders growth) seasonality now
          (avgMonthlyOrders orders) (avgMonthlyRevenue orders))
       (option_default (forecast_months params) default_forecast_months).

(** A division by zero. *)
Definition zero_divisor (d : number * number) : bool :=
  strict_eq (snd d) (Fin 0).

(** The projection the specification describes: growth compounded over
    the horizon, and the seasonal factor of the target month applied
    once. *)
Fixpoint pow (x : number) (n : nat) : number :=
  match n with
  | O => Fin 1
  | S k => x * pow x k
  end.


(** *** [shopify_conversion_analysis] (lines 1040-1175) *)

Definition completedRevenue (orders : list Order) : number :=
  fold_left (fun sum o => sum + amount_of (amount o)) orders (Fin 0).

Definition abandonedRevenue (abandonedCheckouts : list Checkout) : number :=
  fold_left (fun sum c => sum + amount_of (checkout_amount c))
            abandonedCheckouts (Fin 0).

(** Conversion analysis: [orders.filter(o => o.customer?.ordersCount === 1).length]. *)
Definition ca_newCustomerOrders (orders : list Order) : nat :=
  List.length (filter is_first_order orders).

Definition ca_returningCustomerOrders (orders : list Order) : nat :=
  List.length (filter is_returning orders).

Record ConversionAnalysis : Type := {
  ca_period_days : number;
  estimated_visitors : number;
  estimated_add_to_cart : number;
  reached_checkout : nat;
  completed_purchase : nat;
  checkout_completion : string;
  overall : string;
  abandoned_checkouts : nat;
  abandonment_rate : string;
  abandoned_revenue : string;
  avg_abandoned_value : string;
  recovery_opportunity : string;
  completed_orders : nat;
  completed_revenue : string;
  avg_order_value : string;
  ca_new_customer_orders : nat;
  ca_returning_customer_orders : nat;
  returning_customer_rate : string
}.

Definition shopify_conversion_analysis (now : Z) (period : option Q)
    (orders : list Order) (abandonedCheckouts : list Checkout)
  : completion ConversionAnalysis :=
  let days := option_default period 30%Q in
  let periodStart := days_before now days in
  _ <- DateModel.isoDate periodStart ;;
  let completedOrders := List.length orders in
  let abandonedCarts := List.length abandonedCheckouts in
  let totalCheckouts := (completedOrders + abandonedCarts)%nat in
  let completionRate :=
    if (0 <? totalCheckouts)%nat
    then of_nat completedOrders / of_nat totalCheckouts * Fin 100 else Fin 0 in
  let abandonmentRate :=
    if (0 <? totalCheckouts)%nat
    then of_nat abandonedCarts / of_nat totalCheckouts * Fin 100 else Fin 0 in
  let avgCompletedValue :=
    if (0 <? completedOrders)%nat
    then completedRevenue orders / of_nat completedOrders else Fin 0 in
  let avgAbandonedValue :=
    if (0 <? abandonedCarts)%nat
    then abandonedRevenue abandonedCheckouts / of_nat abandonedCarts else Fin 0 in
  let estimatedVisitors := Math_round (of_nat totalCheckouts / Fin (3 # 100)) in
  let estimatedAddToCarts := Math_round (of_nat totalCheckouts / Fin (45 # 100)) in
  Returned
    {| ca_period_days := Fin days;
       estimated_visitors := estimatedVisitors;
       estimated_add_to_cart := estimatedAddToCarts;
       reached_checkout := totalCheckouts;
       completed_purchase := completedOrders;
       checkout_completion := toFixed 1 completionRate ++ "%";
       overall := toFixed 2 (of_nat completedOrders / estimatedVisitors * Fin 100) ++ "%";
       abandoned_checkouts := abandonedCarts;
       abandonment_rate := toFixed 1 abandonmentRate ++ "%";
       abandoned_revenue := toFixed 2 (abandonedRevenue abandonedCheckouts);
       avg_abandoned_value := toFixed 2 avgAbandonedValue;
       recovery_opportunity := toFixed 2 (abandonedRevenue abandonedCheckouts);
       completed_orders := completedOrders;
       completed_revenue := toFixed 2 (completedRevenue orders);
       avg_order_value := toFixed 2 avgCompletedValue;
       ca_new_customer_orders := ca_newCustomerOrders orders;
       ca_returning_customer_orders := ca_returningCustomerOrders orders;
       returning_customer_rate :=
         if (0 <? completedOrders)%nat
         then toFixed 1 (of_nat (ca_returningCustomerOrders orders)
                         / of_nat completedOrders * Fin 100) ++ "%"
         else "0%" |}.

(** *** [shopify_product_performance] (lines 1192-1342) *)

Record ProductStat : Type := {
  stat_title : string;
  units_sold : Z;
  stat_revenue : number;
  order_count : Z;
  inventory : Z
}.

(** [item.variant?.product?.id || item.title]. *)
Definition productId (item : ProductLineItem) : string :=
  match product item with
  | Some p => or_else (Some (product_id p)) (title item)
  | None => title item
  end.

(** [item.variant?.product?.title || item.title]. *)
Definition productTitle (item : ProductLineItem) : string :=
  match product item with
  | Some p => or_else (Some (product_title p)) (title item)
  | None => title item
  end.

(** [item.variant?.product?.totalInventory || 0]. *)
Definition productInventory (item : ProductLineItem) : Z :=
  match product item with
  | Some p => option_default (totalInventory p) 0%Z
  | None => 0%Z
  end.

Definition count_item (item : ProductLineItem) (st : ProductStat) : ProductStat :=
  {| stat_title := stat_title st;
     units_sold := units_sold st + item_quantity item;
     stat_revenue := stat_revenue st + amount_of (item_amount item);
     order_count := order_count st + 1;
     inventory := inventory st |}.

Definition fresh_stat (item : ProductLineItem) : ProductStat :=
  {| stat_title := productTitle item;
     units_sold := 0;
     stat_revenue := Fin 0;
     order_count := 0;
     inventory := productInventory item |}.

(** One turn of the inner loop on [productStats], kept in the order its
    keys were first written.  (Keys naming a member of
    [Object.prototype] are outside the model.) *)
Fixpoint add_item (item : ProductLineItem) (stats : list (string * ProductStat))
  : list (string * ProductStat) :=
  match stats with
  | [] => [(productId item, count_item item (fresh_stat item))]
  | (k, st) :: rest =>
      if String.eqb k (productId item)
      then (k, count_item item st) :: rest
      else (k, st) :: add_item item rest
  end.

Definition order_items (o : ProductOrder) : list ProductLineItem :=
  option_default (nodes o) [].

Definition productStats (orders : list ProductOrder) : list (string * ProductStat) :=
  fold_left (fun stats o => fold_left (fun s item => add_item item s) (order_items o) stats)
            orders [].

(** A property key that is an array index: the canonical decimal form of
    an integer below 2^32 - 1. *)
Definition array_index (k : string) : option N :=
  match chars k with
  | [] => None
  | cs =>
      if forallb is_digit cs
         && String.eqb (str (digits (digits_val cs))) k
         && (digits_val cs <? 4294967295)%N
      then Some (digits_val cs) else None
  end.

Fixpoint insert_by_index {V} (e : N * (string * V)) (l : list (N * (string * V)))
  : list (N * (string * V)) :=
  match l with
  | [] => [e]
  | x :: rest =>
      if (fst e <=? fst x)%N then e :: l else x :: insert_by_index e rest
  end.

Definition indexed {V} (e : string * V) : option (N * (string * V)) :=
  option_map (fun n => (n, e)) (array_index (fst e)).

(** [Object.entries(o)] for an object whose own keys were created in the
    order of [l]: array indices first, ascending, then the other keys in
    creation order. *)
Definition Object_entries {V} (l : list (string * V)) : list (string * V) :=
  map snd (fold_right insert_by_index [] (cat_options (map indexed l)))
  ++ filter (fun e => match array_index (fst e) with None => true | Some _ => false end) l.

Record ProductRow : Type := {
  row_id : string;
  row_title : string;
  row_units_sold : Z;
  row_revenue : number;
  row_order_count : Z;
  row_inventory : Z;
  avg_order_quantity : number;
  revenue_per_unit : number;
  velocity : number
}.

(** [id.replace("gid://shopify/Product/", "")]: the first occurrence is
    removed. *)
Fixpoint remove_first (pat s : string) : string :=
  if String.prefix pat s
  then String.substring (String.length pat) (String.length s - String.length pat) s
  else match s with
       | EmptyString => EmptyString
       | String c rest => String c (remove_first pat rest)
       end.

Definition product_row (e : string * ProductStat) : ProductRow :=
  let stats := snd e in
  {| row_id := remove_first "gid://shopify/Product/" (fst e);
     row_title := stat_title stats;
     row_units_sold := units_sold stats;
     row_revenue := stat_revenue stats;
     row_order_count := order_count stats;
     row_inventory := inventory stats;
     avg_order_quantity := of_Z (units_sold stats) / of_Z (order_count stats);
     revenue_per_unit := stat_revenue stats / of_Z (units_sold stats);
     velocity :=
       if (0 <? inventory stats)%Z
       then of_Z (units_sold stats) / of_Z (inventory stats)
       else of_Z (units_sold stats) |}.

Definition products (orders : list ProductOrder) : list ProductRow :=
  map product_row (Object_entries (productStats orders)).

(** [p.inventory > 0 && p.inventory < 10 && p.velocity > 0.5]. *)
Definition restock_candidate (p : ProductRow) : bool :=
  (0 <? row_inventory p)%Z && (row_inventory p <? 10)%Z
  && gt (velocity p) (Fin (5 # 10)).

(** [p.inventory > 50 && p.velocity < 0.1]. *)
Definition promotion_candidate (p : ProductRow) : bool :=
  (50 <? row_inventory p)%Z && lt (velocity p) (Fin (1 # 10)).

(** [array.slice(0, 5)]. *)
Definition lowInventoryHighVelocity (orders : list ProductOrder) : list ProductRow :=
  firstn 5 (filter restock_candidate (products orders)).

Definition highInventoryLowVelocity (orders : list ProductOrder) : list ProductRow :=
  firstn 5 (filter promotion_candidate (products orders)).

Record Opportunities : Type := {
  restock_soon : list ProductRow;
  consider_promotion : list ProductRow
}.

Record ProductPerformance : Type := {
  total_products_sold : nat;
  total_units_sold : Z;
  total_revenue : string;
  opportunities : Opportunities
}.

(** The handler; the three ranked lists ([top_by_revenue], [top_by_units],
    [fastest_moving]) are not part of the model. *)
Definition shopify_product_performance (now : Z) (period : option Q)
    (orders : list ProductOrder) : completion ProductPerformance :=
  let days := option_default period 30%Q in
  let periodStart := days_before now days in
  _ <- DateModel.isoDate periodStart ;;
  Returned
    {| total_products_sold := List.length (products orders);
       total_units_sold :=
         fold_left (fun s p => (s + row_units_sold p)%Z) (products orders) 0%Z;
       total_revenue :=
         toFixed 2 (fold_left (fun s p => s + row_revenue p) (products orders) (Fin 0));
       opportunities :=
         {| restock_soon := lowInventoryHighVelocity orders;
            consider_promotion := highInventoryLowVelocity orders |} |}.

(** The products in the order the aggregation loop first met them. *)
Definition products_in_insertion_order (orders : list ProductOrder) : list ProductRow :=
  map product_row (productStats orders).

(** *** The ranked lists of the product report (lines 1266-1268, 1286-1288)

    They are given beside the handler above, as functions of the same
    orders. *)

(** [array.sort(compare)].  The sort is stable and [a] is moved behind
    [b] only when [compare(a, b) > 0] (a [NaN] counts as [0]).  For a
    comparator that is a consistent order, the only case in which the
    language fixes the result, this is the insertion of each element
    into the sorted rest of the array. *)
Fixpoint insert_sorted {A} (compare : A -> A -> number) (e : A) (l : list A)
  : list A :=
  match l with
  | [] => [e]
  | x :: rest =>
      if gt (compare e x) (Fin 0) then x :: insert_sorted compare e rest
      else e :: l
  end.

Definition Array_sort {A} (compare : A -> A -> number) (l : list A) : list A :=
  fold_right (insert_sorted compare) [] l.

(** [ToIntegerOrInfinity] of a finite number: truncation towards zero. *)
Definition ToIntegerOrInfinity (q : Q) : Z :=
  if Qlt_bool q 0 then Qceiling q else Qfloor q.

(** [array.slice(0, end)]: a negative [end] counts from the end of the
    array. *)
Definition slice_to {A} (l : list A) (stop : Q) : list A :=
  let len := Z.of_nat (List.length l) in
  let relativeEnd := ToIntegerOrInfinity stop in
  let final :=
    if (relativeEnd <? 0)%Z then Z.max (len + relativeEnd) 0
    else Z.min relativeEnd len in
  firstn (Z.to_nat final) l.

Definition byRevenue (orders : list ProductOrder) : list ProductRow :=
  Array_sort (fun a b => row_revenue b - row_revenue a) (products orders).

Definition byUnits (orders : list ProductOrder) : list ProductRow :=
  Array_sort (fun a b => of_Z (row_units_sold b) - of_Z (row_units_sold a))
             (products orders).

Definition byVelocity (orders : list ProductOrder) : list ProductRow :=
  Array_sort (fun a b => velocity b - velocity a) (products orders).

(** [top_n] is the parameter of the tool, 10 when it is not given. *)
Definition top_by_revenue (orders : list ProductOrder) (top_n : option Q)
  : list ProductRow :=
  slice_to (byRevenue orders) (option_default top_n 10%Q).

Definition top_by_units (orders : list ProductOrder) (top_n : option Q)
  : list ProductRow :=
  slice_to (byUnits orders) (option_default top_n 10%Q).

Definition fastest_moving (orders : list ProductOrder) (top_n : option Q)
  : list ProductRow :=
  slice_to (byVelocity orders) (option_default top_n 10%Q).

(** *** The markdown report of store analytics (lines 800-845) *)

Definition Math_abs (x : number) : number :=
  match x with
  | Fin a => Fin (Qabs a)
  | PInf | NInf => PInf
  | NaN => NaN
  end.

Inductive ResponseFormat : Type := markdown | json.

(** The remark behind a total, an arrow and a percentage "vs previous
    period": whether the arrow points up, and the size of the change. *)
Record ChangeNote : Type := {
  rising : bool;
  change_size : number
}.

(** Lines 809-812 and 819-822.  [comparison?.member !== "N/A"] also holds
    when [comparison] is [null], and [comparison.member] is then read
    from [null]. *)
Definition change_note (comparison : option Comparison)
    (change : Comparison -> string) (member : string)
  : completion (option ChangeNote) :=
  match comparison with
  | None =>
      Thrown ("TypeError: Cannot read properties of null (reading '"
              ++ member ++ "')")
  | Some c =>
      if String.eqb (change c) "N/A" then Returned None
      else
        let value := parseFloat (change c) in
        Returned (Some {| rising := le (Fin 0) value;
                          change_size := Math_abs value |})
  end.

(** [(count / totalOrders) * 100]. *)
Definition source_share (totalOrders count : nat) : number :=
  of_nat count / of_nat totalOrders * Fin 100.

(** What the markdown text is made of beyond the members of the
    analytics object: the two remarks and, for every traffic source in
    the order of [sortedSources], its count and its percentage. *)
Record StoreReport : Type := {
  orders_note : option ChangeNote;
  revenue_note : option ChangeNote;
  source_lines : list (TrafficSource * nat * string)
}.

Definition store_report (a : StoreAnalytics) : completion StoreReport :=
  on <- change_note (comparison a) orders_change "orders_change" ;;
  rn <- change_note (comparison a) revenue_change "revenue_change" ;;
  let sortedSources :=
    Array_sort (fun x y => of_nat (snd y) - of_nat (snd x)) (sources a) in
  Returned
    {| orders_note := on;
       revenue_note := rn;
       source_lines :=
         map (fun e => (fst e, snd e,
                        toFixed 1 (source_share (orders_total a) (snd e))))
             sortedSources |}.

(** The content of a tool response in one of the two formats. *)
Inductive Response (J M : Type) : Type :=
| as_json (value : J)
| as_markdown (report : M).

Arguments as_json {J M} value.
Arguments as_markdown {J M} report.

(** The whole tool: validation, the handler, then the rendering chosen by
    [response_format] (markdown when it is not given). *)
Definition store_analytics_tool
    (shopDomain : option string) (now : Z) (input : StoreAnalyticsInput)
    (response_format : option ResponseFormat)
    (currentOrders previousOrders : list Order) (newCustomers : nat)
  : completion (Response StoreAnalytics StoreReport) :=
  a <- call_store_analytics shopDomain now input currentOrders previousOrders
         newCustomers ;;
  match option_default response_format markdown with
  | json => Returned (as_json a)
  | markdown => r <- store_report a ;; Returned (as_markdown r)
  end.

(** *** The recommendations of the conversion report (lines 1085-1090, 1163-1172) *)

Definition completionRate (completedOrders abandonedCarts : nat) : number :=
  let totalCheckouts := (completedOrders + abandonedCarts)%nat in
  if (0 <? totalCheckouts)%nat
  then of_nat completedOrders / of_nat totalCheckouts * Fin 100 else Fin 0.

Definition abandonmentRate (completedOrders abandonedCarts : nat) : number :=
  let totalCheckouts := (completedOrders + abandonedCarts)%nat in
  if (0 <? totalCheckouts)%nat
  then of_nat abandonedCarts / of_nat totalCheckouts * Fin 100 else Fin 0.

Definition avgCompletedValue (orders : list Order) : number :=
  if (0 <? List.length orders)%nat
  then completedRevenue orders / of_nat (List.length orders) else Fin 0.

Definition avgAbandonedValue (abandonedCheckouts : list Checkout) : number :=
  if (0 <? List.length abandonedCheckouts)%nat
  then abandonedRevenue abandonedCheckouts / of_nat (List.length abandonedCheckouts)
  else Fin 0.




(** *** Notions used to state the properties *)


(** [host] is [domain] or one of its subdomains. *)
Definition host_within (host domain : string) : bool :=
  String.eqb host domain || endsWith host ("." ++ domain).



(** Shopify global identifiers, [gid://shopify/Product/123]. *)
Definition is_gid (s : string) : bool := String.prefix "gid://" s.

(** Every product of every line item is identified by a global
    identifier. *)
Definition gid_item (item : ProductLineItem) : bool :=
  match product item with
  | Some p => is_gid (product_id p)
  | None => true
  end.

Definition gid_products (orders : list ProductOrder) : bool :=
  forallb (fun o => forallb gid_item (order_items o)) orders.

(** Invariant of the aggregation under [gid_products]: an entry with
    stock is keyed by a global identifier. *)
Definition stat_ok (e : string * ProductStat) : Prop :=
  inventory (snd e) = 0%Z \/ is_gid (fst e) = true.

(** The rational of a finite number, zero otherwise. *)
Definition finite_part (x : number) : Q :=
  match x with Fin q => q | _ => 0%Q end.

Definition Qsum (l : list Q) : Q := fold_right Qplus 0%Q l.


(** All the line items of the orders, in the order the two loops of the
    product report visit them. *)
Definition all_items (orders : list ProductOrder) : list ProductLineItem :=
  flat_map order_items orders.

Definition Zsum (l : list Z) : Z := fold_right Z.add 0%Z l.

(** Orders that carry a customer. *)
Definition has_customer (o : Order) : bool :=
  match customer o with Some _ => true | None => false end.

End Analytics.

Import Analytics.

(* ================================================================== *)
(** ** The discount tools (src/tools/discounts.ts, lines 64-536) *)

Module Discounts.

Local Open Scope js_scope.

(** src/constants.ts *)
Definition CHARACTER_LIMIT : N := 25000.

Definition newline : string := String "010"%char EmptyString.

Definition truncation_notice : string :=
  newline ++ newline ++ "---" ++ newline
  ++ "*Response truncated. Use pagination to see more results.*".

(** The length check on the markdown text of [shopify_list_discounts]
    (lines 276-280); [s.slice(0, n)] keeps the first [n] characters.  A
    character is a code unit of the string, as [length] and [slice]
    count them. *)
Definition limit_text (textContent : string) : string :=
  if (CHARACTER_LIMIT <? N.of_nat (String.length textContent))%N
  then String.substring 0 (N.to_nat (CHARACTER_LIMIT - 100)) textContent
       ++ truncation_notice
  else textContent.

(** *** [shopify_create_discount] (lines 85-124, 334-393) *)

Inductive DiscountType : Type := percentage | fixed_amount.

(** The arguments of the tool; numbers arrive as JSON numbers, which are
    finite. *)
Record CreateDiscountInput : Type := {
  title : string;
  code : string;
  discount_type : DiscountType;
  discount_value : Q;
  starts_at : option string;
  ends_at : option string;
  usage_limit : option Q;
  once_per_customer : option bool;
  minimum_subtotal : option Q;
  minimum_quantity : option Q
}.

(** [z.string().min(lo).max(hi)]. *)
Definition length_between (lo hi : nat) (s : string) : bool :=
  (lo <=? String.length s)%nat && (String.length s <=? hi)%nat.

(** [.positive()] and [.int()]. *)
Definition positive (q : Q) : bool := Qlt_bool 0 q.

Definition int (q : Q) : bool := Qeq_bool (inject_Z (Qfloor q)) q.

(** [.optional()]. *)
Definition optional {A} (check : A -> bool) (o : option A) : bool :=
  match o with
  | Some a => check a
  | None => true
  end.

(** [CreateDiscountInputSchema.parse]: the input with its defaults filled
    in, or a [ZodError] (its list of issues is not modelled). *)
Definition CreateDiscountInputSchema (input : CreateDiscountInput)
  : completion CreateDiscountInput :=
  if length_between 1 255 (title input)
     && length_between 1 20 (code input)
     && positive (discount_value input)
     && optional (fun n => int n && positive n) (usage_limit input)
     && optional positive (minimum_subtotal input)
     && optional (fun n => int n && positive n) (minimum_quantity input)
  then
    Returned
      {| title := title input;
         code := code input;
         discount_type := discount_type input;
         discount_value := discount_value input;
         starts_at := starts_at input;
         ends_at := ends_at input;
         usage_limit := usage_limit input;
         once_per_customer := Some (option_default (once_per_customer input) false);
         minimum_subtotal := minimum_subtotal input;
         minimum_quantity := minimum_quantity input |}
  else Thrown "ZodError".

(** [customerGets.value]. *)
Inductive DiscountValue : Type :=
| value_percentage (fraction : number)
| value_discountAmount (amount : string).

Inductive MinimumRequirement : Type :=
| subtotal (greaterThanOrEqualToSubtotal : string)
| quantity (greaterThanOrEqualToQuantity : string).

(** The variable [basicCodeDiscount] of the mutation, without its
    constant members ([combinesWith], [customerSelection], [items]). *)
Record BasicCodeDiscount : Type := {
  input_title : string;
  input_code : string;
  startsAt : string;
  appliesOncePerCustomer : option bool;
  customerGets : DiscountValue;
  endsAt : option string;
  usageLimit : option Q;
  minimumRequirement : option MinimumRequirement
}.

(** An optional number when it is truthy: [if (x) ... = x]. *)
Definition if_truthy (o : option Q) : option Q :=
  match o with
  | Some q => if truthy (Fin q) then Some q else None
  | None => None
  end.

Section CreateDiscount.

(** [Number.prototype.toString] is not modelled. *)
Variable Number_toString : Q -> string.

(** Lines 336-393; [now] is [new Date().toISOString()]. *)
Definition basicCodeDiscount (now : string) (params : CreateDiscountInput)
  : BasicCodeDiscount :=
  {| input_title := title params;
     input_code := code params;
     startsAt := or_else (starts_at params) now;
     appliesOncePerCustomer := once_per_customer params;
     customerGets :=
       match discount_type params with
       | percentage => value_percentage (Fin (discount_value params) / Fin 100)
       | fixed_amount => value_discountAmount (Number_toString (discount_value params))
       end;
     endsAt := if truthy_str (ends_at params) then ends_at params else None;
     usageLimit := if_truthy (usage_limit params);
     minimumRequirement :=
       match if_truthy (minimum_subtotal params) with
       | Some amount => Some (subtotal (Number_toString amount))
       | None =>
           match if_truthy (minimum_quantity params) with
           | Some items => Some (quantity (Number_toString items))
           | None => None
           end
       end |}.

(** The tool call: validation, then the construction of the mutation
    input. *)
Definition create_discount_input (now : string) (input : CreateDiscountInput)
  : completion BasicCodeDiscount :=
  params <- CreateDiscountInputSchema input ;;
  Returned (basicCodeDiscount now params).

End CreateDiscount.

End Discounts.

(* ================================================================== *)
(** ** Sample inputs *)

Module Sample.

Definition shop : option string := Some "your-store.myshopify.com".

(** 2026-10-15T00:00:00Z and 2026-08-20T00:00:00Z. *)
Definition mid_october : Z := 1792022400000.
Definition late_august : Z := 1787227200000.

Definition order_at (t : Z) (amt : option string) : Order :=
  {| createdAt := t; amount := amt; lineItems := [{| quantity := 1 |}];
     customer := None; referrerUrl := None; landingPageUrl := None |}.

(** A guest checkout: an order without a customer. *)
Definition guest_order : Order := order_at 1791000000000 (Some "25.00").

Definition regular_order : Order :=
  {| createdAt := 1791000000000; amount := Some "10.00";
     lineItems := [{| quantity := 2 |}];
     customer := Some {| id := Some "gid://shopify/Customer/7"; ordersCount := Some 3%Z |};
     referrerUrl := Some "https://www.google.com/"; landingPageUrl := None |}.

Definition broken_order : Order := order_at 1791000000000 (Some "abc").

Definition analytics_input (days : Q) : StoreAnalyticsInput :=
  {| sa_period_days := Some days; sa_compare_previous := None |}.

Definition forecast_input (months : list Q) (s : Scenario) (seasonal : bool)
  : ForecastInput :=
  {| forecast_months := Some months; growth_scenario := Some s;
     include_seasonality := Some seasonal |}.

Definition default_forecast_input : ForecastInput :=
  {| forecast_months := None; growth_scenario := None; include_seasonality := None |}.

(** The reported figures of a forecast. *)
Definition on_forecasts {A} (get : ForecastPoint -> A) (c : completion Forecast)
  : list A :=
  match c with
  | Returned res => map get (forecasts res)
  | Thrown _ => []
  end.

Definition on_intervals {A} (get : ConfidenceInterval -> A) (c : completion Forecast)
  : list A :=
  match c with
  | Returned res => map get (confidence_intervals res)
  | Thrown _ => []
  end.

(** A line item of [qty] units of a product with [inv] units on hand. *)
Definition item_of (pid : string) (qty inv : Z) : ProductLineItem :=
  {| title := "Item";
     item_quantity := qty;
     product := Some {| product_id := pid; product_title := "Product";
                        totalInventory := Some inv |};
     item_amount := Some "10.00" |}.

(** A custom line item, without variant, whose title reads as a number. *)
Definition custom_item : ProductLineItem :=
  {| title := "2024"; item_quantity := 1; product := None;
     item_amount := Some "5.00" |}.

(** Seven products met in this order; all but the second are low on
    stock and sell fast. *)
Definition busy_orders : list ProductOrder :=
  [ {| nodes := Some [ item_of "gid://shopify/Product/9" 4 5;
                       item_of "gid://shopify/Product/3" 1 500;
                       custom_item;
                       item_of "gid://shopify/Product/8" 4 5 ] |};
    {| nodes := None |};
    {| nodes := Some [ item_of "gid://shopify/Product/7" 4 5;
                       item_of "gid://shopify/Product/9" 2 5;
                       item_of "gid://shopify/Product/6" 4 5;
                       item_of "gid://shopify/Product/5" 4 5;
                       item_of "gid://shopify/Product/4" 4 5 ] |} ].

End Sample.

(* ================================================================== *)
(** * Properties *)

Local Open Scope js_scope.

(** ** The model on known values *)

Example toFixed_values :
  toFixed 1 (Fin 50) = "50.0"
  /\ toFixed 2 (Fin (1488375 # 1000)) = "1488.38"
  /\ toFixed 2 (Fin (- (1 # 1000))) = "-0.00"
  /\ toFixed 0 (Fin (5 # 2)) = "3"
  /\ toFixed 2 (Fin 7 / Fin 0) = "Infinity".
Proof. vm_compute. repeat split. Qed.

Example parseFloat_values :
  parseFloat "19.99" == Fin (1999 # 100)
  /\ parseFloat "  -12.5e2 USD" == Fin (-1250)
  /\ parseFloat ".5" == Fin (1 # 2)
  /\ parseFloat "" = NaN
  /\ parseFloat "N/A" = NaN
  /\ parseFloat "-Infinity" = NInf.
Proof. vm_compute. repeat split. Qed.

Example hostname_values :
  URL.hostname "https://m.facebook.com/ad" = Some "m.facebook.com"
  /\ URL.hostname "HTTP://user:pw@WWW.X.com:8080/path?q=1#f" = Some "www.x.com"
  /\ URL.hostname "email-marketing.co" = None
  /\ URL.hostname "mailto:someone@example.com" = Some ""
  /\ URL.hostname "" = None.
Proof. vm_compute. repeat split. Qed.

Example calendar_values :
  DateModel.isoDate 0 = Returned "1970-01-01"
  /\ DateModel.isoDate 951782400000 = Returned "2000-02-29"
  /\ DateModel.isoDate (-1) = Returned "1969-12-31"
  /\ DateModel.isoDate Sample.mid_october = Returned "2026-10-15"
  /\ monthKey Sample.late_august = "2026-08"
  /\ DateModel.isoDate (DateModel.maxTime + 1) = Thrown "RangeError: Invalid time value".
Proof. vm_compute. repeat split. Qed.

(** 30 completed orders and 70 abandoned checkouts. *)
Example funnel_values :
  match shopify_conversion_analysis Sample.mid_october None
          (repeat Sample.guest_order 30)
          (repeat {| checkout_amount := Some "40.00" |} 70) with
  | Returned a =>
      checkout_completion a = "30.0%" /\ abandonment_rate a = "70.0%"
      /\ reached_checkout a = 100%nat /\ recovery_opportunity a = "2800.00"
  | Thrown _ => False
  end.
Proof. vm_compute. repeat split. Qed.

(** 20 units with no stock on hand, and 5 units with 50 on hand. *)
Example velocity_values :
  map velocity
    (products [ {| nodes := Some [ Sample.item_of "gid://shopify/Product/1" 20 0;
                                    Sample.item_of "gid://shopify/Product/2" 5 50 ] |} ])
  = [Fin 20; Fin (5 / 50)].
Proof. vm_compute. reflexivity. Qed.

(** ** Strings *)

Lemma includes_empty_l (sub : string) :
  sub <> "" -> includes "" sub = false.
Proof. destruct sub; [congruence | reflexivity]. Qed.

Lemma lower_char_idem (c : ascii) : lower_char (lower_char c) = lower_char c.
Proof.
  destruct c as [[] [] [] [] [] [] [] []]; vm_compute; reflexivity.
Qed.

Lemma toLowerCase_idem (s : string) : toLowerCase (toLowerCase s) = toLowerCase s.
Proof.
  induction s as [|c s IH]; simpl; [reflexivity|].
  now rewrite lower_char_idem, IH.
Qed.

Lemma getReferrerHost_lower (ref h : string) :
  getReferrerHost ref = Some h -> toLowerCase h = h.
Proof.
  unfold getReferrerHost. destruct ref; [discriminate|].
  destruct (URL.hostname _); simpl; [|discriminate].
  intros [= <-]. apply toLowerCase_idem.
Qed.

(** ** Traffic attribution *)

(** With a parsed, non-empty host the test is on the host alone. *)
Lemma matchesHost_parsed (ref target h : string) :
  getReferrerHost ref = Some h -> h <> "" ->
  matchesHost ref target = host_within h (toLowerCase target).
Proof.
  intros Hh Hne. unfold matchesHost, host_within.
  rewrite Hh. destruct h as [|c h]; [congruence|].
  cbn [truthy_str or_else].
  now rewrite (getReferrerHost_lower _ _ Hh).
Qed.

(** Without one, it is a substring test on the lower-cased referrer. *)
Lemma matchesHost_fallback (ref target : string) :
  getReferrerHost ref = None \/ getReferrerHost ref = Some "" ->
  matchesHost ref target = includes (toLowerCase ref) (toLowerCase target).
Proof.
  intros [H|H]; unfold matchesHost; rewrite H; reflexivity.
Qed.

Ltac split_tests :=
  repeat match goal with
         | |- context [if ?b then _ else _] => destruct b eqn:?
         end.

(** C2, as amended.  The seven platform tests run in a fixed order and the
    first that succeeds decides.  Google, Facebook, Instagram, TikTok, the
    e-mail platforms and Pinterest are recognised by a case-sensitive
    substring test on the raw referrer, wherever the keyword stands;
    only the Twitter test ([twitter.com], [t.co], [x.com]) parses the
    referrer and compares its hostname (equal to the domain or a
    subdomain of it), and falls back to a case-insensitive substring test
    when the referrer has no parsable, non-empty host.  So a parsable
    referrer whose host is outside the three Twitter domains is never
    attributed to Twitter. *)
Theorem attribution_tests_in_order (shop : option string) (ref : string) :
  let tw := matchesHost ref "twitter.com" || matchesHost ref "t.co"
            || matchesHost ref "x.com" in
  let fb := includes ref "facebook" || includes ref "fb." in
  let em := includes ref "email" || includes ref "klaviyo"
            || includes ref "mailchimp" in
  (source_of_referrer shop ref = google <-> includes ref "google" = true) /\
  (source_of_referrer shop ref = facebook <->
     includes ref "google" = false /\ fb = true) /\
  (source_of_referrer shop ref = instagram <->
     includes ref "google" = false /\ fb = false /\
     includes ref "instagram" = true) /\
  (source_of_referrer shop ref = twitter <->
     includes ref "google" = false /\ fb = false /\
     includes ref "instagram" = false /\ tw = true) /\
  (source_of_referrer shop ref = tiktok <->
     includes ref "google" = false /\ fb = false /\
     includes ref "instagram" = false /\ tw = false /\
     includes ref "tiktok" = true) /\
  (source_of_referrer shop ref = email <->
     includes ref "google" = false /\ fb = false /\
     includes ref "instagram" = false /\ tw = false /\
     includes ref "tiktok" = false /\ em = true) /\
  (source_of_referrer shop ref = pinterest <->
     includes ref "google" = false /\ fb = false /\
     includes ref "instagram" = false /\ tw = false /\
     includes ref "tiktok" = false /\ em = false /\
     includes ref "pinterest" = true) /\
  (forall h target,
      getReferrerHost ref = Some h -> h <> "" ->
      matchesHost ref target = host_within h (toLowerCase target)) /\
  (forall target,
      getReferrerHost ref = None \/ getReferrerHost ref = Some "" ->
      matchesHost ref target = includes (toLowerCase ref) (toLowerCase target)) /\
  (forall h,
      getReferrerHost ref = Some h -> h <> "" ->
      host_within h "twitter.com" = false ->
      host_within h "t.co" = false ->
      host_within h "x.com" = false ->
      source_of_referrer shop ref <> twitter).
Proof.
  cbv zeta.
  assert (Hparsed : forall h target,
             getReferrerHost ref = Some h -> h <> "" ->
             matchesHost ref target = host_within h (toLowerCase target))
    by (intros; now apply matchesHost_parsed).
  repeat match goal with |- _ /\ _ => split end;
    try (unfold source_of_referrer; split_tests; simpl;
         split; intros; try discriminate; try reflexivity;
         intuition congruence).
  - exact Hparsed.
  - intros target. apply matchesHost_fallback.
  - intros h Hh Hne H1 H2 H3.
    unfold source_of_referrer.
    rewrite (Hparsed h "twitter.com" Hh Hne), (Hparsed h "t.co" Hh Hne),
      (Hparsed h "x.com" Hh Hne).
    change (toLowerCase "twitter.com") with "twitter.com".
    change (toLowerCase "t.co") with "t.co".
    change (toLowerCase "x.com") with "x.com".
    rewrite H1, H2, H3. simpl.
    split_tests; discriminate.
Qed.

(** An instance: a referrer whose host is a subdomain of a Twitter
    domain, and one whose host merely contains such a name. *)
Lemma attribution_tests_in_order_witness :
  source_of_referrer (Some "your-store.myshopify.com")
    "https://mobile.twitter.com/some/status" = twitter
  /\ source_of_referrer (Some "your-store.myshopify.com")
       "https://nottwitter.com.example.org/x.com" <> twitter.
Proof.
  split.
  - pose proof (attribution_tests_in_order (Some "your-store.myshopify.com")
                  "https://mobile.twitter.com/some/status") as H.
    cbv zeta in H. destruct H as (_ & _ & _ & H & _).
    apply H. vm_compute. repeat split.
  - pose proof (attribution_tests_in_order (Some "your-store.myshopify.com")
                  "https://nottwitter.com.example.org/x.com") as H.
    cbv zeta in H. destruct H as (_ & _ & _ & _ & _ & _ & _ & _ & _ & H).
    apply (H "nottwitter.com.example.org");
      [reflexivity | discriminate | reflexivity | reflexivity | reflexivity].
Defined.

(** The keyword tests never look at the hostname.  A referrer on
    [randomblog.example.com] that mentions "google" in its path is
    attributed to Google, and a Google referrer written in upper case is
    not (its parsed host is [www.google.com]). *)
Lemma keyword_in_path_is_attributed :
  getReferrerHost "https://randomblog.example.com/why-google-ads"
    = Some "randomblog.example.com"
  /\ includes "randomblog.example.com" "google" = false
  /\ source_of_referrer (Some "your-store.myshopify.com")
       "https://randomblog.example.com/why-google-ads" = google
  /\ getReferrerHost "HTTPS://WWW.GOOGLE.COM/search" = Some "www.google.com"
  /\ source_of_referrer (Some "your-store.myshopify.com")
       "HTTPS://WWW.GOOGLE.COM/search" = referral.
Proof. vm_compute. repeat split. Qed.



(** ** Numbers up to representation *)


Lemma num_eq_sym (x y : number) : x == y -> y == x.
Proof. destruct x, y; simpl; auto with qarith. Qed.

Lemma num_eq_trans (x y z : number) : x == y -> y == z -> x == z.
Proof.
  destruct x, y, z; simpl; try tauto. intros H1 H2. now rewrite H1.
Qed.

Lemma num_eq_Fin (x : number) (a b : Q) :
  x == Fin a -> (a == b)%Q -> x == Fin b.
Proof. intros H E. apply (num_eq_trans _ _ _ H). exact E. Qed.

(** ** Sums of amounts *)

Lemma add_NaN_l (y : number) : NaN + y = NaN.
Proof. destruct y; reflexivity. Qed.

Lemma add_NaN_r (x : number) : x + NaN = NaN.
Proof. destruct x; reflexivity. Qed.

Section Sums.

Context {A : Type} (f : A -> number).

Lemma sum_from_NaN (l : list A) :
  fold_left (fun sum x => sum + f x) l NaN = NaN.
Proof.
  induction l as [|x l IH]; [reflexivity|].
  cbn [fold_left]. now rewrite add_NaN_l.
Qed.

Lemma sum_with_NaN (l : list A) (acc : number) :
  Exists (fun x => f x = NaN) l ->
  fold_left (fun sum x => sum + f x) l acc = NaN.
Proof.
  intros H. revert acc.
  induction H as [x l Hx | x l _ IH]; intros acc; cbn [fold_left].
  - rewrite Hx, add_NaN_r. apply sum_from_NaN.
  - apply IH.
Qed.

Lemma sum_of_finite (l : list A) (acc : Q) :
  Forall (fun x => isFinite (f x) = true) l ->
  fold_left (fun sum x => sum + f x) l (Fin acc)
  == Fin (acc + Qsum (map (fun x => finite_part (f x)) l)).
Proof.
  intros H. revert acc.
  induction H as [|x l Hx _ IH]; intros acc;
    cbn [fold_left map Qsum fold_right].
  - simpl. ring.
  - destruct (f x) as [q| | |] eqn:E; try discriminate.
    cbn [add finite_part]. specialize (IH (acc + q)%Q).
    unfold Qsum in *.
    destruct (fold_left _ l (Fin (acc + q))); cbn [num_eq] in *; try contradiction.
    rewrite IH. ring.
Qed.

End Sums.

(** C4, as amended.  A missing amount, and an empty one, is read as "0"
    and adds nothing.  When every amount that is present parses to a
    finite number the revenue is their exact sum.  An amount without a
    numeric prefix parses to [NaN], and one such order makes the whole
    total [NaN].  The same holds for the completed and the abandoned
    revenue of the conversion analysis.  The sums are total functions:
    nothing is raised. *)
Theorem revenue_total_policy (orders : list Order) (checkouts : list Checkout) :
  amount_of None == Fin 0
  /\ amount_of (Some "") == Fin 0
  /\ (Forall (fun o => isFinite (amount_of (amount o)) = true) orders ->
      totalRevenue orders
      == Fin (Qsum (map (fun o => finite_part (amount_of (amount o))) orders)))
  /\ (Exists (fun o => amount_of (amount o) = NaN) orders ->
      totalRevenue orders = NaN)
  /\ completedRevenue orders = totalRevenue orders
  /\ (Forall (fun c => isFinite (amount_of (checkout_amount c)) = true) checkouts ->
      abandonedRevenue checkouts
      == Fin (Qsum (map (fun c => finite_part (amount_of (checkout_amount c))) checkouts)))
  /\ (Exists (fun c => amount_of (checkout_amount c) = NaN) checkouts ->
      abandonedRevenue checkouts = NaN).
Proof.
  repeat match goal with |- _ /\ _ => split end.
  - vm_compute. reflexivity.
  - vm_compute. reflexivity.
  - intros H. unfold totalRevenue.
    eapply num_eq_Fin;
      [exact (sum_of_finite (fun o => amount_of (amount o)) orders 0 H)
      | cbv beta; ring].
  - intros H. apply (sum_with_NaN (fun o => amount_of (amount o))), H.
  - reflexivity.
  - intros H. unfold abandonedRevenue.
    eapply num_eq_Fin;
      [exact (sum_of_finite (fun c => amount_of (checkout_amount c)) checkouts 0 H)
      | cbv beta; ring].
  - intros H. apply (sum_with_NaN (fun c => amount_of (checkout_amount c))), H.
Qed.

(** An instance: two orders of 25.00 and 10.00, and the same two followed by
    an order whose amount is "abc". *)
Lemma revenue_total_policy_witness :
  totalRevenue [Sample.guest_order; Sample.regular_order] == Fin 35
  /\ totalRevenue [Sample.guest_order; Sample.regular_order; Sample.broken_order] = NaN.
Proof.
  pose proof (revenue_total_policy [Sample.guest_order; Sample.regular_order] [])
    as (_ & _ & Hfin & _).
  pose proof (revenue_total_policy
                [Sample.guest_order; Sample.regular_order; Sample.broken_order] [])
    as (_ & _ & _ & Hnan & _).
  split.
  - assert (F : Forall (fun o => isFinite (amount_of (amount o)) = true)
                  [Sample.guest_order; Sample.regular_order])
      by (repeat constructor).
    eapply num_eq_Fin; [exact (Hfin F) | vm_compute; reflexivity].
  - apply Hnan. right. right. left. reflexivity.
Defined.

(** An unparsable amount does not count as zero.  One order with amount
    "abc" has revenue [NaN], shown as "NaN", and it turns the revenue of
    a window with two good orders into [NaN]. *)
Lemma unparsable_amount_is_not_zero :
  amount_of (Some "abc") = NaN
  /\ totalRevenue [Sample.broken_order] = NaN
  /\ toFixed 2 (totalRevenue [Sample.broken_order]) = "NaN"
  /\ isFinite (totalRevenue [Sample.guest_order; Sample.broken_order;
                             Sample.regular_order]) = false
  /\ isFinite (completedRevenue [Sample.broken_order]) = false
  /\ isFinite (abandonedRevenue [{| checkout_amount := Some "n/a" |}]) = false.
Proof. vm_compute. repeat split. Qed.

(** ** Customer buckets *)

Lemma filter_length_le {A} (p : A -> bool) (l : list A) :
  (List.length (filter p l) <= List.length l)%nat.
Proof.
  induction l as [|a l IH]; simpl; [lia|]. destruct (p a); simpl; lia.
Qed.

Lemma filter_length_implies {A} (p q : A -> bool) (l : list A) :
  (forall a, p a = true -> q a = true) ->
  (List.length (filter p l) <= List.length (filter q l))%nat.
Proof.
  intros H. induction l as [|a l IH]; simpl; [lia|].
  destruct (p a) eqn:E.
  - rewrite (H a E). simpl. lia.
  - destruct (q a); simpl; lia.
Qed.

Lemma filter_length_disjoint {A} (p q r : A -> bool) (l : list A) :
  (forall a, p a = true -> q a = false) ->
  (forall a, p a = true -> r a = true) ->
  (forall a, q a = true -> r a = true) ->
  (List.length (filter p l) + List.length (filter q l)
   <= List.length (filter r l))%nat.
Proof.
  intros Hpq Hpr Hqr. induction l as [|a l IH]; simpl; [lia|].
  destruct (p a) eqn:Ep.
  - rewrite (Hpq a Ep), (Hpr a Ep). simpl. lia.
  - destruct (q a) eqn:Eq.
    + rewrite (Hqr a Eq). simpl. lia.
    + destruct (r a); simpl; lia.
Qed.

(** C8 at the failing input.  Store analytics on a window holding one
    guest order (no customer): the order is counted in the orders and in
    the revenue, not among the unique customers nor the returning
    orders, but it is reported as a new-customer order.  The conversion
    analysis puts the same order in neither bucket.  In general the two
    buckets of store analytics always add up to the number of orders,
    while those of the conversion analysis stay within the orders that
    carry a customer. *)
Theorem guest_order_counted_as_new_customer :
  (exists r,
      call_store_analytics Sample.shop Sample.mid_october
        (Sample.analytics_input 30) [Sample.guest_order] [] 0 = Returned r
      /\ orders_total r = 1%nat
      /\ revenue_total r = "25.00"
      /\ unique_customers r = 0%nat
      /\ returning_customer_orders r = 0%nat
      /\ new_customer_orders r = 1%nat)
  /\ List.length (filter has_customer [Sample.guest_order]) = 0%nat
  /\ (exists c,
         shopify_conversion_analysis Sample.mid_october (Some 30%Q)
           [Sample.guest_order] [] = Returned c
         /\ ca_new_customer_orders c = 0%nat
         /\ ca_returning_customer_orders c = 0%nat)
  /\ (forall orders,
         (newCustomerOrders orders + returningCustomers orders)%nat
         = totalOrders orders)
  /\ (forall orders,
         (ca_newCustomerOrders orders + ca_returningCustomerOrders orders
          <= List.length (filter has_customer orders))%nat).
Proof.
  repeat match goal with |- _ /\ _ => split end.
  - eexists. split; [vm_compute; reflexivity|]. repeat split.
  - reflexivity.
  - eexists. split; [vm_compute; reflexivity|]. repeat split.
  - intros orders. unfold newCustomerOrders, returningCustomers, totalOrders.
    pose proof (filter_length_le is_returning orders). lia.
  - intros orders. unfold ca_newCustomerOrders, ca_returningCustomerOrders.
    apply filter_length_disjoint; intros o;
      unfold is_first_order, is_returning, has_customer;
      destruct (customer o) as [c|]; try discriminate;
      destruct (ordersCount c) as [n|]; try discriminate; intros; try reflexivity.
    apply Z.eqb_eq in H. apply Z.ltb_ge. lia.
Qed.

(** ** Period length *)




(** ** Product aggregation *)

Lemma is_gid_not_index (k : string) : is_gid k = true -> array_index k = None.
Proof.
  unfold is_gid. destruct k as [|c k]; [discriminate|].
  cbn [String.prefix]. destruct (ascii_dec "g" c) as [<-|]; [|discriminate].
  intros _. reflexivity.
Qed.

Lemma is_gid_truthy (k t : string) : is_gid k = true -> or_else (Some k) t = k.
Proof. destruct k; [discriminate | reflexivity]. Qed.

Lemma add_item_ok (item : ProductLineItem) (stats : list (string * ProductStat)) :
  gid_item item = true -> Forall stat_ok stats -> Forall stat_ok (add_item item stats).
Proof.
  intros Hitem H. induction H as [|[k st] rest Hk Hrest IH]; simpl.
  - constructor; [|constructor].
    unfold stat_ok. cbn [fst snd count_item fresh_stat inventory].
    unfold productId, productInventory, gid_item in *.
    destruct (product item) as [p|]; [right | left; reflexivity].
    now rewrite is_gid_truthy.
  - destruct (String.eqb k (productId item)); constructor;
      [exact Hk | exact Hrest | exact Hk | exact IH].
Qed.

Lemma productStats_ok (orders : list ProductOrder) :
  gid_products orders = true -> Forall stat_ok (productStats orders).
Proof.
  unfold productStats, gid_products.
  assert (G : forall l stats,
             forallb (fun o => forallb gid_item (order_items o)) l = true ->
             Forall stat_ok stats ->
             Forall stat_ok
               (fold_left
                  (fun stats o =>
                     fold_left (fun s item => add_item item s) (order_items o) stats)
                  l stats)).
  { induction l as [|o l IH]; intros stats Hl Hs; [exact Hs|].
    simpl in Hl. apply andb_prop in Hl. destruct Hl as [Ho Hl].
    cbn [fold_left]. apply IH; [exact Hl|].
    revert stats Hs. induction (order_items o) as [|item items IHi];
      intros stats Hs; [exact Hs|].
    simpl in Ho. apply andb_prop in Ho. destruct Ho as [Hi Ho].
    cbn [fold_left]. apply IHi; [exact Ho|]. now apply add_item_ok. }
  intros H. apply G; [exact H | constructor].
Qed.

Lemma insert_by_index_Forall {V} (P : N * (string * V) -> Prop) e l :
  P e -> Forall P l -> Forall P (insert_by_index e l).
Proof.
  intros He H. induction H as [|x l Hx Hl IH]; simpl.
  - repeat constructor; assumption.
  - destruct (fst e <=? fst x)%N; repeat constructor; assumption.
Qed.

Section EntriesOrder.

Variable keep : ProductRow -> bool.

Hypothesis keep_needs_stock :
  forall e, keep (product_row e) = true -> (0 < inventory (snd e))%Z.

Lemma keep_rejects_index e :
  stat_ok e -> array_index (fst e) <> None -> keep (product_row e) = false.
Proof.
  intros [H0|Hg] Hi.
  - destruct (keep (product_row e)) eqn:K; [|reflexivity].
    apply keep_needs_stock in K. lia.
  - now rewrite (is_gid_not_index _ Hg) in Hi.
Qed.

Lemma filter_index_part (l : list (string * ProductStat)) :
  Forall stat_ok l ->
  filter keep
    (map product_row
       (map snd (fold_right insert_by_index [] (cat_options (map indexed l)))))
  = [].
Proof.
  intros H.
  assert (F : Forall (fun x => keep (product_row (snd x)) = false)
                (fold_right insert_by_index [] (cat_options (map indexed l)))).
  { induction H as [|e l He _ IH]; simpl; [constructor|].
    unfold indexed at 1. destruct (array_index (fst e)) eqn:E; simpl; [|exact IH].
    apply insert_by_index_Forall; [|exact IH].
    simpl. apply keep_rejects_index; [exact He | congruence]. }
  induction F as [|x r Hx _ IH]; simpl; [reflexivity|].
  now rewrite Hx.
Qed.

Lemma filter_other_part (l : list (string * ProductStat)) :
  Forall stat_ok l ->
  filter keep
    (map product_row
       (filter (fun e => match array_index (fst e) with
                         | None => true
                         | Some _ => false
                         end) l))
  = filter keep (map product_row l).
Proof.
  intros H. induction H as [|e l He _ IH]; simpl; [reflexivity|].
  destruct (array_index (fst e)) eqn:E; simpl.
  - rewrite (keep_rejects_index e He) by congruence. exact IH.
  - now rewrite IH.
Qed.

(** The rows that pass [keep] come in the order of first insertion. *)
Lemma filter_entries (orders : list ProductOrder) :
  gid_products orders = true ->
  filter keep (products orders)
  = filter keep (products_in_insertion_order orders).
Proof.
  intros H. apply productStats_ok in H.
  unfold products, products_in_insertion_order, Object_entries.
  rewrite map_app, filter_app, filter_index_part, filter_other_part by exact H.
  reflexivity.
Qed.

End EntriesOrder.

Lemma restock_needs_stock e :
  restock_candidate (product_row e) = true -> (0 < inventory (snd e))%Z.
Proof.
  unfold restock_candidate. simpl. intros H.
  apply andb_prop in H. destruct H as [H _].
  apply andb_prop in H. destruct H as [H _]. now apply Z.ltb_lt.
Qed.

Lemma promotion_needs_stock e :
  promotion_candidate (product_row e) = true -> (0 < inventory (snd e))%Z.
Proof.
  unfold promotion_candidate. simpl. intros H.
  apply andb_prop in H. destruct H as [H _]. apply Z.ltb_lt in H. lia.
Qed.

(** C10.  For products identified by Shopify global identifiers, the
    restock list is the first five products, in the order the
    aggregation first met them, with 0 < inventory < 10 and velocity
    above 0.5, and the promotion list the first five with inventory above
    50 and velocity below 0.1; each has at most five entries, so further
    qualifying products are left out of the report. *)
Theorem opportunity_lists_keep_first_five (orders : list ProductOrder) :
  gid_products orders = true ->
  lowInventoryHighVelocity orders
  = firstn 5 (filter restock_candidate (products_in_insertion_order orders))
  /\ highInventoryLowVelocity orders
     = firstn 5 (filter promotion_candidate (products_in_insertion_order orders))
  /\ List.length (lowInventoryHighVelocity orders)
     = Nat.min 5 (List.length (filter restock_candidate
                                 (products_in_insertion_order orders)))
  /\ List.length (highInventoryLowVelocity orders)
     = Nat.min 5 (List.length (filter promotion_candidate
                                 (products_in_insertion_order orders)))
  /\ (forall p, restock_candidate p = true <->
                (0 < row_inventory p)%Z /\ (row_inventory p < 10)%Z
                /\ gt (velocity p) (Fin (5 # 10)) = true)
  /\ (forall p, promotion_candidate p = true <->
                (50 < row_inventory p)%Z /\ lt (velocity p) (Fin (1 # 10)) = true)
  /\ (forall now period r,
         shopify_product_performance now period orders = Returned r ->
         restock_soon (opportunities r) = lowInventoryHighVelocity orders
         /\ consider_promotion (opportunities r) = highInventoryLowVelocity orders).
Proof.
  intros H.
  assert (R : lowInventoryHighVelocity orders
              = firstn 5 (filter restock_candidate (products_in_insertion_order orders))).
  { unfold lowInventoryHighVelocity.
    now rewrite (filter_entries restock_candidate restock_needs_stock orders H). }
  assert (P : highInventoryLowVelocity orders
              = firstn 5 (filter promotion_candidate (products_in_insertion_order orders))).
  { unfold highInventoryLowVelocity.
    now rewrite (filter_entries promotion_candidate promotion_needs_stock orders H). }
  repeat match goal with |- _ /\ _ => split end.
  - exact R.
  - exact P.
  - rewrite R. apply length_firstn.
  - rewrite P. apply length_firstn.
  - intros p. unfold restock_candidate.
    rewrite !andb_true_iff, !Z.ltb_lt. tauto.
  - intros p. unfold promotion_candidate.
    rewrite !andb_true_iff, !Z.ltb_lt. tauto.
  - intros now period r. unfold shopify_product_performance.
    destruct (DateModel.isoDate _); cbn [bind]; [|discriminate].
    intros [= <-]. split; reflexivity.
Qed.

(** An instance: seven products of which six qualify for restocking;
    the report lists the first five met and leaves the sixth out. *)
Lemma opportunity_lists_keep_first_five_witness :
  map row_id (lowInventoryHighVelocity Sample.busy_orders) = ["9"; "8"; "7"; "6"; "5"]
  /\ List.length (filter restock_candidate
                    (products_in_insertion_order Sample.busy_orders)) = 6%nat.
Proof.
  destruct (opportunity_lists_keep_first_five Sample.busy_orders)
    as (R & _); [reflexivity|].
  rewrite R. vm_compute. split; reflexivity.
Defined.

(** ** Decimal digits *)

Lemma digit_char_spec (d : N) :
  (d < 10)%N -> is_digit (digit_char d) = true /\ digit_val (digit_char d) = d.
Proof.
  intros H. unfold is_digit, digit_val, digit_char.
  rewrite N_ascii_embedding by lia. split.
  - apply andb_true_intro. split; apply N.leb_le; lia.
  - lia.
Qed.

Lemma digits_aux_spec (fuel : nat) :
  forall n acc,
    (n < 10 ^ N.of_nat fuel)%N -> (1 <= fuel)%nat ->
    exists ds,
      digits_aux fuel n acc = (ds ++ acc)%list
      /\ digits_val ds = n
      /\ forallb is_digit ds = true
      /\ ds <> [].
Proof.
  induction fuel as [|k IH]; intros n acc Hn Hf; [lia|].
  cbn [digits_aux].
  assert (Hd : (n mod 10 < 10)%N) by (apply N.mod_lt; lia).
  destruct (digit_char_spec _ Hd) as [D1 D2].
  destruct (n / 10 =? 0)%N eqn:E.
  - exists [digit_char (n mod 10)]. apply N.eqb_eq in E.
    repeat split.
    + unfold digits_val. cbn [fold_left]. rewrite D2.
      pose proof (N.div_mod n 10). lia.
    + simpl. now rewrite D1.
    + discriminate.
  - apply N.eqb_neq in E.
    assert (Hk : (1 <= k)%nat).
    { destruct k; [|lia]. exfalso. apply E.
      apply N.div_small. simpl in Hn. lia. }
    assert (Hq : (n / 10 < 10 ^ N.of_nat k)%N).
    { apply N.Div0.div_lt_upper_bound.
      replace (N.of_nat (S k)) with (N.succ (N.of_nat k)) in Hn by lia.
      rewrite N.pow_succ_r' in Hn. exact Hn. }
    destruct (IH (n / 10)%N (digit_char (n mod 10) :: acc) Hq Hk)
      as (ds & E1 & E2 & E3 & E4).
    exists (ds ++ [digit_char (n mod 10)])%list. repeat split.
    + rewrite E1, <- app_assoc. reflexivity.
    + unfold digits_val in *. rewrite fold_left_app, E2. cbn [fold_left].
      rewrite D2. pose proof (N.div_mod n 10). lia.
    + rewrite forallb_app, E3. simpl. now rewrite D1.
    + destruct ds; discriminate.
Qed.

Lemma digits_spec (n : N) :
  digits_val (digits n) = n
  /\ forallb is_digit (digits n) = true
  /\ digits n <> [].
Proof.
  unfold digits.
  destruct (digits_aux_spec (S (N.to_nat (N.log2 n))) n []) as (ds & E & H).
  - replace (N.of_nat (S (N.to_nat (N.log2 n)))) with (N.succ (N.log2 n)) by lia.
    destruct n as [|p]; [reflexivity|].
    apply N.lt_le_trans with (2 ^ N.succ (N.log2 (N.pos p)))%N.
    + apply N.log2_spec. lia.
    + apply N.pow_le_mono_l. lia.
  - lia.
  - rewrite E, app_nil_r. exact H.
Qed.

Lemma digits_val_zeros (k : nat) (ds : list ascii) :
  digits_val (repeat "0"%char k ++ ds) = digits_val ds.
Proof.
  unfold digits_val. rewrite fold_left_app.
  replace (fold_left _ (repeat "0"%char k) 0%N) with 0%N; [reflexivity|].
  induction k as [|k IH]; simpl; [reflexivity | exact IH].
Qed.

Lemma forallb_repeat_zero (k : nat) : forallb is_digit (repeat "0"%char k) = true.
Proof. induction k; simpl; auto. Qed.

Lemma str_app (a b : list ascii) : str (a ++ b) = str a ++ str b.
Proof. induction a as [|c a IH]; simpl; [reflexivity | now rewrite IH]. Qed.

Lemma chars_str (l : list ascii) : chars (str l) = l.
Proof. apply list_ascii_of_string_of_list_ascii. Qed.

(** ** Shape of a [toFixed] string *)

(** The digits before and after the point. *)
Lemma fixed_body_split (f : nat) (n : N) :
  exists a b,
    fixed_body f n
    = match f with O => a | _ => (a ++ "."%char :: b)%list end
    /\ digits_val (a ++ b) = n
    /\ forallb is_digit a = true
    /\ forallb is_digit b = true
    /\ List.length b = f
    /\ a <> [].
Proof.
  destruct (digits_spec n) as (V & D & NE).
  unfold fixed_body.
  set (padded := (repeat "0"%char (S f - List.length (digits n)) ++ digits n)%list).
  assert (Hlen : (S f <= List.length padded)%nat).
  { unfold padded. rewrite length_app, repeat_length. lia. }
  assert (Hval : digits_val padded = n)
    by (unfold padded; now rewrite digits_val_zeros).
  assert (Hdig : forallb is_digit padded = true)
    by (unfold padded; now rewrite forallb_app, forallb_repeat_zero, D).
  set (k := (List.length padded - f)%nat).
  exists (firstn k padded), (skipn k padded).
  rewrite firstn_skipn.
  rewrite <- (firstn_skipn k padded) in Hdig.
  rewrite forallb_app in Hdig. apply andb_prop in Hdig.
  repeat split; try tauto.
  - destruct f; [|reflexivity].
    unfold k. rewrite Nat.sub_0_r, firstn_all. reflexivity.
  - rewrite length_skipn. unfold k. lia.
  - intros E. apply (f_equal (@List.length ascii)) in E.
    rewrite length_firstn in E. unfold k in E. simpl in E. lia.
Qed.



(** ** Comparisons on rationals *)

Lemma Qlt_bool_iff (a b : Q) : Qlt_bool a b = true <-> (a < b)%Q.
Proof.
  unfold Qlt_bool. rewrite negb_true_iff. split.
  - intros H. apply Qnot_le_lt. intros L. apply Qle_bool_iff in L. congruence.
  - intros H. destruct (Qle_bool b a) eqn:E; [|reflexivity].
    apply Qle_bool_iff in E. exfalso. apply (Qlt_not_le _ _ H E).
Qed.

Lemma Qlt_bool_false_iff (a b : Q) : Qlt_bool a b = false <-> (b <= a)%Q.
Proof.
  split.
  - intros H. apply Qnot_lt_le. intros L. apply Qlt_bool_iff in L. congruence.
  - intros H. destruct (Qlt_bool a b) eqn:E; [|reflexivity].
    apply Qlt_bool_iff in E. exfalso. apply (Qlt_not_le _ _ E H).
Qed.

Lemma Qeq_bool_false_iff (a b : Q) : Qeq_bool a b = false <-> ~ (a == b)%Q.
Proof.
  split.
  - intros H E. apply Qeq_bool_iff in E. congruence.
  - intros H. destruct (Qeq_bool a b) eqn:E; [|reflexivity].
    apply Qeq_bool_iff in E. contradiction.
Qed.

(** ** Period comparison *)

Lemma change_pct_positive (cur prev : Q) :
  (0 < prev)%Q ->
  change_pct (Fin cur) (Fin prev) = toFixed 1 (Fin ((cur - prev) / prev * 100)).
Proof.
  intros H. unfold change_pct, gt. cbn [lt].
  rewrite (proj2 (Qlt_bool_iff 0 prev) H).
  cbn [sub neg add div].
  rewrite (proj2 (Qeq_bool_false_iff prev 0)) by (intros E; rewrite E in H; lra).
  reflexivity.
Qed.




(** ** Calendar *)

Lemma month_in_range (days : Z) :
  (1 <= snd (fst (DateModel.civil_from_days days)) <= 12)%Z.
Proof.
  unfold DateModel.civil_from_days. cbv zeta. cbn [fst snd].
  set (doe := ((days + 719468) mod 146097)%Z).
  assert (Hdoe : (0 <= doe < 146097)%Z) by (apply Z.mod_pos_bound; lia).
  clearbody doe.
  set (yoe := ((doe - doe / 1460 + doe / 36524 - doe / 146096) / 365)%Z).
  set (doy := (doe - (365 * yoe + yoe / 4 - yoe / 100))%Z).
  assert (Hdoy : (0 <= doy <= 365)%Z)
    by (unfold doy, yoe; Z.div_mod_to_equations; lia).
  set (mp := ((5 * doy + 2) / 153)%Z).
  assert (Hmp : (0 <= mp <= 11)%Z) by (unfold mp; Z.div_mod_to_equations; lia).
  destruct (mp <? 10)%Z eqn:E; [apply Z.ltb_lt in E | apply Z.ltb_ge in E]; lia.
Qed.

Lemma getMonth_range (t : Z) : (0 <= DateModel.getMonth t <= 11)%Z.
Proof.
  unfold DateModel.getMonth. pose proof (month_in_range (DateModel.day_of t)). lia.
Qed.

Lemma seasonalFactors_table (m : Z) :
  (1 <= m <= 12)%Z -> exists q, seasonalFactors m = Fin q /\ (0 < q)%Q.
Proof.
  intros H.
  assert (C : (m = 1 \/ m = 2 \/ m = 3 \/ m = 4 \/ m = 5 \/ m = 6 \/ m = 7
               \/ m = 8 \/ m = 9 \/ m = 10 \/ m = 11 \/ m = 12)%Z) by lia.
  repeat (destruct C as [->|C]; [eexists; split; [reflexivity | reflexivity]|]).
  subst. eexists; split; reflexivity.
Qed.



Lemma seasonal_at_valid (now i : Z) :
  DateModel.valid (days30 now i) = true ->
  exists q, seasonal_at now i = Fin q /\ (0 < q)%Q.
Proof.
  intros H. unfold seasonal_at. rewrite H.
  apply seasonalFactors_table. pose proof (getMonth_range (days30 now i)). lia.
Qed.

(** ** Formatting respects the value *)

Lemma toFixed_num_eq (f : nat) (x y : number) : x == y -> toFixed f x = toFixed f y.
Proof.
  destruct x as [a| | |], y as [b| | |]; simpl; try tauto.
  intros E.
  assert (R : scaled_round f (Qabs a) = scaled_round f (Qabs b))
    by (unfold scaled_round; apply Qfloor_comp; now rewrite E).
  assert (S : Qlt_bool a 0 = Qlt_bool b 0)
    by (unfold Qlt_bool; now rewrite E).
  now rewrite R, S.
Qed.

Lemma Math_round_num_eq (x y : number) : x == y -> Math_round x = Math_round y.
Proof.
  destruct x as [a| | |], y as [b| | |]; cbn [Math_round num_eq]; try tauto.
  intros E. unfold of_Z. f_equal. f_equal. apply Qfloor_comp. now rewrite E.
Qed.


Lemma num_eq_Fin_inv (x : number) (a : Q) :
  x == Fin a -> exists b, x = Fin b /\ (b == a)%Q.
Proof. destruct x; simpl; try tauto. eauto. Qed.


Lemma mul_NaN_r (x : number) : x * NaN = NaN.
Proof. destruct x; reflexivity. Qed.



Lemma add_num_eq (x x' y y' : number) : x == x' -> y == y' -> x + y == x' + y'.
Proof.
  destruct x as [a| | |], x' as [a'| | |]; simpl; try tauto;
    destruct y as [b| | |], y' as [b'| | |]; simpl; try tauto; intros E F.
  now rewrite E, F.
Qed.


(** ** The projection loop *)

Lemma project_components (rate : number) (seasonality : bool) (now : Z)
    (l : list Z) (a b : number) :
  fold_left (project_step rate seasonality now) l (a, b)
  = (fold_left (grow rate seasonality now) l a,
     fold_left (grow rate seasonality now) l b).
Proof.
  revert a b. induction l as [|i l IH]; intros a b; [reflexivity|].
  cbn [fold_left]. unfold project_step at 2. cbn [fst snd]. apply IH.
Qed.

Lemma pow_finite (x : Q) (n : nat) : exists q, pow (Fin x) n = Fin q.
Proof.
  induction n as [|n [q IH]]; simpl; [eauto|]. rewrite IH. simpl. eauto.
Qed.



(** Without seasonality only growth compounds. *)
Lemma grow_plain (r b : Q) (now : Z) (l : list Z) :
  fold_left (grow (Fin r) false now) l (Fin b)
  == Fin b * pow (Fin 1 + Fin r) (List.length l).
Proof.
  induction l as [|i l IH] using rev_ind.
  - simpl. ring.
  - rewrite !fold_left_app, length_app. cbn [fold_left List.length].
    rewrite Nat.add_1_r. cbn [pow]. unfold grow at 1.
    destruct (pow_finite (1 + r) (List.length l)) as [pn Hp].
    change (Fin 1 + Fin r) with (Fin (1 + r)) in *.
    rewrite Hp in *. cbn [mul] in *.
    apply num_eq_Fin_inv in IH. destruct IH as (x & -> & Hx).
    cbn [mul num_eq]. rewrite Hx. ring.
Qed.


Lemma map_completion_Forall {A B} (f : A -> completion B) (l : list A) (bs : list B) :
  map_completion f l = Returned bs ->
  Forall (fun b => exists a, In a l /\ f a = Returned b) bs.
Proof.
  revert bs. induction l as [|a l IH]; intros bs; simpl.
  - intros [= <-]. constructor.
  - destruct (f a) as [b|] eqn:E; cbn [bind]; [|discriminate].
    destruct (map_completion f l) as [bs'|]; cbn [bind]; [|discriminate].
    intros [= <-]. constructor.
    + exists a. split; [now left | exact E].
    + specialize (IH bs' eq_refl).
      eapply Forall_impl; [|exact IH].
      intros b' (a' & Hin & Ha). exists a'. split; [now right | exact Ha].
Qed.

Lemma forecast_point_fields rate seasonality now avgOrders avgRevenue h f :
  forecast_point rate seasonality now avgOrders avgRevenue h = Returned f ->
  months_ahead f = h
  /\ projected_monthly_orders f
     = Math_round (fold_left (grow rate seasonality now) (loop_range h) avgOrders)
  /\ projected_monthly_revenue f
     = toFixed 2 (fold_left (grow rate seasonality now) (loop_range h) avgRevenue).
Proof.
  unfold forecast_point, project. rewrite project_components. cbn [fst snd].
  destruct (DateModel.isoDate _); cbn [bind]; [|discriminate].
  intros [= <-]. repeat split.
Qed.




(** ** Empty history *)

Lemma map_completion_Forall2 {A B} (f : A -> completion B) (l : list A) (bs : list B) :
  map_completion f l = Returned bs <-> Forall2 (fun a b => f a = Returned b) l bs.
Proof.
  revert bs. induction l as [|a l IH]; intros bs; simpl.
  - split.
    + intros [= <-]. constructor.
    + intros H. inversion H. reflexivity.
  - split.
    + destruct (f a) as [b|] eqn:E; cbn [bind]; [|discriminate].
      destruct (map_completion f l) as [bs'|]; cbn [bind]; [|discriminate].
      intros [= <-]. constructor; [exact E | now apply IH].
    + intros H. inversion H as [|a' b l' bs' Hab Hrest]; subst.
      rewrite Hab. cbn [bind].
      apply IH in Hrest. rewrite Hrest. reflexivity.
Qed.

Lemma Forall2_total {A B} (R : A -> B -> Prop) (l : list A) :
  Forall (fun a => exists b, R a b) l -> exists bs, Forall2 R l bs.
Proof.
  induction 1 as [|a l [b Hb] _ [bs IH]].
  - exists []. constructor.
  - exists (b :: bs). now constructor.
Qed.

Lemma Forall2_Forall_r {A B} (R : A -> B -> Prop) (P : A -> Prop) (Q : B -> Prop)
    (l : list A) (bs : list B) :
  (forall a b, P a -> R a b -> Q b) ->
  Forall P l -> Forall2 R l bs -> Forall Q bs.
Proof.
  intros H HP H2. induction H2 as [|a b l bs Hab _ IH]; constructor.
  - apply (H a b); [now inversion HP | exact Hab].
  - apply IH. now inversion HP.
Qed.

Lemma Forall2_map_back {A B} (R : A -> B -> Prop) (g : B -> A)
    (l : list A) (bs : list B) :
  Forall2 R l bs -> (forall a b, R a b -> g b = a) -> map g bs = l.
Proof.
  intros H2 H. induction H2 as [|a b l bs Hab _ IH]; [reflexivity|].
  cbn [map]. now rewrite (H a b Hab), IH.
Qed.

Lemma timeClip_ge_floor (x : Q) : (Qfloor x <= DateModel.timeClip x)%Z.
Proof.
  unfold DateModel.timeClip. destruct (Qlt_bool x 0); [|lia].
  unfold Qceiling. pose proof (Qfloor_le x) as L. pose proof (Qfloor_le (- x)) as L'.
  assert (H : (inject_Z (Qfloor x) <= inject_Z (- Qfloor (- x)))%Q).
  { rewrite inject_Z_opp. lra. }
  now rewrite <- Zle_Qle in H.
Qed.

(** The dates the loop reads lie between now and the forecast date. *)
Lemma loop_dates_valid (now : Z) (h : Q) (i : Z) :
  DateModel.valid now = true ->
  DateModel.valid
    (DateModel.timeClip (inject_Z now + h * 30 * inject_Z DateModel.msPerDay)) = true ->
  In i (loop_range h) ->
  DateModel.valid (days30 now i) = true.
Proof.
  unfold DateModel.valid, days30. rewrite !Z.leb_le.
  intros Hnow Hend Hi.
  unfold loop_range in Hi. apply in_map_iff in Hi. destruct Hi as (k & <- & Hk).
  apply in_seq in Hk.
  set (c := (30 * DateModel.msPerDay)%Z).
  assert (Hc : (0 < c)%Z) by reflexivity.
  assert (Hfl : (Z.of_nat k <= Qfloor h)%Z) by lia.
  assert (Hup : (now + Qfloor h * c
                 <= DateModel.timeClip
                      (inject_Z now + h * 30 * inject_Z DateModel.msPerDay))%Z).
  { eapply Z.le_trans; [|apply timeClip_ge_floor].
    rewrite <- (Qfloor_Z (now + Qfloor h * c)). apply Qfloor_resp_le.
    rewrite inject_Z_plus, inject_Z_mult. unfold c.
    rewrite inject_Z_mult. pose proof (Qfloor_le h) as L.
    assert (P : (0 <= inject_Z DateModel.msPerDay)%Q) by (vm_compute; discriminate).
    change (inject_Z 30) with 30%Q. nra. }
  replace (now + Z.of_nat k * 30 * DateModel.msPerDay)%Z
    with (now + Z.of_nat k * c)%Z by (unfold c; ring).
  assert (Hmono : (Z.of_nat k * c <= Qfloor h * c)%Z) by nia.
  assert (Hk0 : (0 <= Z.of_nat k * c)%Z) by nia.
  lia.
Qed.

(** Zero stays zero through the loop. *)
Lemma grow_from_zero (r : Q) (seasonality : bool) (now : Z) (l : list Z) :
  (forall i, In i l -> DateModel.valid (days30 now i) = true) ->
  forall x, (x == 0)%Q ->
  exists y, fold_left (grow (Fin r) seasonality now) l (Fin x) = Fin y /\ (y == 0)%Q.
Proof.
  induction l as [|i l IH]; intros Hv x Hx; cbn [fold_left]; [eauto|].
  destruct (seasonal_at_valid now i (Hv i (or_introl eq_refl))) as (s & Hs & _).
  assert (G : exists x', grow (Fin r) seasonality now (Fin x) i = Fin x' /\ (x' == 0)%Q).
  { unfold grow. rewrite Hs. destruct seasonality; cbn [mul add];
      (eexists; split; [reflexivity|]); rewrite Hx; ring. }
  destruct G as (x' & -> & Hx').
  apply IH; [intros j Hj; apply Hv; now right | exact Hx'].
Qed.

Lemma forecast_point_returns rate seasonality now avgOrders avgRevenue h :
  DateModel.valid
    (DateModel.timeClip (inject_Z now + h * 30 * inject_Z DateModel.msPerDay)) = true ->
  exists f,
    forecast_point rate seasonality now avgOrders avgRevenue h = Returned f.
Proof.
  intros H. unfold forecast_point, DateModel.isoDate. rewrite H. cbn [bind]. eauto.
Qed.

Lemma forecast_point_throws rate seasonality now avgOrders avgRevenue h :
  DateModel.valid
    (DateModel.timeClip (inject_Z now + h * 30 * inject_Z DateModel.msPerDay)) = false ->
  forecast_point rate seasonality now avgOrders avgRevenue h
  = Thrown "RangeError: Invalid time value".
Proof.
  intros H. unfold forecast_point, DateModel.isoDate. rewrite H. reflexivity.
Qed.

Lemma forecast_point_sessions rate seasonality now avgOrders avgRevenue h f :
  forecast_point rate seasonality now avgOrders avgRevenue h = Returned f ->
  projected_monthly_sessions f
  = Math_round (fold_left (grow rate seasonality now) (loop_range h) avgOrders
                / Fin (25 # 1000)).
Proof.
  unfold forecast_point, project. rewrite project_components. cbn [fst snd].
  destruct (DateModel.isoDate _); cbn [bind]; [|discriminate].
  intros [= <-]. reflexivity.
Qed.

Lemma Math_sqrt_finite (h : Q) : (0 <= h)%Q -> Math_sqrt (Fin h) = Fin (sqrtQ h).
Proof.
  intros H. unfold Math_sqrt. now rewrite (proj2 (Qlt_bool_false_iff h 0) H).
Qed.

(** The band around a revenue of "0.00". *)
Lemma band_of_zero (f : ForecastPoint) :
  (0 <= months_ahead f)%Q ->
  projected_monthly_revenue f = "0.00" ->
  revenue_low (confidence_interval f) = "0.00"
  /\ revenue_high (confidence_interval f) = "0.00".
Proof.
  intros Hh Hr. unfold confidence_interval. cbn [revenue_low revenue_high].
  rewrite Hr, (Math_sqrt_finite _ Hh).
  assert (P : exists v, parseFloat "0.00" = Fin v /\ (v == 0)%Q)
    by (eexists; split; [vm_compute; reflexivity | reflexivity]).
  destruct P as (v & -> & Hv).
  unfold volatility. cbn [mul sub add neg].
  split; (rewrite (toFixed_num_eq 2 _ (Fin 0));
          [vm_compute; reflexivity | cbn [num_eq]; rewrite Hv; ring]).
Qed.

(** C5, as amended.  With no order in the window, for every scenario,
    either seasonality setting and every list of horizons that are not
    negative and whose forecast dates are representable, the handler
    returns one point per horizon; each has 0 projected orders, 0
    sessions and revenue "0.00", and its band is "0.00" to "0.00".  Nothing
    is raised. *)
Theorem empty_history_forecast_is_zero (now : Z) (params : ForecastInput) :
  let months := option_default (forecast_months params) default_forecast_months in
  DateModel.valid now = true ->
  DateModel.valid (now - 90 * DateModel.msPerDay) = true ->
  Forall
    (fun h =>
       (0 <= h)%Q
       /\ DateModel.valid
            (DateModel.timeClip
               (inject_Z now + h * 30 * inject_Z DateModel.msPerDay)) = true)
    months ->
  exists res,
    shopify_forecast now params [] = Returned res
    /\ map months_ahead (forecasts res) = months
    /\ Forall
         (fun f =>
            projected_monthly_orders f = Fin 0
            /\ projected_monthly_sessions f = Fin 0
            /\ projected_monthly_revenue f = "0.00")
         (forecasts res)
    /\ Forall
         (fun ci => revenue_low ci = "0.00" /\ revenue_high ci = "0.00")
         (confidence_intervals res).
Proof.
  intros months Hnow Hstart Hmonths.
  unfold shopify_forecast. fold months.
  unfold DateModel.isoDate at 1. rewrite Hstart. cbn [bind].
  set (growth := option_default (growth_scenario params) moderate).
  set (seasonality := option_default (include_seasonality params) true).
  assert (Hrate : exists r, baseGrowthRate [] growth = Fin r)
    by (destruct growth; eexists; reflexivity).
  destruct Hrate as [r Hrate]. rewrite Hrate.
  assert (Ho : exists x, avgMonthlyOrders [] = Fin x /\ (x == 0)%Q)
    by (eexists; split; [vm_compute; reflexivity | reflexivity]).
  assert (Hv : exists y, avgMonthlyRevenue [] = Fin y /\ (y == 0)%Q)
    by (eexists; split; [vm_compute; reflexivity | reflexivity]).
  destruct Ho as (x & -> & Hx), Hv as (y & -> & Hy).
  set (point := forecast_point (Fin r) seasonality now (Fin x) (Fin y)).
  assert (Hall : Forall (fun h => exists f, point h = Returned f) months).
  { eapply Forall_impl; [|exact Hmonths].
    intros h [_ Hd]. now apply forecast_point_returns. }
  apply Forall2_total in Hall. destruct Hall as [points Hpoints].
  rewrite (proj2 (map_completion_Forall2 point months points) Hpoints).
  cbn [bind]. eexists. split; [reflexivity|].
  cbn [forecasts confidence_intervals].
  assert (Hzero : Forall
                    (fun f =>
                       (0 <= months_ahead f)%Q
                       /\ projected_monthly_orders f = Fin 0
                       /\ projected_monthly_sessions f = Fin 0
                       /\ projected_monthly_revenue f = "0.00")
                    points).
  { refine (Forall2_Forall_r _ _ _ _ _ _ Hmonths Hpoints).
    intros h f [Hh Hd] Hf. unfold point in Hf.
    destruct (forecast_point_fields _ _ _ _ _ _ _ Hf) as (Em & Eo & Er).
    pose proof (forecast_point_sessions _ _ _ _ _ _ _ Hf) as Es.
    assert (V : forall i, In i (loop_range h) ->
                          DateModel.valid (days30 now i) = true)
      by (intros i Hi; now apply (loop_dates_valid now h i)).
    destruct (grow_from_zero r seasonality now _ V x Hx) as (x' & Ex & Hx').
    destruct (grow_from_zero r seasonality now _ V y Hy) as (y' & Ey & Hy').
    rewrite Ex in Eo, Es. rewrite Ey in Er.
    rewrite Em, Eo, Es, Er. repeat split.
    - exact Hh.
    - rewrite (Math_round_num_eq _ (Fin 0)); [reflexivity | exact Hx'].
    - rewrite (Math_round_num_eq _ (Fin 0));
        [reflexivity | cbn [div]; cbn [num_eq]].
      change (Qeq_bool (25 # 1000) 0) with false. cbn [num_eq].
      rewrite Hx'. reflexivity.
    - rewrite (toFixed_num_eq 2 _ (Fin 0)); [reflexivity | exact Hy']. }
  repeat split.
  - apply (Forall2_map_back _ _ _ _ Hpoints).
    intros h f Hf. unfold point in Hf.
    now destruct (forecast_point_fields _ _ _ _ _ _ _ Hf).
  - eapply Forall_impl; [|exact Hzero]. intros f (_ & H1 & H2 & H3).
    repeat split; assumption.
  - apply Forall_map. eapply Forall_impl; [|exact Hzero].
    intros f (Hh & _ & _ & Hr). now apply band_of_zero.
Qed.

(** An instance: the default horizons in mid October. *)
Lemma empty_history_forecast_is_zero_witness :
  exists res,
    shopify_forecast Sample.mid_october Sample.default_forecast_input [] = Returned res
    /\ map months_ahead (forecasts res) = [1; 3; 6; 12]%Q
    /\ Forall (fun ci => revenue_low ci = "0.00" /\ revenue_high ci = "0.00")
         (confidence_intervals res).
Proof.
  destruct (empty_history_forecast_is_zero Sample.mid_october
              Sample.default_forecast_input)
    as (res & E & M & _ & B).
  - reflexivity.
  - reflexivity.
  - repeat constructor; vm_compute; discriminate.
  - exists res. repeat split; assumption.
Defined.

(** Where an empty history does not give zeros.  With no order and the
    default horizons every point reports a growth of "NaN": line 960
    divides the projected revenue 0 by the baseline 0.  A horizon of -1
    month gives the band "NaN" to "NaN" (the square root of a negative
    number), and a horizon of four million months ends in a
    [RangeError]. *)
Lemma empty_history_divides_by_zero :
  Sample.on_forecasts growth_from_current
    (shopify_forecast Sample.mid_october Sample.default_forecast_input [])
  = ["NaN"; "NaN"; "NaN"; "NaN"]
  /\ existsb zero_divisor
       (forecast_divisions Sample.mid_october Sample.default_forecast_input [])
     = true
  /\ Sample.on_intervals (fun ci => (revenue_low ci, revenue_high ci))
       (shopify_forecast Sample.mid_october
          (Sample.forecast_input [-1]%Q moderate true) [])
     = [("NaN", "NaN")]
  /\ shopify_forecast Sample.mid_october
       (Sample.forecast_input [4000000]%Q moderate false) []
     = Thrown "RangeError: Invalid time value".
Proof.
  split; [vm_compute; reflexivity|].
  split; [vm_compute; reflexivity|].
  split; [vm_compute; reflexivity|].
  unfold shopify_forecast.
  change (DateModel.isoDate (Sample.mid_october - 90 * DateModel.msPerDay))
    with (@Returned string "2026-07-17").
  cbn [bind option_default Sample.forecast_input forecast_months
       growth_scenario include_seasonality map_completion].
  rewrite forecast_point_throws by (vm_compute; reflexivity).
  reflexivity.
Qed.

(** ** Reading back a [toFixed] string *)

Lemma digit_not_space (c : ascii) : is_digit c = true -> is_space c = false.
Proof.
  unfold is_digit, is_space. intros H.
  apply andb_prop in H. destruct H as [H1 H2].
  apply N.leb_le in H1. apply N.leb_le in H2.
  apply orb_false_intro.
  - apply N.eqb_neq. lia.
  - apply andb_false_intro2. apply N.leb_gt. lia.
Qed.

Lemma digit_head (c : ascii) (l : list ascii) :
  is_digit c = true ->
  skip_spaces (c :: l) = c :: l
  /\ read_sign (c :: l) = (false, c :: l)
  /\ starts_with (chars "Infinity") (c :: l) = false.
Proof.
  intros H. repeat split.
  - cbn [skip_spaces]. now rewrite (digit_not_space c H).
  - destruct c as [[] [] [] [] [] [] [] []]; try discriminate H; reflexivity.
  - destruct c as [[] [] [] [] [] [] [] []]; try discriminate H; reflexivity.
Qed.

Lemma span_digits_app (a rest : list ascii) :
  forallb is_digit a = true ->
  match rest with [] => True | c :: _ => is_digit c = false end ->
  span_digits (a ++ rest) = (a, rest).
Proof.
  intros Ha Hr. induction a as [|c a IH]; cbn [app span_digits].
  - destruct rest as [|c r]; cbn [span_digits]; [reflexivity | now rewrite Hr].
  - cbn [forallb] in Ha. apply andb_prop in Ha. destruct Ha as [Hc Ha].
    now rewrite Hc, (IH Ha).
Qed.

(** Parsing a sign, digits, a point and [f] digits. *)
Lemma parseFloat_fixed (negative : bool) (f : nat) (a b : list ascii) :
  forallb is_digit a = true -> forallb is_digit b = true ->
  a <> [] -> List.length b = f ->
  let body := match f with O => a | _ => (a ++ "."%char :: b)%list end in
  let v := (inject_Z (Z.of_N (digits_val (a ++ b)))
            * inject_Z 10 ^ (- Z.of_nat f))%Q in
  parseFloat (if negative then "-" ++ str body else str body)
  = Fin (if negative then (- v)%Q else v).
Proof.
  intros Ha Hb Hne Hlen body v.
  destruct a as [|c a]; [congruence|].
  assert (Hc : is_digit c = true)
    by (cbn [forallb] in Ha; now apply andb_prop in Ha).
  assert (Hbody : exists tl, body = c :: tl)
    by (unfold body; destruct f; simpl; eauto).
  destruct Hbody as [tl Hbody].
  destruct (digit_head c tl Hc) as (S1 & S2 & S3).
  assert (P : forall s2,
             s2 = body ->
             (let (ip, s3) := span_digits s2 in
              let (fp, s4) :=
                match s3 with
                | "."%char :: r => span_digits r
                | _ => ([], s3)
                end in
              match (ip ++ fp)%list with
              | [] => NaN
              | ds =>
                  let e := (read_exponent s4 - Z.of_nat (List.length fp))%Z in
                  let v := (inject_Z (Z.of_N (digits_val ds)) * inject_Z 10 ^ e)%Q in
                  Fin (if negative then (- v)%Q else v)
              end)
             = Fin (if negative then (- v)%Q else v)).
  { intros s2 ->. unfold body, v. destruct f as [|f'].
    - destruct b; [|discriminate].
      rewrite <- (app_nil_r (c :: a)) at 1.
      rewrite (span_digits_app (c :: a) [] Ha I).
      rewrite app_nil_r. reflexivity.
    - rewrite (span_digits_app (c :: a) ("."%char :: b) Ha eq_refl).
      rewrite <- (app_nil_r b) at 1.
      rewrite (span_digits_app b [] Hb I).
      cbn [read_exponent]. rewrite Hlen.
      destruct ((c :: a) ++ b)%list eqn:E; [discriminate|].
      reflexivity. }
  clearbody body v. unfold parseFloat. destruct negative.
  - change (chars ("-" ++ str body)) with ("-"%char :: chars (str body)).
    rewrite chars_str.
    change (skip_spaces ("-"%char :: body)) with ("-"%char :: body).
    change (read_sign ("-"%char :: body)) with (true, body).
    cbv beta iota. rewrite <- Hbody in S3. rewrite S3. apply P. reflexivity.
  - rewrite chars_str. rewrite <- Hbody in S1, S2, S3. rewrite S1, S2.
    cbv beta iota. rewrite S3. apply P. reflexivity.
Qed.

Lemma scaled_round_nonneg (f : nat) (a : Q) : (0 <= scaled_round f (Qabs a))%Z.
Proof.
  unfold scaled_round. rewrite <- (Qfloor_Z 0). apply Qfloor_resp_le.
  pose proof (Qabs_nonneg a) as H.
  assert (P : (0 <= inject_Z (10 ^ Z.of_nat f))%Q).
  { rewrite <- (Zle_Qle 0). apply Z.pow_nonneg. lia. }
  change (inject_Z 0) with 0%Q. nra.
Qed.

(** [parseFloat] gives back the value a [toFixed] string denotes. *)
Lemma parseFloat_toFixed (f : nat) (a : Q) :
  parseFloat (toFixed f (Fin a)) == Fin (toFixed_value f a).
Proof.
  unfold toFixed, toFixed_value.
  destruct (fixed_body_split f (Z.to_N (scaled_round f (Qabs a))))
    as (x & y & E & V & Dx & Dy & L & NE).
  rewrite E.
  rewrite (parseFloat_fixed (Qlt_bool a 0) f x y Dx Dy NE L).
  rewrite V, Z2N.id by apply scaled_round_nonneg.
  assert (P : (inject_Z (scaled_round f (Qabs a)) * inject_Z 10 ^ (- Z.of_nat f)
               == inject_Z (scaled_round f (Qabs a)) / inject_Z (10 ^ Z.of_nat f))%Q).
  { rewrite Qpower_opp, Zpower_Qpower by lia. reflexivity. }
  destruct (Qlt_bool a 0); cbn [num_eq]; now rewrite P.
Qed.

(** ** Rounding to cents *)

Lemma Qfloor_unique (z : Z) (q : Q) :
  (inject_Z z <= q)%Q -> (q < inject_Z (z + 1))%Q -> Qfloor q = z.
Proof.
  intros L U.
  pose proof (Qfloor_le q) as F. pose proof (Qlt_floor q) as G.
  assert (A : (z <= Qfloor q)%Z)
    by (rewrite <- (Qfloor_Z z); now apply Qfloor_resp_le).
  assert (B : (Qfloor q < z + 1)%Z).
  { rewrite Zlt_Qlt. eapply Qle_lt_trans; [exact F | exact U]. }
  lia.
Qed.

Lemma Qfloor_shift (z : Z) (q : Q) : Qfloor (inject_Z z + q) = (z + Qfloor q)%Z.
Proof.
  pose proof (Qfloor_le q) as F. pose proof (Qlt_floor q) as G.
  apply Qfloor_unique.
  - rewrite inject_Z_plus. lra.
  - rewrite <- Z.add_assoc, inject_Z_plus. lra.
Qed.

Lemma toFixed_value_Qeq (f : nat) (a b : Q) :
  (a == b)%Q -> (toFixed_value f a == toFixed_value f b)%Q.
Proof.
  intros E. unfold toFixed_value.
  assert (R : scaled_round f (Qabs a) = scaled_round f (Qabs b))
    by (unfold scaled_round; apply Qfloor_comp; now rewrite E).
  assert (S : Qlt_bool a 0 = Qlt_bool b 0)
    by (unfold Qlt_bool; now rewrite E).
  rewrite R, S. reflexivity.
Qed.

Lemma cents_nonneg (a : Q) :
  (0 <= a)%Q ->
  (toFixed_value 2 a == inject_Z (Qfloor (a * 100 + (1 # 2))) / 100)%Q.
Proof.
  intros H. unfold toFixed_value, scaled_round.
  rewrite (proj2 (Qlt_bool_false_iff a 0) H).
  change (inject_Z (10 ^ Z.of_nat 2)) with 100%Q.
  rewrite (Qfloor_comp (Qabs a * 100 + (1 # 2)) (a * 100 + (1 # 2)))
    by (now rewrite Qabs_pos).
  reflexivity.
Qed.

Lemma cents_negative (a : Q) :
  (a < 0)%Q ->
  (toFixed_value 2 a == - (inject_Z (Qfloor (- a * 100 + (1 # 2))) / 100))%Q.
Proof.
  intros H. unfold toFixed_value, scaled_round.
  rewrite (proj2 (Qlt_bool_iff a 0) H).
  change (inject_Z (10 ^ Z.of_nat 2)) with 100%Q.
  rewrite (Qfloor_comp (Qabs a * 100 + (1 # 2)) (- a * 100 + (1 # 2)))
    by (rewrite Qabs_neg by lra; reflexivity).
  reflexivity.
Qed.

(** Rounding to cents is monotone. *)
Lemma cents_mono (a b : Q) :
  (0 <= a)%Q -> (a <= b)%Q -> (toFixed_value 2 a <= toFixed_value 2 b)%Q.
Proof.
  intros Ha Hab. rewrite !cents_nonneg by lra.
  assert (F : (Qfloor (a * 100 + (1 # 2)) <= Qfloor (b * 100 + (1 # 2)))%Z)
    by (apply Qfloor_resp_le; lra).
  rewrite Zle_Qle in F. unfold Qdiv.
  apply Qmult_le_compat_r; [exact F | vm_compute; discriminate].
Qed.


(** ** Square roots *)

Lemma sqrtQ_nonneg (a : Q) : (0 <= sqrtQ a)%Q.
Proof.
  unfold sqrtQ. apply Qle_shift_div_l; [reflexivity|].
  rewrite Qmult_0_l. rewrite <- (Zle_Qle 0). apply Z.sqrt_nonneg.
Qed.


(** ** The confidence band *)

Lemma grow_plain_increases (r : Q) (now : Z) (l : list Z) :
  (0 <= r)%Q ->
  forall x, (0 <= x)%Q ->
  exists y, fold_left (grow (Fin r) false now) l (Fin x) = Fin y /\ (x <= y)%Q.
Proof.
  intros Hr. induction l as [|i l IH]; intros x Hx; cbn [fold_left].
  - exists x. split; [reflexivity | lra].
  - unfold grow at 2. cbn [add mul].
    destruct (IH (x * (1 + r))%Q) as (y & E & L); [nra|].
    exists y. split; [exact E | nra].
Qed.

Lemma loop_range_prefix (h1 h2 : Q) :
  (h1 <= h2)%Q -> exists ext, loop_range h2 = (loop_range h1 ++ ext)%list.
Proof.
  intros H. apply Qfloor_resp_le in H. unfold loop_range.
  set (n1 := Z.to_nat (Qfloor h1)). set (n2 := Z.to_nat (Qfloor h2)).
  assert (L : (n1 <= n2)%nat) by (unfold n1, n2; lia).
  exists (map Z.of_nat (seq (1 + n1) (n2 - n1))).
  rewrite <- map_app, <- seq_app. f_equal. f_equal. lia.
Qed.

Lemma baseGrowthRate_positive (orders : list Order) (s : Scenario) (r : Q) :
  baseGrowthRate orders s == Fin r -> (0 < r)%Q.
Proof.
  unfold baseGrowthRate. destruct (gt (momGrowth orders) (Fin 0)) eqn:G.
  - intros H. apply num_eq_Fin_inv in H. destruct H as (m & E & Hm).
    rewrite E in G. unfold gt in G. cbn [lt] in G.
    apply Qlt_bool_iff in G. lra.
  - destruct s; cbn [growthMultipliers num_eq]; intros H; rewrite <- H; reflexivity.
Qed.

Lemma confidence_interval_formula (f : ForecastPoint) :
  revenue_low (confidence_interval f)
  = toFixed 2 (parseFloat (projected_monthly_revenue f)
               * (Fin 1 - Fin (15 # 100) * Math_sqrt (Fin (months_ahead f))))
  /\ revenue_high (confidence_interval f)
     = toFixed 2 (parseFloat (projected_monthly_revenue f)
                  * (Fin 1 + Fin (15 # 100) * Math_sqrt (Fin (months_ahead f)))).
Proof. split; reflexivity. Qed.






(* ================================================================== *)
(** ** Identifiers and the shop domain (src/services/shopify-client.ts) *)

Lemma append_assoc (a b c : string) : ((a ++ b) ++ c = a ++ (b ++ c))%string.
Proof. induction a as [|x a IH]; simpl; [reflexivity | now rewrite IH]. Qed.

Lemma append_empty_r (a : string) : (a ++ "")%string = a.
Proof. induction a as [|x a IH]; simpl; [reflexivity | now rewrite IH]. Qed.

Lemma chars_app (a b : string) : chars (a ++ b) = (chars a ++ chars b)%list.
Proof. induction a as [|x a IH]; simpl; [reflexivity | now rewrite IH]. Qed.

Lemma prefix_app (p s : string) : String.prefix p (p ++ s) = true.
Proof.
  induction p as [|x p IH]; simpl; [now destruct s |].
  destruct (ascii_dec x x); [exact IH | congruence].
Qed.

Lemma strip_prefix_app (p s : string) : Client.strip_prefix p (p ++ s) = Some s.
Proof.
  induction p as [|x p IH]; simpl; [now destruct s |].
  now rewrite Ascii.eqb_refl.
Qed.

Lemma strip_prefix_Some (p s r : string) :
  Client.strip_prefix p s = Some r -> s = (p ++ r)%string.
Proof.
  revert s; induction p as [|x p IH]; intros s H.
  - destruct s; simpl in H; now inversion H.
  - destruct s as [|y s]; simpl in H; [discriminate |].
    destruct (Ascii.eqb x y) eqn:E; [| discriminate].
    apply Ascii.eqb_eq in E; subst y. simpl. f_equal. now apply IH.
Qed.

(** A string of digits has no slash, so the pattern of
    [extractNumericId] does not match inside it. *)
Lemma digits_no_match (d : string) :
  forallb is_digit (chars d) = true -> Client.match_numeric_tail d = None.
Proof.
  induction d as [|c d IH]; simpl; intros H; [reflexivity |].
  apply andb_prop in H as [Hc Hd].
  destruct (Ascii.eqb c "/") eqn:E.
  - apply Ascii.eqb_eq in E; subst c. discriminate Hc.
  - simpl. now apply IH.
Qed.

Lemma match_numeric_tail_app (p d : string) :
  d <> "" -> forallb is_digit (chars d) = true ->
  Client.match_numeric_tail (p ++ String "/" d) = Some d.
Proof.
  intros Hne Hd. induction p as [|c p IH].
  - simpl. rewrite Hd. destruct d; [congruence | reflexivity].
  - assert (F : forallb is_digit (chars (p ++ String "/" d)) = false).
    { rewrite chars_app, forallb_app. cbn [chars list_ascii_of_string forallb].
      change (is_digit "/") with false. now rewrite andb_false_r. }
    cbn [append Client.match_numeric_tail].
    rewrite F, andb_false_r. exact IH.
Qed.

Lemma match_numeric_tail_Some (g d : string) :
  Client.match_numeric_tail g = Some d ->
  d <> "" /\ forallb is_digit (chars d) = true
  /\ exists p, g = (p ++ "/" ++ d)%string.
Proof.
  change ("/" ++ d)%string with (String "/" d).
  induction g as [|c g IH]; cbn [Client.match_numeric_tail]; intros H; [discriminate |].
  destruct (Ascii.eqb c "/" && negb (String.eqb g "") && forallb is_digit (chars g))
    eqn:E.
  - inversion H; subst d.
    apply andb_prop in E as [E E3]. apply andb_prop in E as [E1 E2].
    apply Ascii.eqb_eq in E1; subst c.
    split; [| split; [exact E3 | now exists ""]].
    intros ->. discriminate E2.
  - destruct (IH H) as (A & B & p & ->).
    split; [exact A | split; [exact B |]]. now exists (String c p).
Qed.

Lemma digits_not_gid (d : string) :
  d <> "" -> forallb is_digit (chars d) = true -> String.prefix "gid://" d = false.
Proof.
  intros Hne Hd. destruct d as [|c d]; [congruence |].
  cbn [chars list_ascii_of_string forallb] in Hd. apply andb_prop in Hd as [Hc _].
  cbn [String.prefix]. destruct (ascii_dec "g" c) as [<- |]; [discriminate Hc | reflexivity].
Qed.

(** X1.  [toGid] and [extractNumericId] are inverse to each other on
    numeric ids: the GID built from a non-empty string of digits reads
    back as these digits, and the id read from a GID of the resource type
    rebuilds this GID (an id listed by [shopify_list_discounts] addresses
    the same node when given to [shopify_deactivate_discount]). *)
Theorem numeric_id_round_trip (resourceType id : string) :
  id <> "" -> forallb is_digit (chars id) = true ->
  Client.extractNumericId (Client.toGid resourceType id) = id
  /\ Client.toGid resourceType
       (Client.extractNumericId ("gid://shopify/" ++ resourceType ++ "/" ++ id))
     = ("gid://shopify/" ++ resourceType ++ "/" ++ id)%string.
Proof.
  intros Hne Hd.
  assert (E : Client.extractNumericId ("gid://shopify/" ++ resourceType ++ "/" ++ id)
              = id).
  { unfold Client.extractNumericId.
    rewrite <- append_assoc. change ("/" ++ id)%string with (String "/" id).
    now rewrite match_numeric_tail_app. }
  unfold Client.toGid at 1. rewrite (digits_not_gid id Hne Hd).
  split; [exact E |].
  rewrite E. unfold Client.toGid. now rewrite (digits_not_gid id Hne Hd).
Qed.

(** An instance: discount node 1234567890. *)
Lemma numeric_id_round_trip_witness :
  Client.extractNumericId (Client.toGid "DiscountCodeNode" "1234567890") = "1234567890"
  /\ Client.toGid "DiscountCodeNode"
       (Client.extractNumericId "gid://shopify/DiscountCodeNode/1234567890")
     = "gid://shopify/DiscountCodeNode/1234567890".
Proof.
  apply (numeric_id_round_trip "DiscountCodeNode" "1234567890");
    [discriminate | reflexivity].
Defined.

(** X2.  [toGid] leaves a global id untouched whatever resource type is
    asked for, so applying it twice is applying it once: a GID is never
    wrapped into a second [gid://shopify/...] prefix. *)
Theorem toGid_idempotent (resourceType resourceType' id : string) :
  Client.toGid resourceType' (Client.toGid resourceType id) = Client.toGid resourceType id
  /\ is_gid (Client.toGid resourceType id) = true.
Proof.
  assert (G : is_gid (Client.toGid resourceType id) = true).
  { unfold Client.toGid, is_gid. destruct (String.prefix "gid://" id) eqn:E;
      [exact E | reflexivity]. }
  split; [| exact G].
  unfold is_gid in G. unfold Client.toGid at 1. now rewrite G.
Qed.

(** X3.  [extractNumericId] returns either its argument unchanged or the
    non-empty run of digits that follows the last slash of the argument;
    applying it to its own result changes nothing. *)
Theorem extractNumericId_shape (gid : string) :
  (Client.extractNumericId gid = gid
   \/ (Client.extractNumericId gid <> ""
       /\ forallb is_digit (chars (Client.extractNumericId gid)) = true
       /\ exists p, gid = (p ++ "/" ++ Client.extractNumericId gid)%string))
  /\ Client.extractNumericId (Client.extractNumericId gid) = Client.extractNumericId gid.
Proof.
  unfold Client.extractNumericId at 1 2 3 4 6 7.
  destruct (Client.match_numeric_tail gid) as [d|] eqn:E.
  - destruct (match_numeric_tail_Some gid d E) as (A & B & C).
    split; [right; now repeat split |].
    unfold Client.extractNumericId. now rewrite (digits_no_match d B).
  - split; [now left |]. unfold Client.extractNumericId. now rewrite E.
Qed.

Lemma no_slash_cons (c : ascii) (r : string) :
  includes (String c r) "/" = false -> c <> "/"%char /\ includes r "/" = false.
Proof.
  cbn [includes String.prefix]. intros H. apply orb_false_elim in H as [H1 H2].
  split; [| exact H2]. intros ->. destruct r; discriminate H1.
Qed.

Lemma strip_trailing_slash_app (d : string) :
  Client.strip_trailing_slash (d ++ "/") = d.
Proof.
  induction d as [|c d IH]; [reflexivity |].
  cbn [append Client.strip_trailing_slash]. rewrite IH.
  destruct d; reflexivity.
Qed.

Lemma strip_trailing_slash_none (d : string) :
  includes d "/" = false -> Client.strip_trailing_slash d = d.
Proof.
  induction d as [|c d IH]; intros H; [reflexivity |].
  apply no_slash_cons in H as [Hc Hd].
  cbn [Client.strip_trailing_slash]. destruct d as [|c' d].
  - destruct (Ascii.eqb c "/") eqn:E; [| reflexivity].
    apply Ascii.eqb_eq in E. contradiction.
  - now rewrite (IH Hd).
Qed.

(** A host name without a slash does not start with a scheme, with or
    without a slash appended. *)
Lemma strip_scheme_host (d x : string) :
  includes d "/" = false -> x = "" \/ x = "/" ->
  Client.strip_scheme (d ++ x) = (d ++ x)%string.
Proof.
  intros H Hx. unfold Client.strip_scheme.
  assert (N : forall p, p = "https://" \/ p = "http://" ->
                        Client.strip_prefix p (d ++ x) = None).
  { intros p Hp.
    destruct (Client.strip_prefix p (d ++ x)) as [r|] eqn:E; [| reflexivity].
    exfalso. apply strip_prefix_Some in E.
    destruct Hp as [-> | ->], Hx as [-> | ->];
      repeat (destruct d as [|? d];
              [ discriminate E
              | cbn [append] in E; injection E as ? E; subst;
                apply no_slash_cons in H as [? H] ]);
      congruence. }
  rewrite (N "https://"), (N "http://"); auto.
Qed.

Lemma strip_scheme_https (s : string) : Client.strip_scheme ("https://" ++ s) = s.
Proof. unfold Client.strip_scheme. now rewrite strip_prefix_app. Qed.

Lemma strip_scheme_http (s : string) : Client.strip_scheme ("http://" ++ s) = s.
Proof.
  unfold Client.strip_scheme.
  replace (Client.strip_prefix "https://" ("http://" ++ s)) with (@None string)
    by reflexivity.
  now rewrite strip_prefix_app.
Qed.

Lemma createClient_configured (domain token : string) :
  domain <> "" -> token <> "" ->
  Client.createClient (Some domain) (Some token)
  = Returned ("https://" ++ Client.normalizedDomain domain ++ "/admin/api/"
              ++ Client.SHOPIFY_API_VERSION ++ "/graphql.json").
Proof.
  intros Hd Ht. destruct domain; [congruence |]. destruct token; [congruence |].
  reflexivity.
Qed.

(** X4.  The endpoint [createClient] addresses does not depend on how the
    shop domain is spelled: for a host name without a slash, the bare
    name, the name with a trailing slash and the name with an [http://]
    or [https://] scheme (with or without the trailing slash) all give the
    base URL [https://<host>/admin/api/2024-10/graphql.json]; a missing
    or empty domain or token makes [createClient] throw. *)
Theorem base_url_ignores_spelling (host token : string) :
  host <> "" -> token <> "" -> includes host "/" = false ->
  let url := Returned ("https://" ++ host ++ "/admin/api/2024-10/graphql.json") in
  Client.createClient (Some host) (Some token) = url
  /\ Client.createClient (Some (host ++ "/")) (Some token) = url
  /\ Client.createClient (Some ("https://" ++ host)) (Some token) = url
  /\ Client.createClient (Some ("http://" ++ host)) (Some token) = url
  /\ Client.createClient (Some ("https://" ++ host ++ "/")) (Some token) = url
  /\ Client.createClient (Some ("http://" ++ host ++ "/")) (Some token) = url
  /\ (forall t, exists e, Client.createClient None t = Thrown e
                          /\ Client.createClient (Some "") t = Thrown e)
  /\ (forall d, exists e, Client.createClient (Some d) None = Thrown e
                          /\ Client.createClient (Some d) (Some "") = Thrown e).
Proof.
  intros Hh Ht Hs url.
  assert (N1 : Client.normalizedDomain host = host).
  { unfold Client.normalizedDomain.
    rewrite <- (append_empty_r host) at 1.
    rewrite (strip_scheme_host host "" Hs (or_introl eq_refl)), append_empty_r.
    now apply strip_trailing_slash_none. }
  assert (N2 : Client.normalizedDomain (host ++ "/") = host).
  { unfold Client.normalizedDomain.
    rewrite (strip_scheme_host host "/" Hs (or_intror eq_refl)).
    apply strip_trailing_slash_app. }
  assert (N3 : Client.normalizedDomain ("https://" ++ host) = host).
  { unfold Client.normalizedDomain. rewrite strip_scheme_https.
    now apply strip_trailing_slash_none. }
  assert (N4 : Client.normalizedDomain ("http://" ++ host) = host).
  { unfold Client.normalizedDomain. rewrite strip_scheme_http.
    now apply strip_trailing_slash_none. }
  assert (N5 : Client.normalizedDomain ("https://" ++ host ++ "/") = host).
  { unfold Client.normalizedDomain. rewrite strip_scheme_https.
    apply strip_trailing_slash_app. }
  assert (N6 : Client.normalizedDomain ("http://" ++ host ++ "/") = host).
  { unfold Client.normalizedDomain. rewrite strip_scheme_http.
    apply strip_trailing_slash_app. }
  assert (A : forall s, (host ++ s)%string <> "").
  { intros s. destruct host; [congruence | discriminate]. }
  repeat match goal with |- _ /\ _ => split end.
  - rewrite createClient_configured, N1 by assumption. reflexivity.
  - rewrite createClient_configured, N2 by (try apply A; assumption). reflexivity.
  - rewrite createClient_configured, N3 by (try discriminate; assumption). reflexivity.
  - rewrite createClient_configured, N4 by (try discriminate; assumption). reflexivity.
  - rewrite createClient_configured, N5 by (try discriminate; assumption). reflexivity.
  - rewrite createClient_configured, N6 by (try discriminate; assumption). reflexivity.
  - intros t. eexists. split; reflexivity.
  - intros d. destruct d; eexists; split; reflexivity.
Qed.

(** An instance: the domain of the README. *)
Lemma base_url_ignores_spelling_witness :
  Client.createClient (Some "https://your-store.myshopify.com/") (Some "shpat_1")
  = Returned "https://your-store.myshopify.com/admin/api/2024-10/graphql.json".
Proof.
  pose proof (base_url_ignores_spelling "your-store.myshopify.com" "shpat_1") as H.
  cbv zeta in H.
  destruct H as (_ & _ & _ & _ & H & _); [discriminate | discriminate | reflexivity |].
  exact H.
Defined.

(** ** Error messages (src/services/shopify-client.ts) *)

Lemma error_message_shape (message : string) :
  String.prefix "Error: " (Client.error_message message) = true
  \/ (includes message "GraphQL Error" = true
      /\ Client.error_message message = message).
Proof.
  unfold Client.error_message.
  destruct (includes message "GraphQL Error"); [right; now split | left].
  apply prefix_app.
Qed.

(** X5.  [handleApiError] turns every failure into a message that starts
    with ["Error: "], with two exceptions: the message of an error that
    mentions ["GraphQL Error"] is returned as it is, and a 422 response
    whose body is [null] makes [handleApiError] itself throw a
    [TypeError].  In particular the error [executeGraphQL] throws for a
    response with GraphQL errors is reported verbatim, the messages
    joined by ["; "]. *)
Theorem handleApiError_messages (error : Client.Failure) :
  match Client.handleApiError error with
  | Returned text =>
      String.prefix "Error: " text = true
      \/ (includes text "GraphQL Error" = true
          /\ (error = Client.Error text
              \/ exists code, error = Client.AxiosError None code text))
  | Thrown e =>
      e = "TypeError: Cannot read properties of null (reading 'errors')"
      /\ exists code message,
           error = Client.AxiosError
                     (Some {| Client.status := 422; Client.data := Client.data_null |})
                     code message
  end
  /\ (forall (T : Type) (errors : list string) (payload : T),
         errors <> [] ->
         exists failure,
           Client.executeGraphQL (Client.answered errors payload) = inr failure
           /\ Client.handleApiError failure
              = Returned ("GraphQL Error: " ++ Client.join "; " errors)).
Proof.
  split.
  - destruct error as [[[st d]|] code message | message | text].
    + cbn [Client.handleApiError Client.status Client.data].
      destruct (Z.eqb_spec st 401); [left; reflexivity |].
      destruct (Z.eqb_spec st 402); [left; reflexivity |].
      destruct (Z.eqb_spec st 403); [left; reflexivity |].
      destruct (Z.eqb_spec st 404); [left; reflexivity |].
      destruct (Z.eqb_spec st 422).
      { subst st. destruct d as [| [| items | text json] |];
          try (left; reflexivity).
        split; [reflexivity | now exists code, message]. }
      destruct (Z.eqb_spec st 429); [left; reflexivity |].
      destruct ((st =? 500)%Z || (st =? 502)%Z || (st =? 503)%Z || (st =? 504)%Z);
        left; reflexivity.
    + cbn [Client.handleApiError].
      assert (G : match Returned (Client.error_message message) with
                  | Returned text =>
                      String.prefix "Error: " text = true
                      \/ (includes text "GraphQL Error" = true
                          /\ (Client.AxiosError None code message = Client.Error text
                              \/ exists code0,
                                   Client.AxiosError None code message
                                   = Client.AxiosError None code0 text))
                  | Thrown _ => False
                  end).
      { destruct (error_message_shape message) as [H | [H1 H2]];
          [now left | right]. rewrite H2. split; [exact H1 | right; now exists code]. }
      destruct (Client.code_is code "ECONNABORTED"); [left; reflexivity |].
      destruct (Client.code_is code "ENOTFOUND"); [left; reflexivity |].
      exact G.
    + cbn [Client.handleApiError].
      destruct (error_message_shape message) as [H | [H1 H2]]; [now left | right].
      rewrite H2. split; [exact H1 | now left].
    + left. apply (prefix_app "Error: ").
  - intros T errors payload Hne. destruct errors as [|e errors]; [congruence |].
    eexists. split; [reflexivity |].
    cbn [Client.handleApiError]. unfold Client.error_message.
    replace (includes ("GraphQL Error: " ++ Client.join "; " (e :: errors)) "GraphQL Error")
      with true; reflexivity.
Qed.

(** An instance: two GraphQL errors of one response. *)
Lemma handleApiError_messages_witness :
  exists failure,
    Client.executeGraphQL (Client.answered ["Throttled"; "Access denied"] tt)
    = inr failure
    /\ Client.handleApiError failure
       = Returned "GraphQL Error: Throttled; Access denied".
Proof.
  apply (proj2 (handleApiError_messages (Client.Error ""))
           unit ["Throttled"; "Access denied"] tt).
  discriminate.
Defined.

(* ================================================================== *)
(** ** The discount tools *)

Lemma length_append (a b : string) :
  String.length (a ++ b) = (String.length a + String.length b)%nat.
Proof. induction a as [|x a IH]; simpl; [reflexivity | now rewrite IH]. Qed.

Lemma length_substring (n : nat) (s : string) :
  (n <= String.length s)%nat -> String.length (String.substring 0 n s) = n.
Proof.
  revert s; induction n as [|n IH]; intros s H.
  - destruct s; reflexivity.
  - destruct s as [|c s]; simpl in H; [lia |].
    simpl. rewrite IH; [reflexivity | lia].
Qed.

(** X6.  The markdown text [shopify_list_discounts] returns never exceeds
    [CHARACTER_LIMIT] (25000) characters: a text within the limit is
    returned as it is, a longer one is cut to its first 24900 characters
    followed by the truncation notice, 24963 characters in all. *)
Theorem limit_text_bounded (textContent : string) :
  (N.of_nat (String.length (Discounts.limit_text textContent))
   <= Discounts.CHARACTER_LIMIT)%N
  /\ ((N.of_nat (String.length textContent) <= Discounts.CHARACTER_LIMIT)%N ->
      Discounts.limit_text textContent = textContent)
  /\ ((Discounts.CHARACTER_LIMIT < N.of_nat (String.length textContent))%N ->
      Discounts.limit_text textContent
      = (String.substring 0 (N.to_nat 24900) textContent
         ++ Discounts.truncation_notice)%string
      /\ N.of_nat (String.length (Discounts.limit_text textContent)) = 24963%N).
Proof.
  assert (L : String.length Discounts.truncation_notice = 63%nat) by reflexivity.
  unfold Discounts.limit_text.
  change (Discounts.CHARACTER_LIMIT - 100)%N with 24900%N.
  destruct (N.ltb_spec Discounts.CHARACTER_LIMIT
                       (N.of_nat (String.length textContent))) as [H | H].
  - assert (E : N.of_nat
                  (String.length
                     (String.substring 0 (N.to_nat 24900) textContent
                      ++ Discounts.truncation_notice)) = 24963%N).
    { rewrite length_append, L, length_substring;
        unfold Discounts.CHARACTER_LIMIT in H; lia. }
    split; [| split].
    + rewrite E. unfold Discounts.CHARACTER_LIMIT. lia.
    + intros H'. lia.
    + intros _. split; [reflexivity | exact E].
  - split; [exact H | split; [reflexivity |]]. intros H'. lia.
Qed.

(** An instance: a short text is kept, a text of 25001 characters is
    cut. *)
Lemma limit_text_bounded_witness :
  Discounts.limit_text "# Discount Codes (1 results)" = "# Discount Codes (1 results)"
  /\ N.of_nat (String.length
                 (Discounts.limit_text (str (repeat "a"%char (N.to_nat 25001)))))
     = 24963%N.
Proof.
  split.
  - apply (limit_text_bounded "# Discount Codes (1 results)"). vm_compute. discriminate.
  - apply (limit_text_bounded (str (repeat "a"%char (N.to_nat 25001)))).
    vm_compute. reflexivity.
Defined.

Lemma positive_truthy (q : Q) : Discounts.positive q = true -> truthy (Fin q) = true.
Proof.
  unfold Discounts.positive, truthy. intros H. apply Qlt_bool_iff in H.
  apply negb_true_iff. apply Qeq_bool_false_iff. intros E. rewrite E in H.
  now apply Qlt_irrefl in H.
Qed.

Lemma if_truthy_positive (check : Q -> bool) (o : option Q) :
  (forall q, check q = true -> Discounts.positive q = true) ->
  Discounts.optional check o = true -> Discounts.if_truthy o = o.
Proof.
  intros C H. destruct o as [q|]; [| reflexivity].
  cbn [Discounts.optional] in H. cbn [Discounts.if_truthy].
  now rewrite (positive_truthy q (C q H)).
Qed.

(** X7.  On an input that [CreateDiscountInputSchema] accepts, the
    truthiness tests of [shopify_create_discount] lose nothing: the usage
    limit sent is the one given, a minimum subtotal is sent whenever one
    is given, and a minimum quantity is sent exactly when it is given
    without a minimum subtotal (given both, the quantity is dropped).  A
    percentage discount is sent as the positive fraction
    [discount_value / 100], and [once_per_customer] is always sent,
    [false] by default. *)
Theorem create_discount_keeps_limits
    (Number_toString : Q -> string) (now : string)
    (input : Discounts.CreateDiscountInput) (sent : Discounts.BasicCodeDiscount) :
  Discounts.create_discount_input Number_toString now input = Returned sent ->
  Discounts.usageLimit sent = Discounts.usage_limit input
  /\ Discounts.minimumRequirement sent
     = match Discounts.minimum_subtotal input with
       | Some amount => Some (Discounts.subtotal (Number_toString amount))
       | None =>
           option_map (fun items => Discounts.quantity (Number_toString items))
                      (Discounts.minimum_quantity input)
       end
  /\ (Discounts.discount_type input = Discounts.percentage ->
      Discounts.customerGets sent
      = Discounts.value_percentage (Fin (Discounts.discount_value input / 100))
      /\ (0 < Discounts.discount_value input / 100)%Q)
  /\ (Discounts.discount_type input = Discounts.fixed_amount ->
      Discounts.customerGets sent
      = Discounts.value_discountAmount
          (Number_toString (Discounts.discount_value input)))
  /\ Discounts.appliesOncePerCustomer sent
     = Some (option_default (Discounts.once_per_customer input) false).
Proof.
  unfold Discounts.create_discount_input, Discounts.CreateDiscountInputSchema.
  destruct (_ && _) eqn:V; cbn [bind]; [| discriminate].
  intros H. injection H as <-.
  repeat (apply andb_prop in V as [V ?]).
  assert (U : Discounts.if_truthy (Discounts.usage_limit input)
              = Discounts.usage_limit input).
  { apply (if_truthy_positive (fun n => Discounts.int n && Discounts.positive n));
      [| assumption]. intros q Hq. now apply andb_prop in Hq. }
  assert (S : Discounts.if_truthy (Discounts.minimum_subtotal input)
              = Discounts.minimum_subtotal input).
  { now apply (if_truthy_positive Discounts.positive). }
  assert (M : Discounts.if_truthy (Discounts.minimum_quantity input)
              = Discounts.minimum_quantity input).
  { apply (if_truthy_positive (fun n => Discounts.int n && Discounts.positive n));
      [| assumption]. intros q Hq. now apply andb_prop in Hq. }
  unfold Discounts.basicCodeDiscount; cbn -[Discounts.if_truthy JS.div].
  rewrite U, S, M.
  repeat match goal with |- _ /\ _ => split end.
  - reflexivity.
  - destruct (Discounts.minimum_subtotal input); [reflexivity |].
    now destruct (Discounts.minimum_quantity input).
  - intros ->. split; [reflexivity |].
    match goal with
    | P : Discounts.positive _ = true |- _ => apply Qlt_bool_iff in P
    end.
    apply Qlt_shift_div_l; [reflexivity | now rewrite Qmult_0_l].
  - now intros ->.
  - reflexivity.
Qed.

(** An instance: 20% off with both minimums given. *)
Lemma create_discount_keeps_limits_witness :
  Discounts.minimumRequirement
    (Discounts.basicCodeDiscount (fun q => Z_toString (Qfloor q)) "2026-11-02T00:00:00.000Z"
       {| Discounts.title := "Summer sale"; Discounts.code := "SAVE20";
          Discounts.discount_type := Discounts.percentage;
          Discounts.discount_value := 20;
          Discounts.starts_at := None; Discounts.ends_at := None;
          Discounts.usage_limit := Some 100%Q;
          Discounts.once_per_customer := Some false;
          Discounts.minimum_subtotal := Some 50%Q;
          Discounts.minimum_quantity := Some 3%Q |})
  = Some (Discounts.subtotal "50").
Proof.
  apply (create_discount_keeps_limits (fun q => Z_toString (Qfloor q))
           "2026-11-02T00:00:00.000Z"
           {| Discounts.title := "Summer sale"; Discounts.code := "SAVE20";
              Discounts.discount_type := Discounts.percentage;
              Discounts.discount_value := 20;
              Discounts.starts_at := None; Discounts.ends_at := None;
              Discounts.usage_limit := Some 100%Q;
              Discounts.once_per_customer := None;
              Discounts.minimum_subtotal := Some 50%Q;
              Discounts.minimum_quantity := Some 3%Q |}).
  reflexivity.
Defined.

(* ================================================================== *)
(** ** Traffic sources *)













(* ================================================================== *)
(** ** Sorting with a comparator *)

Lemma insert_sorted_perm {A} (compare : A -> A -> number) (e : A) (l : list A) :
  Permutation (insert_sorted compare e l) (e :: l).
Proof.
  induction l as [|x rest IH]; cbn [insert_sorted]; [apply Permutation_refl |].
  destruct (gt (compare e x) (Fin 0)); [| apply Permutation_refl].
  eapply perm_trans; [apply perm_skip, IH | apply perm_swap].
Qed.

Lemma Array_sort_perm {A} (compare : A -> A -> number) (l : list A) :
  Permutation (Array_sort compare l) l.
Proof.
  induction l as [|x rest IH]; cbn [Array_sort fold_right]; [constructor |].
  eapply perm_trans; [apply insert_sorted_perm | now apply perm_skip].
Qed.

Lemma Array_sort_length {A} (compare : A -> A -> number) (l : list A) :
  List.length (Array_sort compare l) = List.length l.
Proof. apply Permutation_length, Array_sort_perm. Qed.

Lemma gt_difference (a b : Q) :
  gt (Fin b - Fin a) (Fin 0) = Qlt_bool a b.
Proof.
  unfold gt. cbn [JS.sub JS.add JS.neg JS.lt].
  destruct (Qlt_bool a b) eqn:E.
  - apply Qlt_bool_iff in E. apply Qlt_bool_iff. lra.
  - apply Qlt_bool_false_iff in E. apply Qlt_bool_false_iff. lra.
Qed.

Section Ranking.

Context {A : Type} (key : A -> number).

(** Descending order of the keys. *)
Lemma insert_sorted_ranked (e : A) (l : list A) :
  isFinite (key e) = true ->
  Forall (fun a => isFinite (key a) = true) l ->
  StronglySorted (fun a b => le (key b) (key a) = true) l ->
  StronglySorted (fun a b => le (key b) (key a) = true)
                 (insert_sorted (fun a b => key b - key a) e l).
Proof.
  intros He Hl Hs. induction Hs as [|x rest Hs IH Hx]; cbn [insert_sorted].
  - repeat constructor.
  - inversion Hl as [|? ? Hfx Hfrest]; subst.
    destruct (key e) as [ke| | |] eqn:Ke; try discriminate He.
    destruct (key x) as [kx| | |] eqn:Kx; try discriminate Hfx.
    rewrite gt_difference.
    destruct (Qlt_bool ke kx) eqn:E.
    + constructor; [now apply IH |].
      apply Forall_forall. intros y Hy.
      apply (Permutation_in _ (insert_sorted_perm _ e rest)) in Hy.
      destruct Hy as [<- | Hy].
      * rewrite Ke, Kx. cbn [JS.le]. apply Qlt_bool_iff in E.
        apply Qle_bool_iff. lra.
      * rewrite Kx. rewrite Forall_forall in Hx. now apply Hx.
    + apply Qlt_bool_false_iff in E.
      constructor; [constructor; [exact Hs | rewrite Kx; exact Hx] |].
      constructor.
      * rewrite Ke, Kx. cbn [JS.le]. now apply Qle_bool_iff.
      * apply Forall_forall. intros y Hy.
        rewrite Forall_forall in Hx, Hfrest.
        specialize (Hx y Hy). specialize (Hfrest y Hy).
        destruct (key y) as [ky| | |]; try discriminate Hfrest.
        rewrite Ke. cbn [JS.le] in *.
        apply Qle_bool_iff in Hx. apply Qle_bool_iff. lra.
Qed.

Lemma Array_sort_ranked (l : list A) :
  Forall (fun a => isFinite (key a) = true) l ->
  StronglySorted (fun a b => le (key b) (key a) = true)
                 (Array_sort (fun a b => key b - key a) l).
Proof.
  induction l as [|x rest IH]; intros H; cbn [Array_sort fold_right].
  - constructor.
  - inversion H; subst. apply insert_sorted_ranked; [assumption | |].
    + apply Forall_forall. intros y Hy.
      apply (Permutation_in _ (Array_sort_perm _ rest)) in Hy.
      rewrite Forall_forall in H3. now apply H3.
    + now apply IH.
Qed.

End Ranking.

(** [slice(0, n)] is a prefix, of [n] elements (truncated) when there
    are as many and [n] is not negative. *)
Lemma slice_to_prefix {A} (l : list A) (stop : Q) :
  exists rest, l = (slice_to l stop ++ rest)%list.
Proof.
  unfold slice_to. eexists. symmetry. apply firstn_skipn.
Qed.

Lemma slice_to_length {A} (l : list A) (stop : Q) :
  (0 <= stop)%Q ->
  List.length (slice_to l stop) = Nat.min (Z.to_nat (Qfloor stop)) (List.length l).
Proof.
  intros H. unfold slice_to, ToIntegerOrInfinity.
  assert (E : Qlt_bool stop 0 = false) by now apply Qlt_bool_false_iff.
  rewrite E.
  assert (P : (0 <= Qfloor stop)%Z).
  { rewrite <- (Qfloor_Z 0). now apply Qfloor_resp_le. }
  destruct (Z.ltb_spec (Qfloor stop) 0); [lia |].
  rewrite length_firstn. lia.
Qed.

(* ================================================================== *)
(** ** The store report *)

Lemma call_store_analytics_returns
    (shop : option string) (now : Z) (input : StoreAnalyticsInput)
    (cur prev : list Order) (nc : nat) :
  let days := option_default (sa_period_days input) 30%Q in
  let compare := option_default (sa_compare_previous input) true in
  DateModel.valid now = true ->
  DateModel.valid (days_before now days) = true ->
  (compare = true ->
   DateModel.valid (days_before (days_before now days) days) = true) ->
  exists r,
    call_store_analytics shop now input cur prev nc = Returned r
    /\ comparison r = (if compare then Some (compare_periods cur prev) else None)
    /\ orders_total r = totalOrders cur
    /\ sources r = trafficSources shop cur
    /\ estimated_sessions r = Math_round (of_nat (totalOrders cur) / Fin (25 # 1000))
    /\ orders_daily_average r = toFixed 1 (of_nat (totalOrders cur) / Fin days)
    /\ revenue_total r = toFixed 2 (totalRevenue cur)
    /\ revenue_daily_average r = toFixed 2 (totalRevenue cur / Fin days)
    /\ average_order_value r = toFixed 2 (avgOrderValue cur)
    /\ items_sold r = totalItems cur
    /\ unique_customers r = uniqueCustomers cur.
Proof.
  intros days compare Hnow Hstart Hprev.
  unfold call_store_analytics, StoreAnalyticsInputSchema, shopify_store_analytics.
  cbn [bind]. fold days. fold compare.
  unfold DateModel.isoDate. rewrite Hnow, Hstart.
  destruct compare; [rewrite (Hprev eq_refl) |];
    cbn [bind]; eexists; (split; [reflexivity |]);
    repeat match goal with |- _ /\ _ => split end; reflexivity.
Qed.

Lemma StronglySorted_map_inv {A B} (f : A -> B) (R : B -> B -> Prop) (l : list A) :
  StronglySorted (fun a b => R (f a) (f b)) l -> StronglySorted R (map f l).
Proof.
  induction 1 as [|x rest Hs IH Hx]; cbn [map]; constructor; [assumption |].
  apply Forall_forall. intros y Hy. apply in_map_iff in Hy as (z & <- & Hz).
  rewrite Forall_forall in Hx. now apply Hx.
Qed.

Lemma StronglySorted_weaken {A} (R S : A -> A -> Prop) (l : list A) :
  (forall a b, R a b -> S a b) -> StronglySorted R l -> StronglySorted S l.
Proof.
  intros W. induction 1 as [|x rest Hs IH Hx]; constructor; [assumption |].
  eapply Forall_impl; [| exact Hx]. intros y. apply W.
Qed.

Lemma change_note_returns (c : Comparison) (change : Comparison -> string)
    (member : string) :
  exists note, change_note (Some c) change member = Returned note.
Proof.
  unfold change_note. destruct (String.eqb (change c) "N/A"); eexists; reflexivity.
Qed.

(** X9.  Without the comparison the markdown report cannot be rendered:
    when [compare_previous] is [false] the handler leaves [comparison]
    at [null], the test [comparison?.orders_change !== "N/A"] succeeds
    and reading [comparison.orders_change] throws a [TypeError], in the
    default format as well as for [response_format = "markdown"]; the
    JSON format returns the analytics, and with the comparison the
    markdown report is rendered, one line per traffic source. *)
Theorem markdown_report_needs_comparison
    (shop : option string) (now : Z) (input : StoreAnalyticsInput)
    (cur prev : list Order) (nc : nat) :
  let days := option_default (sa_period_days input) 30%Q in
  DateModel.valid now = true ->
  DateModel.valid (days_before now days) = true ->
  (sa_compare_previous input = Some false ->
   store_analytics_tool shop now input None cur prev nc
   = Thrown "TypeError: Cannot read properties of null (reading 'orders_change')"
   /\ store_analytics_tool shop now input (Some markdown) cur prev nc
      = Thrown "TypeError: Cannot read properties of null (reading 'orders_change')"
   /\ exists a,
        store_analytics_tool shop now input (Some json) cur prev nc
        = Returned (as_json a)
        /\ comparison a = None)
  /\ (sa_compare_previous input <> Some false ->
      DateModel.valid (days_before (days_before now days) days) = true ->
      exists r,
        store_analytics_tool shop now input None cur prev nc
        = Returned (as_markdown r)
        /\ Permutation (map fst (source_lines r)) (trafficSources shop cur)
        /\ StronglySorted (fun x y => (snd (fst y) <= snd (fst x))%nat)
                          (source_lines r)).
Proof.
  intros days Hnow Hstart. split.
  - intros Hc.
    destruct (call_store_analytics_returns shop now input cur prev nc Hnow Hstart)
      as (a & Ha & Hcmp & _).
    { rewrite Hc. discriminate. }
    rewrite Hc in Hcmp. cbn [option_default] in Hcmp.
    unfold store_analytics_tool. rewrite Ha. cbn [bind option_default].
    unfold store_report. rewrite Hcmp. cbn [change_note bind].
    repeat split; try reflexivity. now exists a.
  - intros Hc Hprev.
    destruct (call_store_analytics_returns shop now input cur prev nc Hnow Hstart)
      as (a & Ha & Hcmp & _ & Hsrc & _).
    { intros _. exact Hprev. }
    assert (E : option_default (sa_compare_previous input) true = true).
    { destruct (sa_compare_previous input) as [[]|]; try reflexivity. congruence. }
    rewrite E in Hcmp.
    unfold store_analytics_tool. rewrite Ha. cbn [bind option_default].
    unfold store_report. rewrite Hcmp.
    destruct (change_note_returns (compare_periods cur prev) orders_change
                "orders_change") as [n1 ->].
    destruct (change_note_returns (compare_periods cur prev) revenue_change
                "revenue_change") as [n2 ->].
    cbn [bind]. eexists. split; [reflexivity |].
    cbn [source_lines]. rewrite Hsrc. split.
    + rewrite map_map. cbn [fst].
      rewrite (map_ext _ (fun e => e)) by (intros [? ?]; reflexivity).
      rewrite map_id. apply Array_sort_perm.
    + apply StronglySorted_map_inv. cbn [fst snd].
      pose proof (Array_sort_ranked (fun e : TrafficSource * nat => of_nat (snd e))
                    (trafficSources shop cur)) as S.
      cbv beta in S.
      eapply StronglySorted_weaken; [| apply S; apply Forall_forall; now intros].
      intros x y H. unfold of_nat, of_Z in H. cbn [JS.le] in H.
      apply Qle_bool_iff in H. rewrite <- Zle_Qle in H. lia.
Qed.

(** An instance: the default format without comparison. *)
Lemma markdown_report_needs_comparison_witness :
  store_analytics_tool Sample.shop Sample.mid_october
    {| sa_period_days := None; sa_compare_previous := Some false |} None
    [Sample.guest_order] [] 0
  = Thrown "TypeError: Cannot read properties of null (reading 'orders_change')".
Proof.
  pose proof (markdown_report_needs_comparison Sample.shop Sample.mid_october
                {| sa_period_days := None; sa_compare_previous := Some false |}
                [Sample.guest_order] [] 0) as H.
  cbv zeta in H.
  destruct H as [H _]; [reflexivity | reflexivity |].
  destruct H as [H _]; [reflexivity |]. exact H.
Defined.

(** X10.  A window without orders gives a report of zeros, for every
    period length other than 0 (negative ones included): no orders, no
    items, no customers, no sessions, no traffic source, and the amounts
    ["0.00"]; the averages are then guarded or divide zero by the period.
    Against a previous window with a positive revenue the revenue change
    is ["-100.0"]. *)
Theorem empty_window_report
    (shop : option string) (now : Z) (input : StoreAnalyticsInput)
    (prev : list Order) (nc : nat) :
  let days := option_default (sa_period_days input) 30%Q in
  DateModel.valid now = true ->
  DateModel.valid (days_before now days) = true ->
  DateModel.valid (days_before (days_before now days) days) = true ->
  ~ (days == 0)%Q ->
  exists r,
    call_store_analytics shop now input [] prev nc = Returned r
    /\ orders_total r = 0%nat
    /\ items_sold r = 0%Z
    /\ unique_customers r = 0%nat
    /\ estimated_sessions r = Fin 0
    /\ sources r = []
    /\ orders_daily_average r = "0.0"
    /\ revenue_total r = "0.00"
    /\ revenue_daily_average r = "0.00"
    /\ average_order_value r = "0.00"
    /\ (forall p c,
           totalRevenue prev = Fin p -> (0 < p)%Q ->
           comparison r = Some c -> revenue_change c = "-100.0").
Proof.
  intros days Hnow Hstart Hprev Hdays.
  destruct (call_store_analytics_returns shop now input [] prev nc Hnow Hstart)
    as (r & Hr & Hcmp & Ho & Hs & He & Hda & Hrt & Hrd & Ha & Hi & Hu).
  { intros _. exact Hprev. }
  fold days in Hda, Hrd.
  assert (Z0 : forall f, toFixed f (of_nat 0 / Fin days) = toFixed f (Fin 0)).
  { intros f. apply toFixed_num_eq. unfold of_nat, of_Z. cbn [JS.div].
    destruct (Qeq_bool days 0) eqn:E; [now apply Qeq_bool_iff in E |].
    cbn [num_eq]. unfold Qdiv. now rewrite Qmult_0_l. }
  exists r. split; [exact Hr |].
  repeat match goal with |- _ /\ _ => split end.
  - exact Ho.
  - exact Hi.
  - exact Hu.
  - rewrite He. reflexivity.
  - exact Hs.
  - rewrite Hda. apply (Z0 1%nat).
  - rewrite Hrt. reflexivity.
  - rewrite Hrd. apply (Z0 2%nat).
  - rewrite Ha. reflexivity.
  - intros p c Hp Hpos Hc. rewrite Hcmp in Hc.
    destruct (option_default (sa_compare_previous input) true); [| discriminate].
    injection Hc as <-. cbn [compare_periods revenue_change]. rewrite Hp.
    change (totalRevenue []) with (Fin 0).
    rewrite (change_pct_positive 0 p Hpos).
    transitivity (toFixed 1 (Fin (-100))); [| reflexivity].
    apply toFixed_num_eq. cbn [num_eq]. field. intros E. rewrite E in Hpos.
    now apply Qlt_irrefl in Hpos.
Qed.

(** An instance: a week without orders after a week with one. *)
Lemma empty_window_report_witness :
  exists r,
    call_store_analytics Sample.shop Sample.mid_october (Sample.analytics_input 7)
      [] [Sample.guest_order] 0 = Returned r
    /\ revenue_total r = "0.00"
    /\ orders_daily_average r = "0.0".
Proof.
  destruct (empty_window_report Sample.shop Sample.mid_october
              (Sample.analytics_input 7) [Sample.guest_order] 0)
    as (r & H & _ & _ & _ & _ & _ & A & B & _);
    [reflexivity | reflexivity | reflexivity | discriminate |].
  exists r. repeat split; assumption.
Defined.

Lemma round_of_sessions (n : nat) :
  Math_round (of_nat n / Fin (25 # 1000)) = of_Z (40 * Z.of_nat n).
Proof.
  unfold of_nat, of_Z. cbn [JS.div].
  change (Qeq_bool (25 # 1000) 0) with false. cbv iota.
  cbn [Math_round]. unfold of_Z. do 2 f_equal.
  assert (E : (inject_Z (Z.of_nat n) / (25 # 1000) + (1 # 2)
               == inject_Z (40 * Z.of_nat n) + (1 # 2))%Q).
  { rewrite inject_Z_mult. field. }
  rewrite E, Qfloor_shift. change (Qfloor (1 # 2)) with 0%Z. lia.
Qed.

(** X11.  The estimated number of sessions of the store report is
    exactly 40 times the number of orders (the assumed conversion of
    2.5%): rounding never changes it, and it does not depend on revenue,
    customers or the period. *)
Theorem estimated_sessions_forty_per_order
    (shop : option string) (now : Z) (input : StoreAnalyticsInput)
    (cur prev : list Order) (nc : nat) (r : StoreAnalytics) :
  call_store_analytics shop now input cur prev nc = Returned r ->
  estimated_sessions r = of_Z (40 * Z.of_nat (orders_total r))
  /\ orders_total r = List.length cur.
Proof.
  unfold call_store_analytics, StoreAnalyticsInputSchema, shopify_store_analytics.
  cbn [bind]. intros H.
  destruct (DateModel.isoDate _) in H; cbn [bind] in H; [| discriminate].
  destruct (if option_default (sa_compare_previous input) true then _ else _) in H;
    cbn [bind] in H; [| discriminate].
  destruct (DateModel.isoDate now) in H; cbn [bind] in H; [| discriminate].
  injection H as <-. cbn [estimated_sessions orders_total].
  split; [apply round_of_sessions | reflexivity].
Qed.

(** An instance: two orders, eighty sessions. *)
Lemma estimated_sessions_forty_per_order_witness :
  exists r,
    call_store_analytics Sample.shop Sample.mid_october (Sample.analytics_input 30)
      [Sample.guest_order; Sample.regular_order] [] 0 = Returned r
    /\ estimated_sessions r = Fin 80.
Proof.
  eexists. split.
  - vm_compute. reflexivity.
  - etransitivity.
    + apply (estimated_sessions_forty_per_order Sample.shop Sample.mid_october
               (Sample.analytics_input 30)
               [Sample.guest_order; Sample.regular_order] [] 0).
      vm_compute. reflexivity.
    + reflexivity.
Defined.

(* ================================================================== *)
(** ** Month buckets of the forecast *)

Lemma add_to_bucket_keys (key k : string) (amt : number)
    (data : list (string * MonthBucket)) :
  In k (map fst (add_to_bucket key amt data)) <-> k = key \/ In k (map fst data).
Proof.
  induction data as [|[k0 b] rest IH]; cbn [add_to_bucket map fst In].
  - intuition.
  - destruct (String.eqb k0 key) eqn:E; cbn [map fst In].
    + apply String.eqb_eq in E; subst k0. intuition.
    + rewrite IH. intuition.
Qed.

Lemma add_to_bucket_NoDup (key : string) (amt : number)
    (data : list (string * MonthBucket)) :
  NoDup (map fst data) -> NoDup (map fst (add_to_bucket key amt data)).
Proof.
  induction data as [|[k0 b] rest IH]; cbn [add_to_bucket map fst]; intros H.
  - constructor; [intros [] | constructor].
  - inversion H as [|? ? Hin Hrest]; subst.
    destruct (String.eqb k0 key) eqn:E; cbn [map fst].
    + now constructor.
    + constructor; [| now apply IH].
      rewrite add_to_bucket_keys. intros [-> | Hk]; [| contradiction].
      now rewrite String.eqb_refl in E.
Qed.

Lemma add_to_bucket_orders (key : string) (amt : number)
    (data : list (string * MonthBucket)) :
  Zsum (map (fun e => orders (snd e)) (add_to_bucket key amt data))
  = (Zsum (map (fun e => orders (snd e)) data) + 1)%Z
  /\ (Forall (fun e => (1 <= orders (snd e))%Z) data ->
      Forall (fun e => (1 <= orders (snd e))%Z) (add_to_bucket key amt data))
  /\ (List.length (add_to_bucket key amt data) <= S (List.length data))%nat.
Proof.
  induction data as [|[k0 b] rest (IH1 & IH2 & IH3)];
    cbn [add_to_bucket map snd Zsum fold_right orders List.length].
  - repeat split; [| lia]. intros _. repeat constructor. cbn. lia.
  - destruct (String.eqb k0 key);
      cbn [map snd Zsum fold_right orders List.length].
    + repeat split; [lia | | lia]. intros H. inversion H; subst.
      constructor; [cbn in *; lia | assumption].
    + unfold Zsum in IH1. rewrite IH1. repeat split; [lia | | lia].
      intros H. inversion H; subst. constructor; [assumption | now apply IH2].
Qed.

Lemma add_to_bucket_revenue (key : string) (a : Q)
    (data : list (string * MonthBucket)) :
  Forall (fun e => isFinite (revenue (snd e)) = true) data ->
  Forall (fun e => isFinite (revenue (snd e)) = true) (add_to_bucket key (Fin a) data)
  /\ (Qsum (map (fun e => finite_part (revenue (snd e))) (add_to_bucket key (Fin a) data))
      == Qsum (map (fun e => finite_part (revenue (snd e))) data) + a)%Q.
Proof.
  induction data as [|[k0 b] rest IH]; intros H;
    cbn [add_to_bucket map snd Qsum fold_right revenue].
  - split; [repeat constructor | cbn; ring].
  - inversion H as [|? ? Hb Hrest]; subst. cbn [snd] in Hb.
    destruct (String.eqb k0 key); cbn [map snd Qsum fold_right revenue].
    + destruct (revenue b) as [q| | |]; try discriminate Hb.
      split; [constructor; [reflexivity | assumption] |].
      cbn [JS.add finite_part]. ring.
    + destruct (IH Hrest) as [F S]. split; [now constructor |].
      unfold Qsum in S. rewrite S. ring.
Qed.

Lemma monthlyData_acc (history : list Order) :
  forall acc,
    let data :=
      fold_left
        (fun data o => add_to_bucket (monthKey (createdAt o)) (amount_of (amount o)) data)
        history acc in
    (NoDup (map fst acc) -> NoDup (map fst data))
    /\ Zsum (map (fun e => orders (snd e)) data)
       = (Zsum (map (fun e => orders (snd e)) acc) + Z.of_nat (List.length history))%Z
    /\ (Forall (fun e => (1 <= orders (snd e))%Z) acc ->
        Forall (fun e => (1 <= orders (snd e))%Z) data)
    /\ (List.length data <= List.length acc + List.length history)%nat
    /\ (Forall (fun o => isFinite (amount_of (amount o)) = true) history ->
        Forall (fun e => isFinite (revenue (snd e)) = true) acc ->
        Forall (fun e => isFinite (revenue (snd e)) = true) data
        /\ (Qsum (map (fun e => finite_part (revenue (snd e))) data)
            == Qsum (map (fun e => finite_part (revenue (snd e))) acc)
               + Qsum (map (fun o => finite_part (amount_of (amount o))) history))%Q).
Proof.
  induction history as [|o history IH]; intros acc; cbn [fold_left].
  - repeat match goal with |- _ /\ _ => split end; auto; cbn; try lia.
    intros _ H. split; [exact H | ring].
  - destruct (IH (add_to_bucket (monthKey (createdAt o)) (amount_of (amount o)) acc))
      as (A & B & C & D & E).
    destruct (add_to_bucket_orders (monthKey (createdAt o)) (amount_of (amount o)) acc)
      as (O1 & O2 & O3).
    repeat match goal with |- _ /\ _ => split end.
    + intros H. apply A. now apply add_to_bucket_NoDup.
    + rewrite B, O1. cbn [List.length]. lia.
    + intros H. apply C. now apply O2.
    + cbn [List.length]. lia.
    + intros Hh Hacc. inversion Hh as [|? ? Ho Hrest]; subst.
      destruct (amount_of (amount o)) as [a| | |] eqn:Ea; try discriminate Ho.
      destruct (add_to_bucket_revenue (monthKey (createdAt o)) a acc Hacc) as [F S].
      destruct (E Hrest F) as [F' S']. split; [exact F' |].
      rewrite S', S. cbn [map Qsum fold_right]. rewrite Ea. cbn [finite_part].
      unfold Qsum. ring.
Qed.

Lemma Qsum_inject (l : list Z) :
  (Qsum (map inject_Z l) == inject_Z (Zsum l))%Q.
Proof.
  induction l as [|z l IH]; cbn [map Qsum Zsum fold_right]; [reflexivity |].
  unfold Qsum, Zsum in IH. rewrite IH, inject_Z_plus. reflexivity.
Qed.

(** X12.  The bucketing loop of the forecast loses nothing: every month
    has one bucket, every bucket counts at least one order, there are no
    more buckets than orders, the order counts of the buckets add up to
    the number of orders and, when every amount parses to a finite
    number, their revenues add up to the total of the amounts.  The
    average monthly orders times the number of months is therefore the
    number of orders. *)
Theorem monthly_buckets_conserve (history : list Order) :
  let months := map snd (monthlyData history) in
  NoDup (map fst (monthlyData history))
  /\ Forall (fun m => (1 <= orders m)%Z) months
  /\ (List.length months <= List.length history)%nat
  /\ sum_orders months == of_nat (List.length history)
  /\ (Forall (fun o => isFinite (amount_of (amount o)) = true) history ->
      sum_revenue months == totalRevenue history)
  /\ (history <> [] ->
      avgMonthlyOrders history * of_nat (List.length months)
      == of_nat (List.length history)).
Proof.
  intros months.
  destruct (monthlyData_acc history []) as (A & B & C & D & E).
  fold (monthlyData history) in A, B, C, D, E.
  cbn [map Zsum fold_right List.length] in B, D.
  assert (SO : sum_orders months == of_nat (List.length history)).
  { unfold sum_orders. eapply num_eq_trans.
    - apply (sum_of_finite (fun m => of_Z (orders m)) months 0).
      apply Forall_forall. now intros.
    - unfold of_nat, of_Z. cbn [num_eq finite_part].
      rewrite <- (map_map orders inject_Z), Qsum_inject.
      unfold months. rewrite map_map, B. rewrite Qplus_0_l. reflexivity. }
  repeat match goal with |- _ /\ _ => split end.
  - apply A. constructor.
  - unfold months. apply Forall_map. apply C. constructor.
  - unfold months. rewrite length_map. lia.
  - exact SO.
  - intros H. destruct (E H (Forall_nil _)) as [F S].
    unfold sum_revenue, totalRevenue. eapply num_eq_trans.
    + apply (sum_of_finite revenue months 0).
      unfold months. now apply Forall_map.
    + apply num_eq_sym. eapply num_eq_trans.
      * apply (sum_of_finite (fun o => amount_of (amount o)) history 0 H).
      * cbn [num_eq]. unfold months. rewrite map_map, S.
        cbn [map Qsum fold_right]. ring.
  - intros Hne.
    assert (L : (1 <= List.length months)%nat).
    { destruct months as [|m ms] eqn:Em; [| cbn; lia].
      exfalso. unfold sum_orders in SO. cbn in SO.
      destruct history; [congruence |]. cbn in SO.
      unfold Qeq in SO. cbn in SO. lia. }
    unfold avgMonthlyOrders. fold months.
    apply num_eq_sym in SO.
    destruct (num_eq_Fin_inv _ _ (num_eq_sym _ _ SO)) as (b & Eb & Hb).
    fold months in Eb. rewrite Eb.
    unfold month_count, Math_max, of_nat, of_Z. cbn [JS.lt].
    assert (M : Qlt_bool (inject_Z (Z.of_nat (List.length months))) 1 = false).
    { apply Qlt_bool_false_iff. change 1%Q with (inject_Z 1).
      rewrite <- Zle_Qle. lia. }
    rewrite M. cbn [JS.div].
    assert (NZ : ~ (inject_Z (Z.of_nat (List.length months)) == 0)%Q).
    { intros Z0. unfold Qeq in Z0. cbn [Qnum Qden inject_Z] in Z0. lia. }
    destruct (Qeq_bool (inject_Z (Z.of_nat (List.length months))) 0) eqn:Q0;
      [now apply Qeq_bool_iff in Q0 |].
    cbn [JS.mul num_eq]. rewrite <- Hb. field. exact NZ.
Qed.

(** An instance: two orders of one month. *)
Lemma monthly_buckets_conserve_witness :
  sum_revenue (map snd (monthlyData [Sample.guest_order; Sample.regular_order]))
  == totalRevenue [Sample.guest_order; Sample.regular_order]
  /\ avgMonthlyOrders [Sample.guest_order; Sample.regular_order]
     * of_nat (List.length (map snd (monthlyData [Sample.guest_order; Sample.regular_order])))
     == of_nat 2.
Proof.
  pose proof (monthly_buckets_conserve [Sample.guest_order; Sample.regular_order]) as H.
  cbv zeta in H. destruct H as (_ & _ & _ & _ & R & V).
  split; [apply R | apply V].
  - repeat constructor.
  - discriminate.
Defined.

(* ================================================================== *)
(** ** Forecasts without seasonality *)

Lemma reported_cents (p : Q) :
  exists w, parseFloat (toFixed 2 (Fin p)) = Fin w /\ (w == toFixed_value 2 p)%Q.
Proof. apply num_eq_Fin_inv, parseFloat_toFixed. Qed.

(** X13.  With seasonality disabled the forecast never declines: the
    applied growth rate is positive whatever growth was observed, so for
    a finite, non-negative average revenue the reported revenue of every
    horizon is at least the reported baseline, and a longer horizon never
    reports less than a shorter one. *)
Theorem forecast_never_declines
    (now : Z) (params : ForecastInput) (history : list Order)
    (res : Forecast) (r b : Q) :
  shopify_forecast now params history = Returned res ->
  include_seasonality params = Some false ->
  baseGrowthRate history (option_default (growth_scenario params) moderate) == Fin r ->
  avgMonthlyRevenue history == Fin b ->
  (0 <= b)%Q ->
  (0 < r)%Q
  /\ (forall f,
         In f (forecasts res) ->
         le (parseFloat (avg_monthly_revenue (baseline res)))
            (parseFloat (projected_monthly_revenue f)) = true)
  /\ (forall f1 f2,
         In f1 (forecasts res) -> In f2 (forecasts res) ->
         (months_ahead f1 <= months_ahead f2)%Q ->
         le (parseFloat (projected_monthly_revenue f1))
            (parseFloat (projected_monthly_revenue f2)) = true).
Proof.
  intros Hres Hseas Hr Hb Hb0.
  pose proof (baseGrowthRate_positive _ _ _ Hr) as Hr0.
  split; [exact Hr0 |].
  unfold shopify_forecast in Hres.
  destruct (DateModel.isoDate _); cbn [bind] in Hres; [| discriminate].
  destruct (map_completion _ _) as [points|] eqn:M; cbn [bind] in Hres;
    [| discriminate].
  injection Hres as <-. cbn [forecasts baseline avg_monthly_revenue].
  apply map_completion_Forall in M. rewrite Forall_forall in M.
  rewrite Hseas in M. cbn [option_default] in M.
  apply num_eq_Fin_inv in Hr, Hb.
  destruct Hr as (r' & Er & Hr), Hb as (b' & Eb & Hb).
  rewrite Er, Eb in M. rewrite Eb.
  assert (Hr' : (0 <= r')%Q) by lra. assert (Hb' : (0 <= b')%Q) by lra.
  destruct (reported_cents b') as (w0 & -> & W0).
  split.
  - intros f Hf. destruct (M f Hf) as (h & _ & F).
    destruct (forecast_point_fields _ _ _ _ _ _ _ F) as (_ & _ & R).
    destruct (grow_plain_increases r' now (loop_range h) Hr' b' Hb') as (p & E & L).
    rewrite E in R. rewrite R.
    destruct (reported_cents p) as (w & -> & W).
    cbn [JS.le]. apply Qle_bool_iff. rewrite W0, W. now apply cents_mono.
  - intros f1 f2 In1 In2 H12.
    destruct (M f1 In1) as (h1 & _ & F1). destruct (M f2 In2) as (h2 & _ & F2).
    destruct (forecast_point_fields _ _ _ _ _ _ _ F1) as (M1 & _ & R1).
    destruct (forecast_point_fields _ _ _ _ _ _ _ F2) as (M2 & _ & R2).
    rewrite M1, M2 in H12.
    destruct (loop_range_prefix h1 h2 H12) as [ext Hext].
    rewrite Hext, fold_left_app in R2.
    destruct (grow_plain_increases r' now (loop_range h1) Hr' b' Hb') as (p1 & E1 & L1).
    rewrite E1 in R1, R2.
    destruct (grow_plain_increases r' now ext Hr' p1 (Qle_trans _ _ _ Hb' L1))
      as (p2 & E2 & L2).
    rewrite E2 in R2. rewrite R1, R2.
    destruct (reported_cents p1) as (w1 & -> & W1).
    destruct (reported_cents p2) as (w2 & -> & W2).
    cbn [JS.le]. apply Qle_bool_iff. rewrite W1, W2. apply cents_mono; lra.
Qed.

(** An instance: a month of 1000.00 followed by a month of 500.00, an
    observed decline of one half. *)
Lemma forecast_never_declines_witness :
  match shopify_forecast Sample.late_august
          (Sample.forecast_input [1; 4]%Q conservative false)
          [Sample.order_at 1787000000000 (Some "500.00");
           Sample.order_at 1784000000000 (Some "1000.00")] with
  | Returned res =>
      forall f,
        In f (forecasts res) ->
        le (parseFloat (avg_monthly_revenue (baseline res)))
           (parseFloat (projected_monthly_revenue f)) = true
  | Thrown _ => False
  end.
Proof.
  destruct (shopify_forecast Sample.late_august
              (Sample.forecast_input [1; 4]%Q conservative false)
              [Sample.order_at 1787000000000 (Some "500.00");
               Sample.order_at 1784000000000 (Some "1000.00")]) as [res|e] eqn:E.
  - apply (forecast_never_declines Sample.late_august
             (Sample.forecast_input [1; 4]%Q conservative false)
             [Sample.order_at 1787000000000 (Some "500.00");
              Sample.order_at 1784000000000 (Some "1000.00")]
             res (2 # 100) 750 E).
    + reflexivity.
    + vm_compute. reflexivity.
    + vm_compute. reflexivity.
    + discriminate.
  - vm_compute in E. discriminate E.
Defined.

(* ================================================================== *)
(** ** The conversion funnel *)




(** ** Reading a percentage back *)



(** ** Recommendations of the conversion report *)






(* ================================================================== *)
(** ** Totals of the product report *)

Lemma productStats_flat (orders : list ProductOrder) :
  forall acc,
    fold_left (fun stats o => fold_left (fun s item => add_item item s) (order_items o) stats)
              orders acc
    = fold_left (fun s item => add_item item s) (all_items orders) acc.
Proof.
  unfold all_items. induction orders as [|o orders IH]; intros acc; cbn [fold_left flat_map].
  - reflexivity.
  - now rewrite fold_left_app, IH.
Qed.

Lemma add_item_keys (item : ProductLineItem) (k : string)
    (stats : list (string * ProductStat)) :
  In k (map fst (add_item item stats)) <-> k = productId item \/ In k (map fst stats).
Proof.
  induction stats as [|[k0 st] rest IH]; cbn [add_item map fst In].
  - intuition.
  - destruct (String.eqb k0 (productId item)) eqn:E; cbn [map fst In].
    + apply String.eqb_eq in E; subst k0. intuition.
    + rewrite IH. intuition.
Qed.

Lemma add_item_NoDup (item : ProductLineItem) (stats : list (string * ProductStat)) :
  NoDup (map fst stats) -> NoDup (map fst (add_item item stats)).
Proof.
  induction stats as [|[k0 st] rest IH]; cbn [add_item map fst]; intros H.
  - constructor; [intros [] | constructor].
  - inversion H as [|? ? Hin Hrest]; subst.
    destruct (String.eqb k0 (productId item)) eqn:E; cbn [map fst].
    + now constructor.
    + constructor; [| now apply IH].
      rewrite add_item_keys. intros [-> | Hk]; [| contradiction].
      now rewrite String.eqb_refl in E.
Qed.

Lemma add_item_counts (item : ProductLineItem) (stats : list (string * ProductStat)) :
  Zsum (map (fun e => units_sold (snd e)) (add_item item stats))
  = (Zsum (map (fun e => units_sold (snd e)) stats) + item_quantity item)%Z
  /\ (Forall (fun e => (1 <= order_count (snd e))%Z) stats ->
      Forall (fun e => (1 <= order_count (snd e))%Z) (add_item item stats)).
Proof.
  induction stats as [|[k0 st] rest (IH1 & IH2)];
    cbn [add_item map snd Zsum fold_right count_item fresh_stat units_sold].
  - split; [lia |]. intros _. repeat constructor. cbn. lia.
  - destruct (String.eqb k0 (productId item));
      cbn [map snd Zsum fold_right count_item units_sold].
    + split; [lia |]. intros H. inversion H; subst.
      constructor; [cbn in *; lia | assumption].
    + unfold Zsum in IH1. rewrite IH1. split; [lia |].
      intros H. inversion H; subst. constructor; [assumption | now apply IH2].
Qed.

Lemma add_item_revenue (item : ProductLineItem) (a : Q)
    (stats : list (string * ProductStat)) :
  amount_of (item_amount item) = Fin a ->
  Forall (fun e => isFinite (stat_revenue (snd e)) = true) stats ->
  Forall (fun e => isFinite (stat_revenue (snd e)) = true) (add_item item stats)
  /\ (Qsum (map (fun e => finite_part (stat_revenue (snd e))) (add_item item stats))
      == Qsum (map (fun e => finite_part (stat_revenue (snd e))) stats) + a)%Q.
Proof.
  intros Ha. induction stats as [|[k0 st] rest IH]; intros H; cbn [add_item].
  - unfold count_item, fresh_stat. cbn [map snd stat_revenue Qsum fold_right].
    rewrite Ha. split; [repeat constructor | cbn [JS.add finite_part]; ring].
  - inversion H as [|? ? Hb Hrest]; subst. cbn [snd] in Hb.
    destruct (String.eqb k0 (productId item)).
    + unfold count_item. cbn [map snd stat_revenue Qsum fold_right].
      rewrite Ha. destruct (stat_revenue st) as [q| | |]; try discriminate Hb.
      split; [constructor; [reflexivity | assumption] |].
      cbn [JS.add finite_part]. ring.
    + cbn [map snd Qsum fold_right].
      destruct (IH Hrest) as [F S]. split; [now constructor |].
      unfold Qsum in S. rewrite S. ring.
Qed.

Lemma productStats_acc (items : list ProductLineItem) :
  forall acc,
    let stats := fold_left (fun s item => add_item item s) items acc in
    (NoDup (map fst acc) -> NoDup (map fst stats))
    /\ (forall k, In k (map fst stats)
                  <-> In k (map productId items) \/ In k (map fst acc))
    /\ Zsum (map (fun e => units_sold (snd e)) stats)
       = (Zsum (map (fun e => units_sold (snd e)) acc)
          + Zsum (map item_quantity items))%Z
    /\ (Forall (fun e => (1 <= order_count (snd e))%Z) acc ->
        Forall (fun e => (1 <= order_count (snd e))%Z) stats)
    /\ (Forall (fun item => isFinite (amount_of (item_amount item)) = true) items ->
        Forall (fun e => isFinite (stat_revenue (snd e)) = true) acc ->
        Forall (fun e => isFinite (stat_revenue (snd e)) = true) stats
        /\ (Qsum (map (fun e => finite_part (stat_revenue (snd e))) stats)
            == Qsum (map (fun e => finite_part (stat_revenue (snd e))) acc)
               + Qsum (map (fun item => finite_part (amount_of (item_amount item))) items))%Q).
Proof.
  induction items as [|item items IH]; intros acc; cbn [fold_left].
  - repeat match goal with |- _ /\ _ => split end; auto; cbn; try lia; try tauto.
    intros _ H. split; [exact H | ring].
  - destruct (IH (add_item item acc)) as (A & K & B & C & E).
    destruct (add_item_counts item acc) as (O1 & O2).
    repeat match goal with |- _ /\ _ => split end.
    + intros H. apply A. now apply add_item_NoDup.
    + intros k. rewrite K, add_item_keys. cbn [map In]. intuition.
    + rewrite B, O1. cbn [map Zsum fold_right]. unfold Zsum. lia.
    + intros H. apply C. now apply O2.
    + intros Hh Hacc. inversion Hh as [|? ? Ho Hrest]; subst.
      destruct (amount_of (item_amount item)) as [a| | |] eqn:Ea; try discriminate Ho.
      destruct (add_item_revenue item a acc Ea Hacc) as [F S].
      destruct (E Hrest F) as [F' S']. split; [exact F' |].
      rewrite S', S. cbn [map Qsum fold_right]. rewrite Ea. cbn [finite_part].
      unfold Qsum. ring.
Qed.

(** [Object.entries] lists every entry once. *)
Lemma insert_by_index_perm {V} (e : N * (string * V)) (l : list (N * (string * V))) :
  Permutation (insert_by_index e l) (e :: l).
Proof.
  induction l as [|x rest IH]; cbn [insert_by_index]; [apply Permutation_refl |].
  destruct (fst e <=? fst x)%N; [apply Permutation_refl |].
  eapply perm_trans; [apply perm_skip, IH | apply perm_swap].
Qed.

Lemma Object_entries_perm {V} (l : list (string * V)) :
  Permutation (Object_entries l) l.
Proof.
  unfold Object_entries.
  assert (S : Permutation
                (map snd (fold_right insert_by_index [] (cat_options (map indexed l))))
                (map snd (cat_options (map indexed l)))).
  { apply Permutation_map.
    induction (cat_options (map indexed l)) as [|x xs IH]; cbn [fold_right];
      [constructor |].
    eapply perm_trans; [apply insert_by_index_perm | now apply perm_skip]. }
  eapply perm_trans; [apply Permutation_app_tail, S |].
  clear S. induction l as [|e l IH]; cbn [map cat_options filter]; [constructor |].
  unfold indexed at 1. destruct (array_index (fst e)); cbn [option_map cat_options map snd].
  - cbn [app]. now apply perm_skip.
  - eapply perm_trans; [apply Permutation_sym, Permutation_middle |].
    now apply perm_skip.
Qed.







(** ** Ratios and rankings of the product report *)

Lemma products_entries (orders : list ProductOrder) (p : ProductRow) :
  In p (products orders) ->
  exists e, In e (productStats orders) /\ p = product_row e.
Proof.
  unfold products. intros H. apply in_map_iff in H as (e & <- & He).
  exists e. split; [| reflexivity].
  apply (Permutation_in _ (Object_entries_perm (productStats orders))). exact He.
Qed.

Lemma productStats_order_count (orders : list ProductOrder) :
  Forall (fun e => (1 <= order_count (snd e))%Z) (productStats orders).
Proof.
  destruct (productStats_acc (all_items orders) []) as (_ & _ & _ & C & _).
  rewrite <- (productStats_flat orders []) in C. apply C. constructor.
Qed.

Lemma ratio_finite (a b : Z) : (0 < b)%Z -> of_Z a / of_Z b = Fin (inject_Z a / inject_Z b).
Proof.
  intros H. unfold of_Z. cbn [JS.div].
  destruct (Qeq_bool (inject_Z b) 0) eqn:E; [| reflexivity].
  apply Qeq_bool_iff in E. unfold Qeq in E. cbn [Qnum Qden inject_Z] in E. lia.
Qed.

Lemma velocity_finite (e : string * ProductStat) :
  isFinite (velocity (product_row e)) = true.
Proof.
  cbn [product_row velocity]. destruct (Z.ltb_spec 0 (inventory (snd e))) as [H | H].
  - now rewrite ratio_finite.
  - reflexivity.
Qed.

(** X17.  Of the three ratios of a product row, two are always defined:
    every product of the report was counted for at least one line item,
    so the average quantity per order never divides by zero, and the
    velocity divides by the inventory only when it is positive (with no,
    zero or negative stock it is the number of units sold).  The revenue
    per unit is not guarded: for a product with zero units sold it is
    [NaN] or an infinity. *)
Theorem product_ratios_defined (orders : list ProductOrder) (p : ProductRow) :
  In p (products orders) ->
  (1 <= row_order_count p)%Z
  /\ avg_order_quantity p
     = Fin (inject_Z (row_units_sold p) / inject_Z (row_order_count p))
  /\ isFinite (velocity p) = true
  /\ ((row_inventory p <= 0)%Z -> velocity p = of_Z (row_units_sold p))
  /\ ((0 < row_inventory p)%Z ->
      velocity p = Fin (inject_Z (row_units_sold p) / inject_Z (row_inventory p)))
  /\ (row_units_sold p = 0%Z -> isFinite (revenue_per_unit p) = false).
Proof.
  intros H. destruct (products_entries orders p H) as (e & He & ->).
  pose proof (productStats_order_count orders) as C.
  rewrite Forall_forall in C. specialize (C e He).
  pose proof (velocity_finite e) as VF.
  cbn [product_row row_order_count avg_order_quantity row_units_sold row_inventory
       revenue_per_unit velocity] in *.
  repeat match goal with |- _ /\ _ => split end.
  - exact C.
  - apply ratio_finite. lia.
  - exact VF.
  - intros Hi.
    destruct (Z.ltb_spec 0 (inventory (snd e))); [lia | reflexivity].
  - intros Hi.
    destruct (Z.ltb_spec 0 (inventory (snd e))); [| lia]. now apply ratio_finite.
  - intros ->. unfold of_Z. destruct (stat_revenue (snd e)) as [q| | |]; cbn [JS.div].
    + change (Qeq_bool (inject_Z 0) 0) with true. cbv iota.
      destruct (Qeq_bool q 0); [reflexivity |]. now destruct (Qlt_bool q 0).
    + reflexivity.
    + reflexivity.
    + reflexivity.
Qed.

(** An instance: the first product of the sample orders. *)
Lemma product_ratios_defined_witness :
  match products Sample.busy_orders with
  | p :: _ => isFinite (velocity p) = true /\ (1 <= row_order_count p)%Z
  | [] => False
  end.
Proof.
  destruct (products Sample.busy_orders) as [|p rest] eqn:E.
  - vm_compute in E. discriminate E.
  - destruct (product_ratios_defined Sample.busy_orders p) as (A & _ & B & _).
    + rewrite E. now left.
    + split; assumption.
Defined.

(** X18.  The ranked lists of the product report are ranked: each is
    the beginning of a list of all the products that is in descending
    order of units sold, of velocity and, when every line amount parses
    to a finite number, of revenue, so no product left out of a list
    beats one that is in it; for a [top_n] that is not negative the
    lists hold [top_n] products (truncated to an integer), or all of
    them when there are fewer. *)
Theorem ranked_lists_are_ranked (orders : list ProductOrder) (top_n : option Q) :
  let n := option_default top_n 10%Q in
  (exists rest,
      Permutation (top_by_units orders top_n ++ rest) (products orders)
      /\ StronglySorted (fun a b => (row_units_sold b <= row_units_sold a)%Z)
                        (top_by_units orders top_n ++ rest))
  /\ (exists rest,
         Permutation (fastest_moving orders top_n ++ rest) (products orders)
         /\ StronglySorted (fun a b => le (velocity b) (velocity a) = true)
                           (fastest_moving orders top_n ++ rest))
  /\ (Forall (fun item => isFinite (amount_of (item_amount item)) = true)
             (all_items orders) ->
      exists rest,
        Permutation (top_by_revenue orders top_n ++ rest) (products orders)
        /\ StronglySorted (fun a b => le (row_revenue b) (row_revenue a) = true)
                          (top_by_revenue orders top_n ++ rest))
  /\ ((0 <= n)%Q ->
      let k := Nat.min (Z.to_nat (Qfloor n)) (List.length (products orders)) in
      List.length (top_by_units orders top_n) = k
      /\ List.length (fastest_moving orders top_n) = k
      /\ List.length (top_by_revenue orders top_n) = k).
Proof.
  intros n.
  assert (U : StronglySorted (fun a b => (row_units_sold b <= row_units_sold a)%Z)
                             (byUnits orders)).
  { eapply StronglySorted_weaken;
      [| apply (Array_sort_ranked (fun p => of_Z (row_units_sold p)) (products orders));
         apply Forall_forall; now intros].
    intros a b H. unfold of_Z in H. cbn [JS.le] in H.
    apply Qle_bool_iff in H. now rewrite <- Zle_Qle in H. }
  assert (V : StronglySorted (fun a b => le (velocity b) (velocity a) = true)
                             (byVelocity orders)).
  { apply (Array_sort_ranked velocity (products orders)).
    apply Forall_forall. intros p Hp.
    destruct (products_entries orders p Hp) as (e & _ & ->). apply velocity_finite. }
  repeat match goal with |- _ /\ _ => split end.
  - destruct (slice_to_prefix (byUnits orders) n) as [rest E].
    exists rest. fold n. unfold top_by_units. fold n. rewrite <- E.
    split; [apply Array_sort_perm | exact U].
  - destruct (slice_to_prefix (byVelocity orders) n) as [rest E].
    exists rest. unfold fastest_moving. fold n. rewrite <- E.
    split; [apply Array_sort_perm | exact V].
  - intros Hf.
    destruct (slice_to_prefix (byRevenue orders) n) as [rest E].
    exists rest. unfold top_by_revenue. fold n. rewrite <- E.
    split; [apply Array_sort_perm |].
    apply (Array_sort_ranked row_revenue (products orders)).
    apply Forall_forall. intros p Hp.
    destruct (products_entries orders p Hp) as (e & He & ->).
    destruct (productStats_acc (all_items orders) []) as (_ & _ & _ & _ & R).
    rewrite <- (productStats_flat orders []) in R.
    destruct (R Hf (Forall_nil _)) as [F _].
    rewrite Forall_forall in F. now apply F.
  - intros Hn k. unfold top_by_units, fastest_moving, top_by_revenue. fold n.
    rewrite !slice_to_length by exact Hn.
    unfold byUnits, byVelocity, byRevenue. rewrite !Array_sort_length.
    repeat split.
Qed.

(** An instance: the three best sellers of the sample orders. *)
Lemma ranked_lists_are_ranked_witness :
  List.length (top_by_revenue Sample.busy_orders (Some 3%Q)) = 3%nat
  /\ exists rest,
       Permutation (top_by_revenue Sample.busy_orders (Some 3%Q) ++ rest)
                   (products Sample.busy_orders)
       /\ StronglySorted (fun a b => le (row_revenue b) (row_revenue a) = true)
                         (top_by_revenue Sample.busy_orders (Some 3%Q) ++ rest).
Proof.
  pose proof (ranked_lists_are_ranked Sample.busy_orders (Some 3%Q)) as H.
  cbv zeta in H. destruct H as (_ & _ & R & H). split.
  - destruct H as (_ & _ & H); [discriminate |]. rewrite H. reflexivity.
  - apply R. repeat constructor.
Defined.

(** ** Identifiers of the product rows *)

Lemma substring_whole (s : string) : String.substring 0 (String.length s) s = s.
Proof. induction s as [|c s IH]; simpl; [reflexivity | now rewrite IH]. Qed.

Lemma substring_skip (p s : string) (n : nat) :
  String.substring (String.length p) n (p ++ s) = String.substring 0 n s.
Proof. induction p as [|c p IH]; simpl; [reflexivity | exact IH]. Qed.

Lemma remove_first_unfold (pat s : string) :
  remove_first pat s
  = if String.prefix pat s
    then String.substring (String.length pat) (String.length s - String.length pat) s
    else match s with
         | EmptyString => EmptyString
         | String c rest => String c (remove_first pat rest)
         end.
Proof. destruct s; reflexivity. Qed.

Lemma remove_first_prefix (pat s : string) : remove_first pat (pat ++ s) = s.
Proof.
  rewrite remove_first_unfold, prefix_app, substring_skip, length_append.
  replace (String.length pat + String.length s - String.length pat)%nat
    with (String.length s) by lia.
  apply substring_whole.
Qed.

Lemma remove_first_absent (pat s : string) :
  includes s pat = false -> remove_first pat s = s.
Proof.
  induction s as [|c s IH]; cbn [includes remove_first]; intros H.
  - apply orb_false_elim in H as [H _]. now rewrite H.
  - apply orb_false_elim in H as [H1 H2]. rewrite H1. now rewrite (IH H2).
Qed.

(** X19.  A product row carries the numeric part of the product id: the
    prefix [gid://shopify/Product/] is removed from the key, which for a
    numeric id is what [extractNumericId] returns; a key in which the
    prefix does not occur (the title of a custom line item) is kept as it
    is. *)
Theorem product_row_numeric_id (suffix : string) (stats : ProductStat) :
  row_id (product_row (("gid://shopify/Product/" ++ suffix)%string, stats)) = suffix
  /\ (suffix <> "" -> forallb is_digit (chars suffix) = true ->
      row_id (product_row (("gid://shopify/Product/" ++ suffix)%string, stats))
      = Client.extractNumericId ("gid://shopify/Product/" ++ suffix))
  /\ (forall key,
         includes key "gid://shopify/Product/" = false ->
         row_id (product_row (key, stats)) = key).
Proof.
  pose proof (remove_first_prefix "gid://shopify/Product/" suffix) as E.
  cbn [product_row row_id fst]. repeat split.
  - exact E.
  - intros Hne Hd. rewrite E. symmetry.
    unfold Client.extractNumericId.
    change ("gid://shopify/Product/" ++ suffix)%string
      with ("gid://shopify/Product" ++ String "/" suffix)%string.
    now rewrite match_numeric_tail_app.
  - intros key H. now apply remove_first_absent.
Qed.

(** An instance: product 9 of the sample orders and a custom item. *)
Lemma product_row_numeric_id_witness :
  row_id (product_row ("gid://shopify/Product/9",
                       fresh_stat (Sample.item_of "gid://shopify/Product/9" 4 5)))
  = Client.extractNumericId "gid://shopify/Product/9"
  /\ row_id (product_row ("2024", fresh_stat Sample.custom_item)) = "2024".
Proof.
  split.
  - apply (product_row_numeric_id "9"); [discriminate | reflexivity].
  - apply (product_row_numeric_id ""). reflexivity.
Defined.

(** ** The remark on the change against the previous period *)




(* ================================================================== *)
(** ** The band around a forecast *)

Lemma cents_sign (a : Q) :
  ((0 <= a)%Q -> (0 <= toFixed_value 2 a)%Q)
  /\ ((a < 0)%Q -> (toFixed_value 2 a <= 0)%Q).
Proof.
  assert (P : forall x, (0 <= x)%Q -> (0 <= inject_Z (Qfloor (x * 100 + (1 # 2))) / 100)%Q).
  { intros x Hx.
    assert (F : (0 <= Qfloor (x * 100 + (1 # 2)))%Z).
    { rewrite <- (Qfloor_Z 0). apply Qfloor_resp_le. change (inject_Z 0) with 0%Q. lra. }
    rewrite Zle_Qle in F. change (inject_Z 0) with 0%Q in F.
    unfold Qdiv. apply Qmult_le_0_compat; [exact F | vm_compute; discriminate]. }
  split; intros H.
  - rewrite cents_nonneg by exact H. now apply P.
  - rewrite cents_negative by exact H.
    assert (Q0 : (0 <= - a)%Q) by lra. specialize (P (- a) Q0). lra.
Qed.

(** Rounding to cents is monotone, whatever the signs. *)
Lemma cents_mono_signed (a b : Q) :
  (a <= b)%Q -> (toFixed_value 2 a <= toFixed_value 2 b)%Q.
Proof.
  intros Hab. destruct (Qlt_le_dec a 0) as [Ha | Ha].
  - destruct (Qlt_le_dec b 0) as [Hb | Hb].
    + rewrite (cents_negative a Ha), (cents_negative b Hb).
      assert (F : (Qfloor (- b * 100 + (1 # 2)) <= Qfloor (- a * 100 + (1 # 2)))%Z)
        by (apply Qfloor_resp_le; lra).
      rewrite Zle_Qle in F.
      assert (G : (inject_Z (Qfloor (- b * 100 + (1 # 2))) / 100
                   <= inject_Z (Qfloor (- a * 100 + (1 # 2))) / 100)%Q).
      { unfold Qdiv. apply Qmult_le_compat_r; [exact F | vm_compute; discriminate]. }
      lra.
    + pose proof (proj2 (cents_sign a) Ha). pose proof (proj1 (cents_sign b) Hb). lra.
  - now apply cents_mono.
Qed.

(** An amount in cents is printed as it is. *)
Lemma cents_fixed_point (p : Q) :
  (0 <= p)%Q -> (toFixed_value 2 (toFixed_value 2 p) == toFixed_value 2 p)%Q.
Proof.
  intros Hp. pose proof (proj1 (cents_sign p) Hp) as Hc.
  pose proof (cents_nonneg p Hp) as E1.
  assert (E2 : (toFixed_value 2 p * 100 + (1 # 2)
                == inject_Z (Qfloor (p * 100 + (1 # 2))) + (1 # 2))%Q)
    by (rewrite E1; field).
  eapply Qeq_trans; [apply cents_nonneg; exact Hc |].
  rewrite (Qfloor_comp _ _ E2), Qfloor_shift.
  change (Qfloor (1 # 2)) with 0%Z. rewrite Z.add_0_r. symmetry. exact E1.
Qed.

(** X21.  The confidence band brackets the forecast it belongs to: for a
    horizon that is not negative and a reported revenue that is not
    negative, [revenue_low] is at most the reported revenue and
    [revenue_high] at least, as the numbers the three strings denote.
    (For horizons beyond 44 months the lower bound is negative.) *)
Theorem band_brackets_forecast (f : ForecastPoint) (p : Q) :
  (0 <= p)%Q -> (0 <= months_ahead f)%Q ->
  projected_monthly_revenue f = toFixed 2 (Fin p) ->
  le (parseFloat (revenue_low (confidence_interval f)))
     (parseFloat (projected_monthly_revenue f)) = true
  /\ le (parseFloat (projected_monthly_revenue f))
        (parseFloat (revenue_high (confidence_interval f))) = true.
Proof.
  intros Hp Hh Hrev.
  destruct (confidence_interval_formula f) as [Elow Ehigh].
  rewrite Elow, Ehigh, Hrev, (Math_sqrt_finite _ Hh).
  pose proof (sqrtQ_nonneg (months_ahead f)) as Hs.
  destruct (num_eq_Fin_inv _ _ (parseFloat_toFixed 2 p)) as (c & -> & Hc).
  cbn [JS.mul JS.add JS.sub JS.neg].
  assert (C0 : (0 <= c)%Q) by (rewrite Hc; now apply cents_sign).
  assert (Cf : (toFixed_value 2 c == c)%Q).
  { rewrite (toFixed_value_Qeq 2 c _ Hc), cents_fixed_point by exact Hp.
    now rewrite Hc. }
  destruct (num_eq_Fin_inv _ _
              (parseFloat_toFixed 2 (c * (1 + - ((15 # 100) * sqrtQ (months_ahead f))))))
    as (lo & -> & Hlo).
  destruct (num_eq_Fin_inv _ _
              (parseFloat_toFixed 2 (c * (1 + (15 # 100) * sqrtQ (months_ahead f)))))
    as (hi & -> & Hhi).
  cbn [JS.le]. split; apply Qle_bool_iff.
  - apply Qle_trans with (toFixed_value 2 c);
      [rewrite Hlo; apply cents_mono_signed; nra | rewrite Cf; apply Qle_refl].
  - apply Qle_trans with (toFixed_value 2 c);
      [rewrite Cf; apply Qle_refl | rewrite Hhi; apply cents_mono_signed; nra].
Qed.

(** An instance: 1050.00 at three months. *)
Lemma band_brackets_forecast_witness :
  map (fun ci => (revenue_low ci, revenue_high ci))
      (map confidence_interval
         [ {| months_ahead := 3; date := "2027-01-13";
              projected_monthly_orders := Fin 10;
              projected_monthly_revenue := "1050.00";
              projected_monthly_sessions := Fin 400;
              growth_from_current := "5.0" |} ])
  = [("777.20", "1322.80")]
  /\ le (parseFloat "777.20") (parseFloat "1050.00") = true.
Proof.
  split; [vm_compute; reflexivity |].
  pose proof (band_brackets_forecast
                {| months_ahead := 3; date := "2027-01-13";
                   projected_monthly_orders := Fin 10;
                   projected_monthly_revenue := "1050.00";
                   projected_monthly_sessions := Fin 400;
                   growth_from_current := "5.0" |} 1050) as H.
  destruct H as [H _]; [discriminate | discriminate | reflexivity |].
  exact H.
Defined.

(* ================================================================== *)
(** ** Stages of the funnel *)

Lemma Math_round_ratio (t : nat) (d : Q) :
  ~ (d == 0)%Q ->
  Math_round (of_nat t / Fin d)
  = of_Z (Qfloor (inject_Z (Z.of_nat t) / d + (1 # 2))).
Proof.
  intros H. unfold of_nat, of_Z. cbn [JS.div].
  destruct (Qeq_bool d 0) eqn:E; [now apply Qeq_bool_iff in E | reflexivity].
Qed.

(** X22.  The stages of the conversion funnel never grow from one to the
    next: the estimated visitors are at least the estimated additions to
    the cart, these at least the checkouts reached, and these at least
    the purchases completed, for every number of orders and of abandoned
    checkouts. *)
Theorem funnel_stages_decrease
    (now : Z) (period : option Q) (completed : list Order)
    (abandoned : list Checkout) (a : ConversionAnalysis) :
  shopify_conversion_analysis now period completed abandoned = Returned a ->
  exists visitors carts : Z,
    estimated_visitors a = of_Z visitors
    /\ estimated_add_to_cart a = of_Z carts
    /\ (Z.of_nat (completed_purchase a) <= Z.of_nat (reached_checkout a))%Z
    /\ (Z.of_nat (reached_checkout a) <= carts)%Z
    /\ (carts <= visitors)%Z.
Proof.
  intros H. unfold shopify_conversion_analysis in H.
  destruct (DateModel.isoDate _) in H; [| discriminate H].
  injection H as <-.
  set (t := (List.length completed + List.length abandoned)%nat).
  exists (Qfloor (inject_Z (Z.of_nat t) / (3 # 100) + (1 # 2))),
         (Qfloor (inject_Z (Z.of_nat t) / (45 # 100) + (1 # 2))).
  split; [rewrite <- (Math_round_ratio t (3 # 100)) by discriminate; reflexivity |].
  split; [rewrite <- (Math_round_ratio t (45 # 100)) by discriminate; reflexivity |].
  assert (T : (0 <= inject_Z (Z.of_nat t))%Q).
  { change 0%Q with (inject_Z 0). rewrite <- Zle_Qle. lia. }
  assert (E1 : (inject_Z (Z.of_nat t) / (45 # 100) == inject_Z (Z.of_nat t) * (100 # 45))%Q)
    by reflexivity.
  assert (E2 : (inject_Z (Z.of_nat t) / (3 # 100) == inject_Z (Z.of_nat t) * (100 # 3))%Q)
    by reflexivity.
  repeat split.
  - change (Z.of_nat (List.length completed) <= Z.of_nat t)%Z. unfold t. lia.
  - change (Z.of_nat t
            <= Qfloor (inject_Z (Z.of_nat t) / (45 # 100) + (1 # 2)))%Z.
    rewrite <- (Qfloor_Z (Z.of_nat t)) at 1. apply Qfloor_resp_le. rewrite E1. lra.
  - apply Qfloor_resp_le. rewrite E1, E2. lra.
Qed.

(** An instance: thirty completed and seventy abandoned checkouts. *)
Lemma funnel_stages_decrease_witness :
  exists a visitors carts,
    shopify_conversion_analysis Sample.mid_october None
      (repeat Sample.guest_order 30)
      (repeat {| checkout_amount := Some "40.00" |} 70) = Returned a
    /\ estimated_visitors a = of_Z visitors
    /\ estimated_add_to_cart a = of_Z carts
    /\ (Z.of_nat (reached_checkout a) <= carts <= visitors)%Z.
Proof.
  destruct (shopify_conversion_analysis Sample.mid_october None
              (repeat Sample.guest_order 30)
              (repeat {| checkout_amount := Some "40.00" |} 70)) as [a|e] eqn:E.
  - destruct (funnel_stages_decrease _ _ _ _ _ E) as (v & c & V & C & _ & L1 & L2).
    exists a, v, c. repeat split; assumption.
  - vm_compute in E. discriminate E.
Defined.
